(** * Activity tracker of the DriftDetect dashboard

    A shallow embedding of the [Dashboard] React component (the tracker
    page of the frontend) together with the part of the browser it talks
    to: the clock and its timers, the DOM events it listens to, and the
    HTTP requests it issues through axios.

    - The five [useState] cells are fields of [State].
    - Every [useEffect] whose body installs a listener or a timer is an
      "effect instance": an optional record holding the local variables of
      the effect body and the values captured by the closures it uses
      ([logEvent] captures [sessionId]; [getDriftAnalysis] captures
      [sessionId] and [showAlert]).  A state update re-runs exactly the
      effects whose dependency array changed, cleanup first.
    - An [await] splits an async function in two: the part that issues the
      request, and the continuation that runs when the response arrives.
      The request waiting for its response sits in [inflight].
    - Time is counted in milliseconds; [tick] lets one millisecond pass and
      runs the timers that are due.

    Numbers are JavaScript numbers in the source; counters and times stay
    far below 2^53, so they are integers of [Z] here.  A render and the
    effects it schedules are taken as one atomic step. *)

From Stdlib Require Import ZArith List String Bool Lia QArith.
From Stdlib Require Import Ascii DecimalString DecimalPos DecimalZ.
Import ListNotations.
Local Open Scope string_scope.
Local Open Scope list_scope.
Local Open Scope Z_scope.

(** ** Data model *)

(** [sessionId]: [null] (or [undefined]) or the string the backend issued. *)
Definition SessionId := option string.

(** JavaScript truthiness of a session id: [!sessionId] holds for [null]
    and for the empty string. *)
Definition truthy (v : SessionId) : bool :=
  match v with
  | Some id => negb (String.eqb id "")
  | None => false
  end.

Definition SessionId_eqb (a b : SessionId) : bool :=
  match a, b with
  | Some x, Some y => String.eqb x y
  | None, None => true
  | _, _ => false
  end.

(** The metrics snapshot of [useState({activeTime: 0, ...})]. *)
Record Metrics := {
  activeTime : Z;
  scrolls : Z;
  clicks : Z;
  mouseMovements : Z;
  idleTime : Z;
  tabCount : Z
}.

(** The drift analysis the backend returns; [confidence] and [drift_score]
    are only rendered, rationals stand for them. *)
Record Analysis := {
  is_drifting : bool;
  confidence : Q;
  drift_score : Q;
  recommendation : string;
  factors : list (string * bool)
}.

(** The [data] argument of [logEvent], one shape per call site. *)
Inductive EventData :=
| DScroll (scrollY : Z)
| DClick (x y : Z)
| DMove (count : Z)
| DIdle (duration : Z)
| DVisibility (hidden : bool).

(** Requests issued through axios, as they leave the browser. *)
Inductive Request :=
| PostSessionStart
| PostTrackingEvent (session_id : SessionId) (event_type : string) (data : EventData)
| GetAnalysis (session_id : SessionId)
| DeleteSession (session_id : SessionId).

(** An async function suspended at its [await]: which continuation runs
    when the response arrives.  [PAnalysis b] is [getDriftAnalysis]
    suspended with [showAlert = b] in its closure. *)
Inductive Pending :=
| PStart
| PEvent
| PAnalysis (showAlert : bool)
| PDelete.

(** What the backend answers. *)
Inductive Reply :=
| Failed
| Started (id : string)
| Analysed (a : Analysis)
| Done.

(** Effect instances: locals of an effect body plus captured values. *)
Record ScrollFx := {
  scrollTimeout : option Z;        (* due time of the pending timeout *)
  scroll_logEvent : SessionId      (* sessionId inside the captured logEvent *)
}.

Record ClickFx := { click_logEvent : SessionId }.

Record MoveFx := {
  moveTimeout : option Z;
  moveCount : Z;
  move_logEvent : SessionId
}.

Record IdleFx := {
  idleTimer : Z;                   (* next due time of the 5000ms interval *)
  idleStartTime : Z;
  idle_logEvent : SessionId
}.

Record VisFx := { vis_logEvent : SessionId }.

Record AnalysisFx := {
  analysisTimer : Z;               (* next due time of the 10000ms interval *)
  poll_sessionId : SessionId;      (* captured by getDriftAnalysis *)
  poll_showAlert : bool            (* captured by getDriftAnalysis *)
}.

Record State := {
  (* useState *)
  sessionId : SessionId;
  isTracking : bool;
  metrics : Metrics;
  driftAnalysis : option Analysis;
  showAlert : bool;
  (* useEffect instances *)
  activeTimer : option Z;          (* next due time of the 1000ms interval *)
  scrollFx : option ScrollFx;
  clickFx : option ClickFx;
  moveFx : option MoveFx;
  idleFx : option IdleFx;
  visFx : option VisFx;
  analysisFx : option AnalysisFx;
  (* pending [setTimeout(() => setShowAlert(false), 5000)] *)
  alertTimers : list Z;
  (* browser *)
  now : Z;                         (* Date.now() *)
  scrollY : Z;                     (* window.scrollY *)
  hidden : bool;                   (* document.hidden *)
  (* network and console *)
  inflight : list Pending;
  sent : list Request;             (* newest first *)
  console : list string            (* console.error, newest first *)
}.

(** Field updates. *)

Definition with_sessionId (v : SessionId) (s : State) : State :=
  {| sessionId := v; isTracking := isTracking s; metrics := metrics s;
     driftAnalysis := driftAnalysis s; showAlert := showAlert s;
     activeTimer := activeTimer s; scrollFx := scrollFx s;
     clickFx := clickFx s; moveFx := moveFx s; idleFx := idleFx s;
     visFx := visFx s; analysisFx := analysisFx s;
     alertTimers := alertTimers s; now := now s; scrollY := scrollY s;
     hidden := hidden s; inflight := inflight s; sent := sent s;
     console := console s |}.

Definition with_isTracking (v : bool) (s : State) : State :=
  {| sessionId := sessionId s; isTracking := v; metrics := metrics s;
     driftAnalysis := driftAnalysis s; showAlert := showAlert s;
     activeTimer := activeTimer s; scrollFx := scrollFx s;
     clickFx := clickFx s; moveFx := moveFx s; idleFx := idleFx s;
     visFx := visFx s; analysisFx := analysisFx s;
     alertTimers := alertTimers s; now := now s; scrollY := scrollY s;
     hidden := hidden s; inflight := inflight s; sent := sent s;
     console := console s |}.

Definition with_metrics (v : Metrics) (s : State) : State :=
  {| sessionId := sessionId s; isTracking := isTracking s; metrics := v;
     driftAnalysis := driftAnalysis s; showAlert := showAlert s;
     activeTimer := activeTimer s; scrollFx := scrollFx s;
     clickFx := clickFx s; moveFx := moveFx s; idleFx := idleFx s;
     visFx := visFx s; analysisFx := analysisFx s;
     alertTimers := alertTimers s; now := now s; scrollY := scrollY s;
     hidden := hidden s; inflight := inflight s; sent := sent s;
     console := console s |}.

Definition with_driftAnalysis (v : option Analysis) (s : State) : State :=
  {| sessionId := sessionId s; isTracking := isTracking s;
     metrics := metrics s; driftAnalysis := v; showAlert := showAlert s;
     activeTimer := activeTimer s; scrollFx := scrollFx s;
     clickFx := clickFx s; moveFx := moveFx s; idleFx := idleFx s;
     visFx := visFx s; analysisFx := analysisFx s;
     alertTimers := alertTimers s; now := now s; scrollY := scrollY s;
     hidden := hidden s; inflight := inflight s; sent := sent s;
     console := console s |}.

Definition with_showAlert (v : bool) (s : State) : State :=
  {| sessionId := sessionId s; isTracking := isTracking s;
     metrics := metrics s; driftAnalysis := driftAnalysis s; showAlert := v;
     activeTimer := activeTimer s; scrollFx := scrollFx s;
     clickFx := clickFx s; moveFx := moveFx s; idleFx := idleFx s;
     visFx := visFx s; analysisFx := analysisFx s;
     alertTimers := alertTimers s; now := now s; scrollY := scrollY s;
     hidden := hidden s; inflight := inflight s; sent := sent s;
     console := console s |}.

Definition with_activeTimer (v : option Z) (s : State) : State :=
  {| sessionId := sessionId s; isTracking := isTracking s;
     metrics := metrics s; driftAnalysis := driftAnalysis s;
     showAlert := showAlert s; activeTimer := v; scrollFx := scrollFx s;
     clickFx := clickFx s; moveFx := moveFx s; idleFx := idleFx s;
     visFx := visFx s; analysisFx := analysisFx s;
     alertTimers := alertTimers s; now := now s; scrollY := scrollY s;
     hidden := hidden s; inflight := inflight s; sent := sent s;
     console := console s |}.

Definition with_scrollFx (v : option ScrollFx) (s : State) : State :=
  {| sessionId := sessionId s; isTracking := isTracking s;
     metrics := metrics s; driftAnalysis := driftAnalysis s;
     showAlert := showAlert s; activeTimer := activeTimer s; scrollFx := v;
     clickFx := clickFx s; moveFx := moveFx s; idleFx := idleFx s;
     visFx := visFx s; analysisFx := analysisFx s;
     alertTimers := alertTimers s; now := now s; scrollY := scrollY s;
     hidden := hidden s; inflight := inflight s; sent := sent s;
     console := console s |}.

Definition with_clickFx (v : option ClickFx) (s : State) : State :=
  {| sessionId := sessionId s; isTracking := isTracking s;
     metrics := metrics s; driftAnalysis := driftAnalysis s;
     showAlert := showAlert s; activeTimer := activeTimer s;
     scrollFx := scrollFx s; clickFx := v; moveFx := moveFx s;
     idleFx := idleFx s; visFx := visFx s; analysisFx := analysisFx s;
     alertTimers := alertTimers s; now := now s; scrollY := scrollY s;
     hidden := hidden s; inflight := inflight s; sent := sent s;
     console := console s |}.

Definition with_moveFx (v : option MoveFx) (s : State) : State :=
  {| sessionId := sessionId s; isTracking := isTracking s;
     metrics := metrics s; driftAnalysis := driftAnalysis s;
     showAlert := showAlert s; activeTimer := activeTimer s;
     scrollFx := scrollFx s; clickFx := clickFx s; moveFx := v;
     idleFx := idleFx s; visFx := visFx s; analysisFx := analysisFx s;
     alertTimers := alertTimers s; now := now s; scrollY := scrollY s;
     hidden := hidden s; inflight := inflight s; sent := sent s;
     console := console s |}.

Definition with_idleFx (v : option IdleFx) (s : State) : State :=
  {| sessionId := sessionId s; isTracking := isTracking s;
     metrics := metrics s; driftAnalysis := driftAnalysis s;
     showAlert := showAlert s; activeTimer := activeTimer s;
     scrollFx := scrollFx s; clickFx := clickFx s; moveFx := moveFx s;
     idleFx := v; visFx := visFx s; analysisFx := analysisFx s;
     alertTimers := alertTimers s; now := now s; scrollY := scrollY s;
     hidden := hidden s; inflight := inflight s; sent := sent s;
     console := console s |}.

Definition with_visFx (v : option VisFx) (s : State) : State :=
  {| sessionId := sessionId s; isTracking := isTracking s;
     metrics := metrics s; driftAnalysis := driftAnalysis s;
     showAlert := showAlert s; activeTimer := activeTimer s;
     scrollFx := scrollFx s; clickFx := clickFx s; moveFx := moveFx s;
     idleFx := idleFx s; visFx := v; analysisFx := analysisFx s;
     alertTimers := alertTimers s; now := now s; scrollY := scrollY s;
     hidden := hidden s; inflight := inflight s; sent := sent s;
     console := console s |}.

Definition with_analysisFx (v : option AnalysisFx) (s : State) : State :=
  {| sessionId := sessionId s; isTracking := isTracking s;
     metrics := metrics s; driftAnalysis := driftAnalysis s;
     showAlert := showAlert s; activeTimer := activeTimer s;
     scrollFx := scrollFx s; clickFx := clickFx s; moveFx := moveFx s;
     idleFx := idleFx s; visFx := visFx s; analysisFx := v;
     alertTimers := alertTimers s; now := now s; scrollY := scrollY s;
     hidden := hidden s; inflight := inflight s; sent := sent s;
     console := console s |}.

Definition with_alertTimers (v : list Z) (s : State) : State :=
  {| sessionId := sessionId s; isTracking := isTracking s;
     metrics := metrics s; driftAnalysis := driftAnalysis s;
     showAlert := showAlert s; activeTimer := activeTimer s;
     scrollFx := scrollFx s; clickFx := clickFx s; moveFx := moveFx s;
     idleFx := idleFx s; visFx := visFx s; analysisFx := analysisFx s;
     alertTimers := v; now := now s; scrollY := scrollY s;
     hidden := hidden s; inflight := inflight s; sent := sent s;
     console := console s |}.

Definition with_now (v : Z) (s : State) : State :=
  {| sessionId := sessionId s; isTracking := isTracking s;
     metrics := metrics s; driftAnalysis := driftAnalysis s;
     showAlert := showAlert s; activeTimer := activeTimer s;
     scrollFx := scrollFx s; clickFx := clickFx s; moveFx := moveFx s;
     idleFx := idleFx s; visFx := visFx s; analysisFx := analysisFx s;
     alertTimers := alertTimers s; now := v; scrollY := scrollY s;
     hidden := hidden s; inflight := inflight s; sent := sent s;
     console := console s |}.

Definition with_scrollY (v : Z) (s : State) : State :=
  {| sessionId := sessionId s; isTracking := isTracking s;
     metrics := metrics s; driftAnalysis := driftAnalysis s;
     showAlert := showAlert s; activeTimer := activeTimer s;
     scrollFx := scrollFx s; clickFx := clickFx s; moveFx := moveFx s;
     idleFx := idleFx s; visFx := visFx s; analysisFx := analysisFx s;
     alertTimers := alertTimers s; now := now s; scrollY := v;
     hidden := hidden s; inflight := inflight s; sent := sent s;
     console := console s |}.

Definition with_hidden (v : bool) (s : State) : State :=
  {| sessionId := sessionId s; isTracking := isTracking s;
     metrics := metrics s; driftAnalysis := driftAnalysis s;
     showAlert := showAlert s; activeTimer := activeTimer s;
     scrollFx := scrollFx s; clickFx := clickFx s; moveFx := moveFx s;
     idleFx := idleFx s; visFx := visFx s; analysisFx := analysisFx s;
     alertTimers := alertTimers s; now := now s; scrollY := scrollY s;
     hidden := v; inflight := inflight s; sent := sent s;
     console := console s |}.

Definition with_inflight (v : list Pending) (s : State) : State :=
  {| sessionId := sessionId s; isTracking := isTracking s;
     metrics := metrics s; driftAnalysis := driftAnalysis s;
     showAlert := showAlert s; activeTimer := activeTimer s;
     scrollFx := scrollFx s; clickFx := clickFx s; moveFx := moveFx s;
     idleFx := idleFx s; visFx := visFx s; analysisFx := analysisFx s;
     alertTimers := alertTimers s; now := now s; scrollY := scrollY s;
     hidden := hidden s; inflight := v; sent := sent s; console := console s |}.

Definition with_sent (v : list Request) (s : State) : State :=
  {| sessionId := sessionId s; isTracking := isTracking s;
     metrics := metrics s; driftAnalysis := driftAnalysis s;
     showAlert := showAlert s; activeTimer := activeTimer s;
     scrollFx := scrollFx s; clickFx := clickFx s; moveFx := moveFx s;
     idleFx := idleFx s; visFx := visFx s; analysisFx := analysisFx s;
     alertTimers := alertTimers s; now := now s; scrollY := scrollY s;
     hidden := hidden s; inflight := inflight s; sent := v;
     console := console s |}.

Definition with_console (v : list string) (s : State) : State :=
  {| sessionId := sessionId s; isTracking := isTracking s;
     metrics := metrics s; driftAnalysis := driftAnalysis s;
     showAlert := showAlert s; activeTimer := activeTimer s;
     scrollFx := scrollFx s; clickFx := clickFx s; moveFx := moveFx s;
     idleFx := idleFx s; visFx := visFx s; analysisFx := analysisFx s;
     alertTimers := alertTimers s; now := now s; scrollY := scrollY s;
     hidden := hidden s; inflight := inflight s; sent := sent s;
     console := v |}.

(** ** The component *)

(** First render: the initial values of the [useState] cells, nothing
    installed, clock at the instant of the mount. *)
Definition initial_metrics : Metrics :=
  {| activeTime := 0; scrolls := 0; clicks := 0; mouseMovements := 0;
     idleTime := 0; tabCount := 1 |}.

Definition first_render : State :=
  {| sessionId := None; isTracking := false; metrics := initial_metrics;
     driftAnalysis := None; showAlert := false;
     activeTimer := None; scrollFx := None; clickFx := None; moveFx := None;
     idleFx := None; visFx := None; analysisFx := None; alertTimers := [];
     now := 0; scrollY := 0; hidden := false;
     inflight := []; sent := []; console := [] |}.

(** *** Plumbing: axios and console *)

(** [axios.<verb>(...)] followed by [await]: the request leaves, the
    continuation [k] waits for the response. *)
Definition axios (r : Request) (k : Pending) (s : State) : State :=
  with_inflight (inflight s ++ [k]) (with_sent (r :: sent s) s).

Definition console_error (msg : string) (s : State) : State :=
  with_console (msg :: console s) s.

(** *** Effects

    Each function is "cleanup, then body" of one [useEffect], evaluated in
    the state of the render that scheduled it. *)

(** Track active time: deps [[isTracking]]. *)
Definition effect_activeTime (s : State) : State :=
  with_activeTimer (if isTracking s then Some (now s + 1000) else None) s.

(** Track scroll events: deps [[isTracking, logEvent]]. *)
Definition effect_scroll (s : State) : State :=
  with_scrollFx
    (if isTracking s
     then Some {| scrollTimeout := None; scroll_logEvent := sessionId s |}
     else None) s.

(** Track click events: deps [[isTracking, logEvent]]. *)
Definition effect_click (s : State) : State :=
  with_clickFx
    (if isTracking s then Some {| click_logEvent := sessionId s |} else None) s.

(** Track mouse movements: deps [[isTracking, logEvent]]. *)
Definition effect_mouseMove (s : State) : State :=
  with_moveFx
    (if isTracking s
     then Some {| moveTimeout := None; moveCount := 0;
                  move_logEvent := sessionId s |}
     else None) s.

(** Track idle time: deps [[isTracking, logEvent]]. *)
Definition effect_idle (s : State) : State :=
  with_idleFx
    (if isTracking s
     then Some {| idleTimer := now s + 5000; idleStartTime := now s;
                  idle_logEvent := sessionId s |}
     else None) s.

(** Track tab visibility: deps [[isTracking, logEvent]]. *)
Definition effect_visibility (s : State) : State :=
  with_visFx
    (if isTracking s then Some {| vis_logEvent := sessionId s |} else None) s.

(** Periodic drift analysis: deps [[isTracking, sessionId, getDriftAnalysis]];
    the body returns early on [!isTracking || !sessionId]. *)
Definition effect_analysis (s : State) : State :=
  with_analysisFx
    (if isTracking s && truthy (sessionId s)
     then Some {| analysisTimer := now s + 10000;
                  poll_sessionId := sessionId s;
                  poll_showAlert := showAlert s |}
     else None) s.

(** The five effects that depend on [logEvent], in source order. *)
Definition effects_logEvent (s : State) : State :=
  effect_visibility (effect_idle (effect_mouseMove (effect_click (effect_scroll s)))).

(** *** State setters

    A setter called with the value the cell already holds does nothing
    (React bails out); otherwise the component re-renders and the effects
    whose dependencies changed run again.  [logEvent] is memoised on
    [[sessionId]], [getDriftAnalysis] on [[sessionId, showAlert]]. *)

Definition setMetrics (f : Metrics -> Metrics) (s : State) : State :=
  with_metrics (f (metrics s)) s.

Definition setDriftAnalysis (a : option Analysis) (s : State) : State :=
  with_driftAnalysis a s.

Definition setShowAlert (b : bool) (s : State) : State :=
  if Bool.eqb (showAlert s) b then s
  else effect_analysis (with_showAlert b s).

Definition setSessionId (v : SessionId) (s : State) : State :=
  if SessionId_eqb (sessionId s) v then s
  else effect_analysis (effects_logEvent (with_sessionId v s)).

Definition setIsTracking (b : bool) (s : State) : State :=
  if Bool.eqb (isTracking s) b then s
  else effect_analysis (effects_logEvent (effect_activeTime (with_isTracking b s))).

(** The updaters passed to [setMetrics]: [prev => ({...prev, f: prev.f + k})]. *)
Definition inc_activeTime (prev : Metrics) : Metrics :=
  {| activeTime := activeTime prev + 1; scrolls := scrolls prev;
     clicks := clicks prev; mouseMovements := mouseMovements prev;
     idleTime := idleTime prev; tabCount := tabCount prev |}.

Definition inc_scrolls (prev : Metrics) : Metrics :=
  {| activeTime := activeTime prev; scrolls := scrolls prev + 1;
     clicks := clicks prev; mouseMovements := mouseMovements prev;
     idleTime := idleTime prev; tabCount := tabCount prev |}.

Definition inc_clicks (prev : Metrics) : Metrics :=
  {| activeTime := activeTime prev; scrolls := scrolls prev;
     clicks := clicks prev + 1; mouseMovements := mouseMovements prev;
     idleTime := idleTime prev; tabCount := tabCount prev |}.

Definition inc_mouseMovements (prev : Metrics) : Metrics :=
  {| activeTime := activeTime prev; scrolls := scrolls prev;
     clicks := clicks prev; mouseMovements := mouseMovements prev + 1;
     idleTime := idleTime prev; tabCount := tabCount prev |}.

Definition add_idleTime (prev : Metrics) : Metrics :=
  {| activeTime := activeTime prev; scrolls := scrolls prev;
     clicks := clicks prev; mouseMovements := mouseMovements prev;
     idleTime := idleTime prev + 5; tabCount := tabCount prev |}.

(** *** Callbacks *)

(** [startSession], up to its [await]. *)
Definition startSession (s : State) : State :=
  axios PostSessionStart PStart s.

(** [startSession], after the [await]: [response.data.id] is kept and
    tracking is switched on. *)
Definition startSession_resolved (id : string) (s : State) : State :=
  setIsTracking true (setSessionId (Some id) s).

Definition startSession_rejected (s : State) : State :=
  console_error "Error starting session:" s.

(** [logEvent], as captured with [sessionId = sid]. *)
Definition logEvent (sid : SessionId) (eventType : string) (data : EventData)
    (s : State) : State :=
  if negb (truthy sid) then s
  else axios (PostTrackingEvent sid eventType data) PEvent s.

Definition logEvent_rejected (s : State) : State :=
  console_error "Error logging event:" s.

(** [getDriftAnalysis], as captured with [sessionId = sid] and
    [showAlert = alert]; the value of [alert] travels with the suspended
    call. *)
Definition getDriftAnalysis (sid : SessionId) (alert : bool) (s : State) : State :=
  if negb (truthy sid) then s
  else axios (GetAnalysis sid) (PAnalysis alert) s.

Definition getDriftAnalysis_resolved (alert : bool) (data : Analysis)
    (s : State) : State :=
  let s1 := setDriftAnalysis (Some data) s in
  if is_drifting data && negb alert
  then let s2 := setShowAlert true s1 in
       with_alertTimers (alertTimers s2 ++ [now s2 + 5000]) s2
  else s1.

Definition getDriftAnalysis_rejected (s : State) : State :=
  console_error "Error getting drift analysis:" s.

(** [stopTracking], up to its [await] (or to its end when there is no
    session id and nothing is awaited). *)
Definition stopTracking (s : State) : State :=
  if truthy (sessionId s)
  then axios (DeleteSession (sessionId s)) PDelete s
  else setIsTracking false s.

(** [stopTracking], after the [await]: [ok = false] goes through the
    [catch] first. *)
Definition stopTracking_settled (ok : bool) (s : State) : State :=
  setIsTracking false (if ok then s else console_error "Error ending session:" s).

(** *** DOM listeners *)

Definition handleScroll (s : State) : State :=
  match scrollFx s with
  | Some fx =>
      with_scrollFx
        (Some {| scrollTimeout := Some (now s + 100);
                 scroll_logEvent := scroll_logEvent fx |}) s
  | None => s
  end.

Definition handleClick (x y : Z) (s : State) : State :=
  match clickFx s with
  | Some fx => logEvent (click_logEvent fx) "click" (DClick x y)
                 (setMetrics inc_clicks s)
  | None => s
  end.

Definition handleMouseMove (s : State) : State :=
  match moveFx s with
  | Some fx =>
      with_moveFx
        (Some {| moveTimeout := Some (now s + 500);
                 moveCount := moveCount fx + 1;
                 move_logEvent := move_logEvent fx |}) s
  | None => s
  end.

Definition resetIdle (s : State) : State :=
  match idleFx s with
  | Some fx =>
      with_idleFx
        (Some {| idleTimer := idleTimer fx; idleStartTime := now s;
                 idle_logEvent := idle_logEvent fx |}) s
  | None => s
  end.

Definition handleVisibilityChange (s : State) : State :=
  match visFx s with
  | Some fx => logEvent (vis_logEvent fx) "visibility" (DVisibility (hidden s)) s
  | None => s
  end.

(** *** Timer callbacks *)

(** The callback of the 100ms scroll timeout. *)
Definition scroll_timeout (fx : ScrollFx) (s : State) : State :=
  logEvent (scroll_logEvent fx) "scroll" (DScroll (scrollY s))
    (setMetrics inc_scrolls s).

(** The callback of the 500ms mouse-move timeout; it ends with
    [moveCount = 0]. *)
Definition move_timeout (fx : MoveFx) (s : State) : State :=
  let s1 :=
    if moveCount fx >? 5
    then logEvent (move_logEvent fx) "mousemove" (DMove (moveCount fx))
           (setMetrics inc_mouseMovements s)
    else s in
  with_moveFx
    (Some {| moveTimeout := None; moveCount := 0;
             move_logEvent := move_logEvent fx |}) s1.

(** [checkIdle]: [(Date.now() - idleStartTime) / 1000 > 5] on integer
    milliseconds is [Date.now() - idleStartTime > 5000]. *)
Definition checkIdle (s : State) : State :=
  match idleFx s with
  | Some fx =>
      if now s - idleStartTime fx >? 5000
      then resetIdle
             (logEvent (idle_logEvent fx) "idle" (DIdle 5)
                (setMetrics add_idleTime s))
      else s
  | None => s
  end.

(** ** The event loop *)

(** Timers.  A timer whose due time has come runs at the next [tick]; an
    interval is armed again from the instant it runs.  Timers due in the
    same millisecond run in the order of the effects in the source, the
    alert dismissals last. *)

Definition fire_activeTime (s : State) : State :=
  match activeTimer s with
  | Some due =>
      if due <=? now s
      then setMetrics inc_activeTime (with_activeTimer (Some (now s + 1000)) s)
      else s
  | None => s
  end.

Definition fire_scroll (s : State) : State :=
  match scrollFx s with
  | Some fx =>
      match scrollTimeout fx with
      | Some due =>
          if due <=? now s
          then scroll_timeout fx
                 (with_scrollFx
                    (Some {| scrollTimeout := None;
                             scroll_logEvent := scroll_logEvent fx |}) s)
          else s
      | None => s
      end
  | None => s
  end.

Definition fire_mouseMove (s : State) : State :=
  match moveFx s with
  | Some fx =>
      match moveTimeout fx with
      | Some due => if due <=? now s then move_timeout fx s else s
      | None => s
      end
  | None => s
  end.

Definition fire_idle (s : State) : State :=
  match idleFx s with
  | Some fx =>
      if idleTimer fx <=? now s
      then checkIdle
             (with_idleFx
                (Some {| idleTimer := now s + 5000;
                         idleStartTime := idleStartTime fx;
                         idle_logEvent := idle_logEvent fx |}) s)
      else s
  | None => s
  end.

Definition fire_analysis (s : State) : State :=
  match analysisFx s with
  | Some fx =>
      if analysisTimer fx <=? now s
      then getDriftAnalysis (poll_sessionId fx) (poll_showAlert fx)
             (with_analysisFx
                (Some {| analysisTimer := now s + 10000;
                         poll_sessionId := poll_sessionId fx;
                         poll_showAlert := poll_showAlert fx |}) s)
      else s
  | None => s
  end.

Definition is_due (t due : Z) : bool := due <=? t.

(** Every dismissal that is due calls [setShowAlert(false)]. *)
Definition fire_alerts (s : State) : State :=
  if existsb (is_due (now s)) (alertTimers s)
  then setShowAlert false
         (with_alertTimers
            (filter (fun due => negb (is_due (now s) due)) (alertTimers s)) s)
  else s.

(** One millisecond passes. *)
Definition tick (s : State) : State :=
  fire_alerts
    (fire_analysis
       (fire_idle
          (fire_mouseMove
             (fire_scroll (fire_activeTime (with_now (now s + 1) s)))))).

Fixpoint ticks (n : nat) (s : State) : State :=
  match n with
  | O => s
  | S k => ticks k (tick s)
  end.

(** What can happen to the page.  A press of a button is the [onClick] of
    that button; the click it comes with reaches the document listener as a
    [Click] of its own. *)
Inductive Event :=
| Wait (ms : Z)                    (* ms milliseconds pass *)
| Scroll (y : Z)                   (* the window scrolls to offset y *)
| Click (x y : Z)                  (* a click on the document *)
| MouseMove
| KeyPress
| VisibilityChange (h : bool)      (* document.hidden becomes h *)
| PressStart                       (* the "Start Tracking" button *)
| PressStop                        (* the "Stop Tracking" button *)
| Response (i : nat) (r : Reply).  (* the i-th request in flight settles *)

Fixpoint remove_nth {A} (i : nat) (l : list A) : list A :=
  match l, i with
  | [], _ => []
  | _ :: t, O => t
  | h :: t, S j => h :: remove_nth j t
  end.

(** The continuation of a suspended call on a reply; [None] when the reply
    is not one the endpoint gives. *)
Definition settle (k : Pending) (r : Reply) (s : State) : option State :=
  match k, r with
  | PStart, Started id => Some (startSession_resolved id s)
  | PStart, Failed => Some (startSession_rejected s)
  | PEvent, Done => Some s
  | PEvent, Failed => Some (logEvent_rejected s)
  | PAnalysis alert, Analysed data => Some (getDriftAnalysis_resolved alert data s)
  | PAnalysis _, Failed => Some (getDriftAnalysis_rejected s)
  | PDelete, Done => Some (stopTracking_settled true s)
  | PDelete, Failed => Some (stopTracking_settled false s)
  | _, _ => None
  end.

(** One turn of the event loop.  The two buttons exist only in the render
    that shows them: "Stop Tracking" while [isTracking], "Start Tracking"
    otherwise.  [mousemove] has two listeners, registered in source
    order. *)
Definition step (s : State) (e : Event) : State :=
  match e with
  | Wait ms => ticks (Z.to_nat ms) s
  | Scroll y => handleScroll (with_scrollY y s)
  | Click x y => handleClick x y s
  | MouseMove => resetIdle (handleMouseMove s)
  | KeyPress => resetIdle s
  | VisibilityChange h => handleVisibilityChange (with_hidden h s)
  | PressStart => if isTracking s then s else startSession s
  | PressStop => if isTracking s then stopTracking s else s
  | Response i r =>
      match nth_error (inflight s) i with
      | Some k =>
          match settle k r (with_inflight (remove_nth i (inflight s)) s) with
          | Some s' => s'
          | None => s
          end
      | None => s
      end
  end.

Definition run (tr : list Event) (s : State) : State := fold_left step tr s.

(** Mounting the component: the mount effect calls [startSession()], the
    other effects run their bodies with [isTracking = false]. *)
Definition mount : State :=
  effect_analysis (effects_logEvent (effect_activeTime (startSession first_render))).

(** The alert banner is rendered under
    [showAlert && driftAnalysis && driftAnalysis.is_drifting]. *)
Definition alert_visible (s : State) : bool :=
  showAlert s &&
  match driftAnalysis s with
  | Some a => is_drifting a
  | None => false
  end.

(** * Notions used in the statements *)

(** ** Effect instances follow the last render *)

Definition is_some {A} (o : option A) : bool :=
  match o with Some _ => true | None => false end.

(** What a state says about which effects are installed and what their
    closures captured, next to the cells the dependency arrays mention. *)
Definition Shape : Type :=
  SessionId * bool * bool * bool
  * option SessionId * option SessionId * option SessionId
  * option SessionId * option SessionId * option (SessionId * bool).

Definition shape (s : State) : Shape :=
  (sessionId s, isTracking s, showAlert s,
   is_some (activeTimer s),
   option_map scroll_logEvent (scrollFx s),
   option_map click_logEvent (clickFx s),
   option_map move_logEvent (moveFx s),
   option_map idle_logEvent (idleFx s),
   option_map vis_logEvent (visFx s),
   option_map (fun fx => (poll_sessionId fx, poll_showAlert fx)) (analysisFx s)).

(** The shape the effects of a render with these cells leave behind. *)
Definition rendered (sid : SessionId) (trk alert : bool) : Shape :=
  let ev := if trk then Some sid else None in
  (sid, trk, alert, trk, ev, ev, ev, ev, ev,
   if trk && truthy sid then Some (sid, alert) else None).

(** The installed effect instances are those of the last render. *)
Definition wf (s : State) : Prop :=
  shape s = rendered (sessionId s) (isTracking s) (showAlert s).

(** The session id a listener or timer reports under is the one captured by
    its effect. *)
Definition captured (s : State) : Prop :=
  (forall fx, scrollFx s = Some fx -> scroll_logEvent fx = sessionId s) /\
  (forall fx, clickFx s = Some fx -> click_logEvent fx = sessionId s) /\
  (forall fx, moveFx s = Some fx -> move_logEvent fx = sessionId s) /\
  (forall fx, idleFx s = Some fx -> idle_logEvent fx = sessionId s) /\
  (forall fx, visFx s = Some fx -> vis_logEvent fx = sessionId s).

(** Nothing is installed: no timer of an effect, no listener. *)
Definition inactive (s : State) : Prop :=
  isTracking s = false /\ activeTimer s = None /\ scrollFx s = None /\
  clickFx s = None /\ moveFx s = None /\ idleFx s = None /\
  visFx s = None /\ analysisFx s = None.

(** ** Metrics updates *)

(** The functions the component hands to [setMetrics]. *)
Definition updaters : list (Metrics -> Metrics) :=
  [inc_activeTime; inc_scrolls; inc_clicks; inc_mouseMovements; add_idleTime].

(** [updated m m']: [m'] is [m] after finitely many [setMetrics] calls. *)
Inductive updated : Metrics -> Metrics -> Prop :=
| updated_refl m : updated m m
| updated_step m m' f : In f updaters -> updated m m' -> updated m (f m').

(** [m'] is [m] with exactly one counter raised, by a positive amount. *)
Definition one_field_grows (m m' : Metrics) : Prop :=
  tabCount m' = tabCount m /\
  exists k, 0 < k /\
    (   (activeTime m' = activeTime m + k /\ scrolls m' = scrolls m /\
         clicks m' = clicks m /\ mouseMovements m' = mouseMovements m /\
         idleTime m' = idleTime m)
     \/ (activeTime m' = activeTime m /\ scrolls m' = scrolls m + k /\
         clicks m' = clicks m /\ mouseMovements m' = mouseMovements m /\
         idleTime m' = idleTime m)
     \/ (activeTime m' = activeTime m /\ scrolls m' = scrolls m /\
         clicks m' = clicks m + k /\ mouseMovements m' = mouseMovements m /\
         idleTime m' = idleTime m)
     \/ (activeTime m' = activeTime m /\ scrolls m' = scrolls m /\
         clicks m' = clicks m /\ mouseMovements m' = mouseMovements m + k /\
         idleTime m' = idleTime m)
     \/ (activeTime m' = activeTime m /\ scrolls m' = scrolls m /\
         clicks m' = clicks m /\ mouseMovements m' = mouseMovements m /\
         idleTime m' = idleTime m + k)).

(** No counter of [m'] is below that of [m]. *)
Definition metrics_le (m m' : Metrics) : Prop :=
  activeTime m <= activeTime m' /\ scrolls m <= scrolls m' /\
  clicks m <= clicks m' /\ mouseMovements m <= mouseMovements m' /\
  idleTime m <= idleTime m'.

(** ** Requests and what can be observed *)

Definition event_types : list string :=
  ["scroll"; "click"; "mousemove"; "idle"; "visibility"].

(** A tracking-event report is well formed for session [sid]. *)
Definition report_ok (sid : SessionId) (r : Request) : Prop :=
  match r with
  | PostTrackingEvent id ty _ => id = sid /\ truthy id = true /\ In ty event_types
  | _ => True
  end.

(** Going from [s] to [s'] only adds requests, and the tracking events
    among them are well formed for [sid]. *)
Definition emits (sid : SessionId) (s s' : State) : Prop :=
  exists new, sent s' = new ++ sent s /\ Forall (report_ok sid) new.

(** The tracking events of one type, newest first. *)
Definition is_report (ty : string) (r : Request) : bool :=
  match r with
  | PostTrackingEvent _ t _ => String.eqb t ty
  | _ => false
  end.

Definition reports (ty : string) (s : State) : list Request :=
  filter (is_report ty) (sent s).

(** The parts of a state that tracking writes to. *)
Definition trace_of (s : State) : Metrics * list Request * list Pending * SessionId :=
  (metrics s, sent s, inflight s, sessionId s).

(** What of a state the user or the backend can observe, the console
    apart. *)
Definition observable (s : State) :=
  (sessionId s, isTracking s, metrics s, driftAnalysis s, showAlert s,
   (activeTimer s, scrollFx s, clickFx s, moveFx s, idleFx s, visFx s,
    analysisFx s, alertTimers s),
   sent s).

(** Events other than a new start: the listeners are gone, only a late
    analysis can still write, and it writes neither counters nor requests. *)
Definition no_restart (e : Event) : Prop :=
  match e with
  | PressStart => False
  | Response _ (Started _) => False
  | _ => True
  end.

(** ** One effect at a time *)

(** The timers of one tick, before the alert dismissals. *)
Definition timers (s : State) : State :=
  fire_analysis (fire_idle (fire_mouseMove (fire_scroll (fire_activeTime s)))).

(** What the scroll effect owns and writes: its instance, the counter, its
    reports, and the offset it reads. *)
Definition scroll_part (s : State) : option ScrollFx * Z * list Request * Z :=
  (scrollFx s, scrolls (metrics s), reports "scroll" s, scrollY s).

(** What a tick at time [t] does to the scroll part. *)
Definition scroll_tick (t : Z) (p : option ScrollFx * Z * list Request * Z)
  : option ScrollFx * Z * list Request * Z :=
  match p with
  | (Some fx, n, rs, y) =>
      match scrollTimeout fx with
      | Some due =>
          if due <=? t
          then (Some {| scrollTimeout := None;
                        scroll_logEvent := scroll_logEvent fx |},
                n + 1,
                if truthy (scroll_logEvent fx)
                then PostTrackingEvent (scroll_logEvent fx) "scroll" (DScroll y) :: rs
                else rs,
                y)
          else p
      | None => p
      end
  | _ => p
  end.

(** The same for the mouse-move effect. *)
Definition move_part (s : State) : option MoveFx * Z * list Request :=
  (moveFx s, mouseMovements (metrics s), reports "mousemove" s).

(** What a tick at time [t] does to the mouse-move part. *)
Definition move_tick (t : Z) (p : option MoveFx * Z * list Request)
  : option MoveFx * Z * list Request :=
  match p with
  | (Some fx, n, rs) =>
      match moveTimeout fx with
      | Some due =>
          if due <=? t
          then (Some {| moveTimeout := None; moveCount := 0;
                        move_logEvent := move_logEvent fx |},
                if moveCount fx >? 5 then n + 1 else n,
                if (moveCount fx >? 5) && truthy (move_logEvent fx)
                then PostTrackingEvent (move_logEvent fx) "mousemove"
                       (DMove (moveCount fx)) :: rs
                else rs)
          else p
      | None => p
      end
  | _ => p
  end.

(** The same for the idle effect. *)
Definition idle_part (s : State) : option IdleFx * Z * list Request :=
  (idleFx s, idleTime (metrics s), reports "idle" s).

(** What a tick at time [t] does to the idle part. *)
Definition idle_tick (t : Z) (p : option IdleFx * Z * list Request)
  : option IdleFx * Z * list Request :=
  match p with
  | (Some fx, n, rs) =>
      if idleTimer fx <=? t
      then if t - idleStartTime fx >? 5000
           then (Some {| idleTimer := t + 5000; idleStartTime := t;
                         idle_logEvent := idle_logEvent fx |},
                 n + 5,
                 if truthy (idle_logEvent fx)
                 then PostTrackingEvent (idle_logEvent fx) "idle" (DIdle 5) :: rs
                 else rs)
           else (Some {| idleTimer := t + 5000;
                         idleStartTime := idleStartTime fx;
                         idle_logEvent := idle_logEvent fx |}, n, rs)
      else p
  | _ => p
  end.

(** ** The alert and the polls *)

Definition is_poll (p : Pending) : bool :=
  match p with PAnalysis _ => true | _ => false end.

(** The analysis requests in flight. *)
Definition polls (s : State) : list Pending := filter is_poll (inflight s).

(** What the alert depends on: the pending dismissals, the cell, the poll
    effect, the clock, and the analysis requests in flight. *)
Definition AlertView : Type :=
  list Z * bool * option AnalysisFx * Z * list Pending.

Definition alert_view (s : State) : AlertView :=
  (alertTimers s, showAlert s, analysisFx s, now s, polls s).

(** [slack] is 0 between two turns of the event loop and 1 inside a tick,
    after the clock has moved and before the dismissals have run.
    - every pending dismissal is due within the next 5 seconds;
    - while the alert shows, a dismissal is pending;
    - a poll interval whose closure holds [showAlert = true] is due at
      least 5 seconds after some pending dismissal;
    - every analysis request in flight was issued with [showAlert = false]
      in its closure. *)
Definition view_ok (slack : Z) (v : AlertView) : Prop :=
  let '(ts, alert, fx, t, ps) := v in
  (forall d, In d ts -> t - slack < d <= t - slack + 5000) /\
  (alert = true -> ts <> []) /\
  (forall f, fx = Some f -> poll_showAlert f = true ->
     exists d, In d ts /\ d + 5000 <= analysisTimer f) /\
  (forall b, In (PAnalysis b) ps -> b = false).

Definition alert_inv (slack : Z) (s : State) : Prop :=
  view_ok slack (alert_view s).

(** ** Scenarios *)

(** A burst of scrolls: a first one to offset [y], then more, each [fst]
    milliseconds after the previous one and to offset [snd]. *)
Definition scroll_burst (y : Z) (more : list (Z * Z)) : list Event :=
  Scroll y :: flat_map (fun gy => [Wait (fst gy); Scroll (snd gy)]) more.

(** The offset the window is left at. *)
Definition last_offset (y : Z) (more : list (Z * Z)) : Z :=
  last (map snd more) y.

(** A burst of mouse moves: a first one, then more, each after the given
    number of milliseconds. *)
Definition move_burst (gaps : list Z) : list Event :=
  MouseMove :: flat_map (fun g => [Wait g; MouseMove]) gaps.

(** A drifting result. *)
Definition drifting : Analysis :=
  {| is_drifting := true; confidence := 9 # 10; drift_score := 72;
     recommendation := "Take a short break";
     factors := [("high_idle_time", true)] |}.

(** Three polls go out, 10 seconds apart, each from a render with
    [showAlert = false]; the event reports are answered at once, the
    analysis endpoint is slow and answers all three after the third poll. *)
Definition three_polls_in_flight : State :=
  run [Response 0 (Started "abc");
       Wait 10000; Response 0 Done;
       Wait 10000; Response 1 Done;
       Wait 10000; Response 2 Done] mount.

(** * Further definitions: rendering, the rest of the tracker, the landing page *)

(** ** Rendering *)

(** [Number.prototype.toString] on an integer: decimal digits, a minus
    sign for a negative number. *)
Definition toString (n : Z) : string := NilZero.string_of_int (Z.to_int n).

Fixpoint repeat_char (c : ascii) (n : nat) : string :=
  match n with
  | O => ""
  | S k => String c (repeat_char c k)
  end.

(** [s.padStart(targetLength, c)] with a one-character pad string. *)
Definition padStart (targetLength : nat) (c : ascii) (s : string) : string :=
  repeat_char c (targetLength - String.length s) ++ s.

(** [formatTime]: [Math.floor(seconds / 60)] is the floor division of [Z],
    [seconds % 60] the remainder that takes the sign of [seconds]. *)
Definition formatTime (seconds : Z) : string :=
  let mins := seconds / 60 in
  let secs := Z.rem seconds 60 in
  toString mins ++ ":" ++ padStart 2 "0" (toString secs).

(** A number below 100 as two decimal digits. *)
Definition digit (n : Z) : ascii := ascii_of_nat (48 + Z.to_nat n).

Definition two_digits (n : Z) : string :=
  String (digit (n / 10)) (String (digit (n mod 10)) "").

(** [key.replace(/_/g, ' ')]. *)
Fixpoint replace_underscores (key : string) : string :=
  match key with
  | EmptyString => EmptyString
  | String c rest =>
      String (if Ascii.eqb c "_" then " "%char else c) (replace_underscores rest)
  end.

(** The chips under "Detected Factors": one per entry of [factors] whose
    value is true, in the order of the entries. *)
Definition factor_chips (factors : list (string * bool)) : list string :=
  map (fun kv => replace_underscores (fst kv)) (filter snd factors).

(** [a > b] on the numbers the backend sends. *)
Definition Qgtb (a b : Q) : bool := negb (Qle_bool a b).

(** The colour class of the drift-score bar. *)
Definition bar_class (drift_score : Q) : string :=
  if Qgtb drift_score (inject_Z 60) then "bg-red-500"
  else if Qgtb drift_score (inject_Z 40) then "bg-yellow-500"
  else "bg-green-500".

(** Its width in percent: [Math.min(drift_score, 100)]. *)
Definition bar_width (drift_score : Q) : Q :=
  if Qle_bool drift_score (inject_Z 100) then drift_score else inject_Z 100.

(** How alarming a colour class is. *)
Definition severity (class : string) : nat :=
  if String.eqb class "bg-red-500" then 2
  else if String.eqb class "bg-yellow-500" then 1
  else 0.

(** ** The rest of the tracker *)

(** Time passing and events of the page itself: no button, no response. *)
Definition passive (e : Event) : Prop :=
  match e with
  | PressStart | PressStop | Response _ _ => False
  | _ => True
  end.

(** What the active-time effect owns. *)
Definition active_part (s : State) : option Z * Z :=
  (activeTimer s, activeTime (metrics s)).

(** What a tick at time [t] does to it. *)
Definition active_tick (t : Z) (p : option Z * Z) : option Z * Z :=
  match p with
  | (Some due, a) => if due <=? t then (Some (t + 1000), a + 1) else p
  | _ => p
  end.

(** What the click effect owns. *)
Definition click_part (s : State) : option ClickFx * Z * list Request :=
  (clickFx s, clicks (metrics s), reports "click" s).

(** A sequence of clicks: each after [gap] milliseconds, at [(x, y)]. *)
Definition clicks_at (l : list (Z * Z * Z)) : list Event :=
  flat_map (fun c => [Wait (fst (fst c)); Click (snd (fst c)) (snd c)]) l.

Definition click_report (sid : string) (c : Z * Z * Z) : Request :=
  PostTrackingEvent (Some sid) "click" (DClick (snd (fst c)) (snd c)).

(** The timer is pending, due [1000 * c] after [due0], and has run [c]
    times since the counter was [a0]. *)
Definition ticking (due0 a0 : Z) (s : State) : Prop :=
  exists c, 0 <= c /\
    active_part s = (Some (due0 + 1000 * c), a0 + c) /\
    now s < due0 + 1000 * c <= now s + 1000.

(** The session id a request carries, if it carries one. *)
Definition request_session (r : Request) : option SessionId :=
  match r with
  | PostSessionStart => None
  | PostTrackingEvent id _ _ => Some id
  | GetAnalysis id => Some id
  | DeleteSession id => Some id
  end.

(** A request other than a session start carries [sid], and [sid] is a
    non-empty string. *)
Definition request_ok (sid : SessionId) (r : Request) : Prop :=
  match request_session r with
  | Some id => id = sid /\ truthy id = true
  | None => True
  end.

(** Going from [s] to [s'] only adds requests, each one fine for [sid]. *)
Definition sends (sid : SessionId) (s s' : State) : Prop :=
  exists new, sent s' = new ++ sent s /\ Forall (request_ok sid) new.

(** The session ids the backend handed out along a trace. *)
Definition issued (tr : list Event) : list string :=
  flat_map (fun e => match e with
                     | Response _ (Started id) => [id]
                     | _ => []
                     end) tr.

(** A request carries no session id or one of [ids], never an empty one. *)
Definition request_from (ids : list string) (r : Request) : Prop :=
  match request_session r with
  | Some v => exists id, v = Some id /\ id <> "" /\ In id ids
  | None => True
  end.

(** A mouse move or a key press. *)
Definition activity (mouse : bool) : Event :=
  if mouse then MouseMove else KeyPress.

(** A user at work: a first activity, then more, each [fst] milliseconds
    after the previous one, then [q] more milliseconds. *)
Definition at_work (first : bool) (more : list (Z * bool)) (q : Z) : list Event :=
  activity first
    :: flat_map (fun ga => [Wait (fst ga); activity (snd ga)]) more
    ++ [Wait q].

(** The analysis polls sent so far, newest first. *)
Definition is_get (r : Request) : bool :=
  match r with GetAnalysis _ => true | _ => false end.

Definition polls_sent (s : State) : list Request := filter is_get (sent s).

(** What decides when the next poll goes out. *)
Definition poll_part (s : State)
  : option AnalysisFx * list Z * bool * list Request :=
  (analysisFx s, alertTimers s, showAlert s, polls_sent s).

(** Tracking under [sid], the poll interval due at [due], with [alert]
    both in the cell and in the closure of the interval. *)
Definition armed (due : Z) (alert : bool) (ts : list Z) (ps : list Request)
    (sid : string) (s : State) : Prop :=
  poll_part s =
    (Some {| analysisTimer := due; poll_sessionId := Some sid;
             poll_showAlert := alert |}, ts, alert, ps)
  /\ isTracking s = true /\ sessionId s = Some sid.

(** The state just before [fire_analysis] in a tick. *)
Definition before_poll (s : State) : State :=
  fire_idle (fire_mouseMove (fire_scroll
    (fire_activeTime (with_now (now s + 1) s)))).

(** * The landing page

    The [LandingPage] component keeps two live figures of its own: the
    scrolls since it was mounted and the seconds it has been open.  Its
    one effect owns [startTime], [scrollCount] and a 1000ms interval. *)
Module LandingPage.

Record Stats := { scrolls : Z; activeTime : Z }.

(** The effect instance: its locals and the due time of its interval. *)
Record Fx := { startTime : Z; scrollCount : Z; timer : Z }.

Record State := {
  stats : Stats;                 (* useState *)
  fx : option Fx;                (* None once unmounted *)
  now : Z                        (* Date.now() *)
}.

(** The component mounted at instant [t0]: the effect has run. *)
Definition mount (t0 : Z) : State :=
  {| stats := {| scrolls := 0; activeTime := 0 |};
     fx := Some {| startTime := t0; scrollCount := 0; timer := t0 + 1000 |};
     now := t0 |}.

(** [scrollCount++; setStats(prev => ({...prev, scrolls: scrollCount}))]. *)
Definition handleScroll (s : State) : State :=
  match fx s with
  | Some f =>
      let c := scrollCount f + 1 in
      {| stats := {| scrolls := c; activeTime := activeTime (stats s) |};
         fx := Some {| startTime := startTime f; scrollCount := c;
                       timer := timer f |};
         now := now s |}
  | None => s
  end.

(** The interval callback:
    [elapsed = Math.floor((Date.now() - startTime) / 1000)]. *)
Definition timer_fired (f : Fx) (s : State) : State :=
  let elapsed := (now s - startTime f) / 1000 in
  {| stats := {| scrolls := scrolls (stats s); activeTime := elapsed |};
     fx := Some {| startTime := startTime f; scrollCount := scrollCount f;
                   timer := now s + 1000 |};
     now := now s |}.

(** One millisecond passes. *)
Definition tick (s : State) : State :=
  let s1 := {| stats := stats s; fx := fx s; now := now s + 1 |} in
  match fx s1 with
  | Some f => if timer f <=? now s1 then timer_fired f s1 else s1
  | None => s1
  end.

Fixpoint ticks (n : nat) (s : State) : State :=
  match n with
  | O => s
  | S k => ticks k (tick s)
  end.

(** The cleanup: listener removed, interval cleared. *)
Definition unmount (s : State) : State :=
  {| stats := stats s; fx := None; now := now s |}.

Inductive Event :=
| Wait (ms : Z)
| Scroll
| Unmount.

Definition step (s : State) (e : Event) : State :=
  match e with
  | Wait ms => ticks (Z.to_nat ms) s
  | Scroll => handleScroll s
  | Unmount => unmount s
  end.

Definition run (tr : list Event) (s : State) : State := fold_left step tr s.

(** The scrolls of a trace. *)
Definition scroll_events (tr : list Event) : Z :=
  Z.of_nat (List.length
              (filter (fun e => match e with Scroll => true | _ => false end)
                      tr)).

(** The effect is installed since [t0], has seen [c] scrolls, and its
    interval is pending. *)
Definition live (t0 c : Z) (s : State) : Prop :=
  exists f k,
    fx s = Some f /\ startTime f = t0 /\ scrollCount f = c /\
    scrolls (stats s) = c /\
    activeTime (stats s) = k /\ timer f = t0 + 1000 * (k + 1) /\
    now s < timer f <= now s + 1000.

End LandingPage.

(** * Proofs *)

(** A small scenario: start, two clicks, a scroll, a second of time. *)
Example run_smoke :
  let s := run [Response 0 (Started "abc"); Click 3 4; Scroll 120; Wait 1000;
                Click 5 6] mount in
  metrics s = {| activeTime := 1; scrolls := 1; clicks := 2;
                 mouseMovements := 0; idleTime := 0; tabCount := 1 |}
  /\ sent s = [PostTrackingEvent (Some "abc") "click" (DClick 5 6);
               PostTrackingEvent (Some "abc") "scroll" (DScroll 120);
               PostTrackingEvent (Some "abc") "click" (DClick 3 4);
               PostSessionStart].
Proof. vm_compute. split; reflexivity. Qed.

(** ** Metrics: every update is one of the five updaters *)

Lemma updaters_one_field :
  Forall (fun f => forall m, one_field_grows m (f m)) updaters.
Proof.
  unfold updaters, one_field_grows.
  repeat constructor; simpl; [exists 1 | exists 1 | exists 1 | exists 1 | exists 5];
    split; try lia; tauto.
Qed.

Lemma updated_trans m1 m2 m3 :
  updated m1 m2 -> updated m2 m3 -> updated m1 m3.
Proof.
  intros H12 H23. induction H23 as [|m2 m3 f Hf _ IH]; auto.
  apply updated_step; auto.
Qed.

Lemma updated_one f m : In f updaters -> updated m (f m).
Proof. intros Hf. apply updated_step; [exact Hf | apply updated_refl]. Qed.

Lemma updated_le m m' : updated m m' -> metrics_le m m'.
Proof.
  induction 1 as [m | m m' f Hf _ IH].
  - unfold metrics_le; lia.
  - pose proof updaters_one_field as HU.
    rewrite Forall_forall in HU. specialize (HU f Hf m').
    destruct HU as [_ [k [Hk HU]]]. unfold metrics_le in *. lia.
Qed.

Lemma updated_tabCount m m' : updated m m' -> tabCount m' = tabCount m.
Proof.
  induction 1 as [m | m m' f Hf _ IH]; auto.
  pose proof updaters_one_field as HU.
  rewrite Forall_forall in HU. destruct (HU f Hf m') as [Ht _]. congruence.
Qed.

Create HintDb upd discriminated.
#[local] Hint Resolve updated_refl updated_one : upd.
#[local] Hint Extern 1 (In _ updaters) => (unfold updaters; simpl; tauto) : upd.

(** Handlers, one by one. *)

Lemma metrics_setShowAlert b s : metrics (setShowAlert b s) = metrics s.
Proof. unfold setShowAlert. destruct (Bool.eqb _ _); reflexivity. Qed.

Lemma metrics_setSessionId v s : metrics (setSessionId v s) = metrics s.
Proof. unfold setSessionId. destruct (SessionId_eqb _ _); reflexivity. Qed.

Lemma metrics_setIsTracking b s : metrics (setIsTracking b s) = metrics s.
Proof. unfold setIsTracking. destruct (Bool.eqb _ _); reflexivity. Qed.

Lemma metrics_logEvent sid ty d s : metrics (logEvent sid ty d s) = metrics s.
Proof. unfold logEvent. destruct (negb _); reflexivity. Qed.

Lemma metrics_resetIdle s : metrics (resetIdle s) = metrics s.
Proof. unfold resetIdle. destruct (idleFx s); reflexivity. Qed.

Lemma metrics_getDriftAnalysis sid a s :
  metrics (getDriftAnalysis sid a s) = metrics s.
Proof. unfold getDriftAnalysis. destruct (negb _); reflexivity. Qed.

Lemma updated_fire_activeTime s :
  updated (metrics s) (metrics (fire_activeTime s)).
Proof.
  unfold fire_activeTime. destruct (activeTimer s) as [due|]; auto with upd.
  destruct (due <=? now s); simpl; auto with upd.
Qed.

Lemma updated_fire_scroll s : updated (metrics s) (metrics (fire_scroll s)).
Proof.
  unfold fire_scroll. destruct (scrollFx s) as [fx|]; auto with upd.
  destruct (scrollTimeout fx) as [due|]; auto with upd.
  destruct (due <=? now s); auto with upd.
  unfold scroll_timeout. rewrite metrics_logEvent. simpl. auto with upd.
Qed.

Lemma updated_fire_mouseMove s :
  updated (metrics s) (metrics (fire_mouseMove s)).
Proof.
  unfold fire_mouseMove. destruct (moveFx s) as [fx|]; auto with upd.
  destruct (moveTimeout fx) as [due|]; auto with upd.
  destruct (due <=? now s); auto with upd.
  unfold move_timeout. simpl. destruct (moveCount fx >? 5); auto with upd.
  rewrite metrics_logEvent. simpl. auto with upd.
Qed.

Lemma updated_checkIdle s : updated (metrics s) (metrics (checkIdle s)).
Proof.
  unfold checkIdle. destruct (idleFx s) as [fx|]; auto with upd.
  destruct (now s - idleStartTime fx >? 5000); auto with upd.
  rewrite metrics_resetIdle, metrics_logEvent. simpl. auto with upd.
Qed.

Lemma updated_fire_idle s : updated (metrics s) (metrics (fire_idle s)).
Proof.
  unfold fire_idle. destruct (idleFx s) as [fx|]; auto with upd.
  destruct (idleTimer fx <=? now s); auto with upd.
  match goal with |- updated _ (metrics (checkIdle ?t)) =>
    change (metrics s) with (metrics t) end.
  apply updated_checkIdle.
Qed.

Lemma metrics_fire_analysis s : metrics (fire_analysis s) = metrics s.
Proof.
  unfold fire_analysis. destruct (analysisFx s) as [fx|]; auto.
  destruct (analysisTimer fx <=? now s); auto.
  rewrite metrics_getDriftAnalysis. reflexivity.
Qed.

Lemma metrics_fire_alerts s : metrics (fire_alerts s) = metrics s.
Proof.
  unfold fire_alerts. destruct (existsb _ _); auto.
  rewrite metrics_setShowAlert. reflexivity.
Qed.

Lemma updated_tick s : updated (metrics s) (metrics (tick s)).
Proof.
  unfold tick. rewrite metrics_fire_alerts, metrics_fire_analysis.
  eapply updated_trans; [|apply updated_fire_idle].
  eapply updated_trans; [|apply updated_fire_mouseMove].
  eapply updated_trans; [|apply updated_fire_scroll].
  match goal with |- updated _ (metrics (fire_activeTime ?t)) =>
    change (metrics s) with (metrics t) end.
  apply updated_fire_activeTime.
Qed.

Lemma updated_ticks n : forall s, updated (metrics s) (metrics (ticks n s)).
Proof.
  induction n as [|n IH]; intros s; simpl; auto with upd.
  eapply updated_trans; [apply updated_tick | apply IH].
Qed.

Lemma metrics_settle k r s s' :
  settle k r s = Some s' -> metrics s' = metrics s.
Proof.
  destruct k as [| |alert|], r; simpl; intros H; inversion H; subst; clear H;
    auto.
  - unfold startSession_resolved.
    rewrite metrics_setIsTracking, metrics_setSessionId. reflexivity.
  - unfold getDriftAnalysis_resolved.
    destruct (is_drifting a && negb alert); simpl; auto.
    rewrite metrics_setShowAlert. reflexivity.
  - unfold stopTracking_settled. rewrite metrics_setIsTracking. reflexivity.
  - unfold stopTracking_settled. rewrite metrics_setIsTracking. reflexivity.
Qed.

Lemma updated_step_event s e : updated (metrics s) (metrics (step s e)).
Proof.
  destruct e; simpl.
  - apply updated_ticks.
  - unfold handleScroll; simpl. destruct (scrollFx s); auto with upd.
  - unfold handleClick. destruct (clickFx s); auto with upd.
    rewrite metrics_logEvent. simpl. auto with upd.
  - rewrite metrics_resetIdle. unfold handleMouseMove.
    destruct (moveFx s); auto with upd.
  - rewrite metrics_resetIdle. auto with upd.
  - unfold handleVisibilityChange; simpl. destruct (visFx _); auto with upd.
    rewrite metrics_logEvent. auto with upd.
  - destruct (isTracking s); auto with upd.
  - destruct (isTracking s); auto with upd.
    unfold stopTracking. destruct (truthy _); auto with upd.
    rewrite metrics_setIsTracking. auto with upd.
  - destruct (nth_error (inflight s) i) as [k|]; auto with upd.
    destruct (settle k r _) as [s'|] eqn:E; auto with upd.
    apply metrics_settle in E. rewrite E. simpl. auto with upd.
Qed.

Lemma updated_run tr : forall s, updated (metrics s) (metrics (run tr s)).
Proof.
  induction tr as [|e tr IH]; intros s; simpl; auto with upd.
  eapply updated_trans; [apply updated_step_event | apply IH].
Qed.

(** ** Shape lemmas *)

Lemma wf_of_shape s s' : shape s' = shape s -> wf s -> wf s'.
Proof.
  unfold wf. intros E H.
  assert (sessionId s' = sessionId s /\ isTracking s' = isTracking s
          /\ showAlert s' = showAlert s) as (E1 & E2 & E3).
  { unfold shape in E. inversion E. auto. }
  rewrite E, E1, E2, E3. exact H.
Qed.

Lemma shape_sessionId s s' : shape s' = shape s -> sessionId s' = sessionId s.
Proof. unfold shape. intros E. inversion E. auto. Qed.

Lemma shape_isTracking s s' : shape s' = shape s -> isTracking s' = isTracking s.
Proof. unfold shape. intros E. inversion E. auto. Qed.

Lemma SessionId_eqb_eq a b : SessionId_eqb a b = true <-> a = b.
Proof.
  destruct a as [x|], b as [y|]; simpl; split; intros H;
    try congruence; try reflexivity.
  - apply String.eqb_eq in H. congruence.
  - apply String.eqb_eq. congruence.
Qed.

(** Functions that leave the shape alone. *)

Lemma shape_logEvent sid ty d s : shape (logEvent sid ty d s) = shape s.
Proof. unfold logEvent. destruct (negb _); reflexivity. Qed.

Lemma shape_handleScroll s : shape (handleScroll s) = shape s.
Proof.
  unfold handleScroll. destruct (scrollFx s) eqn:E; auto.
  unfold shape; simpl. rewrite E. reflexivity.
Qed.

Lemma shape_handleClick x y s : shape (handleClick x y s) = shape s.
Proof.
  unfold handleClick. destruct (clickFx s); auto.
  rewrite shape_logEvent. reflexivity.
Qed.

Lemma shape_handleMouseMove s : shape (handleMouseMove s) = shape s.
Proof.
  unfold handleMouseMove. destruct (moveFx s) eqn:E; auto.
  unfold shape; simpl. rewrite E. reflexivity.
Qed.

Lemma shape_resetIdle s : shape (resetIdle s) = shape s.
Proof.
  unfold resetIdle. destruct (idleFx s) eqn:E; auto.
  unfold shape; simpl. rewrite E. reflexivity.
Qed.

Lemma shape_handleVisibilityChange s :
  shape (handleVisibilityChange s) = shape s.
Proof.
  unfold handleVisibilityChange. destruct (visFx s); auto.
  rewrite shape_logEvent. reflexivity.
Qed.

Lemma shape_fire_activeTime s : shape (fire_activeTime s) = shape s.
Proof.
  unfold fire_activeTime. destruct (activeTimer s) as [due|] eqn:E; auto.
  destruct (due <=? now s); auto.
  unfold shape; simpl. rewrite E. reflexivity.
Qed.

Lemma shape_fire_scroll s : shape (fire_scroll s) = shape s.
Proof.
  unfold fire_scroll. destruct (scrollFx s) as [fx|] eqn:E; auto.
  destruct (scrollTimeout fx) as [due|]; auto.
  destruct (due <=? now s); auto.
  unfold scroll_timeout. rewrite shape_logEvent.
  unfold shape; simpl. rewrite E. reflexivity.
Qed.

(** Case analysis on the scrutinee of every [match] and [if] of the goal. *)
Ltac break_goal :=
  repeat (simpl;
          match goal with
          | H : ?x = _ |- context [match ?x with _ => _ end] => rewrite H
          | |- context [match ?x with _ => _ end] =>
              lazymatch x with
              | context [match _ with _ => _ end] => fail
              | _ => let E := fresh "E" in destruct x eqn:E
              end
          end).

Ltac rewrite_hyps :=
  repeat match goal with
  | H : ?x = _ |- context [?x] => rewrite H
  end.

Ltac shape_tac :=
  unfold scroll_timeout, move_timeout, checkIdle, resetIdle, logEvent,
    getDriftAnalysis, axios, console_error, setMetrics, setDriftAnalysis;
  break_goal; unfold shape; simpl; rewrite_hyps; simpl; try reflexivity.

Lemma shape_fire_mouseMove s : shape (fire_mouseMove s) = shape s.
Proof. unfold fire_mouseMove. shape_tac. Qed.

Lemma shape_fire_idle s : shape (fire_idle s) = shape s.
Proof. unfold fire_idle. shape_tac. Qed.

Lemma shape_fire_analysis s : shape (fire_analysis s) = shape s.
Proof. unfold fire_analysis. shape_tac. Qed.

(** Setters that re-run effects re-establish [wf]. *)

Ltac wf_tac :=
  unfold wf, shape, rendered in *; simpl in *;
  repeat match goal with
  | H : (_, _) = (_, _) |- _ => injection H as H; intros
  end;
  break_goal; simpl in *; try congruence.

Lemma wf_setShowAlert b s : wf s -> wf (setShowAlert b s).
Proof.
  unfold setShowAlert. destruct (Bool.eqb (showAlert s) b); auto.
  intros H. wf_tac.
Qed.

Lemma wf_setSessionId v s : wf s -> wf (setSessionId v s).
Proof.
  unfold setSessionId. destruct (SessionId_eqb (sessionId s) v); auto.
  intros H. wf_tac.
Qed.

Lemma wf_setIsTracking b s : wf s -> wf (setIsTracking b s).
Proof.
  unfold setIsTracking. destruct (Bool.eqb (isTracking s) b); auto.
  intros H. wf_tac.
Qed.

Lemma wf_with_alertTimers l s : wf s -> wf (with_alertTimers l s).
Proof. apply wf_of_shape. reflexivity. Qed.

Lemma wf_with_inflight l s : wf s -> wf (with_inflight l s).
Proof. apply wf_of_shape. reflexivity. Qed.

Lemma wf_fire_alerts s : wf s -> wf (fire_alerts s).
Proof.
  unfold fire_alerts. destruct (existsb _ _); auto.
  intros H. apply wf_setShowAlert, wf_with_alertTimers, H.
Qed.

Lemma wf_tick s : wf s -> wf (tick s).
Proof.
  intros H. unfold tick. apply wf_fire_alerts.
  revert H. apply wf_of_shape.
  rewrite shape_fire_analysis, shape_fire_idle, shape_fire_mouseMove,
    shape_fire_scroll, shape_fire_activeTime. reflexivity.
Qed.

Lemma wf_ticks n : forall s, wf s -> wf (ticks n s).
Proof. induction n; simpl; auto using wf_tick. Qed.

Lemma wf_settle k r s s' : settle k r s = Some s' -> wf s -> wf s'.
Proof.
  destruct k as [| |alert|], r; simpl; intros E H; inversion E; subst; clear E;
    auto.
  - apply wf_setIsTracking, wf_setSessionId, H.
  - unfold getDriftAnalysis_resolved.
    destruct (is_drifting a && negb alert); auto.
    apply wf_with_alertTimers, wf_setShowAlert, H.
  - apply wf_setIsTracking, H.
  - apply wf_setIsTracking, H.
Qed.

Lemma wf_step s e : wf s -> wf (step s e).
Proof.
  intros H. destruct e; simpl.
  - apply wf_ticks, H.
  - revert H. apply wf_of_shape. rewrite shape_handleScroll. reflexivity.
  - revert H. apply wf_of_shape, shape_handleClick.
  - revert H. apply wf_of_shape.
    rewrite shape_resetIdle. apply shape_handleMouseMove.
  - revert H. apply wf_of_shape, shape_resetIdle.
  - revert H. apply wf_of_shape.
    rewrite shape_handleVisibilityChange. reflexivity.
  - destruct (isTracking s); auto.
  - destruct (isTracking s); auto.
    unfold stopTracking. destruct (truthy (sessionId s)).
    + revert H. apply wf_of_shape. reflexivity.
    + apply wf_setIsTracking, H.
  - destruct (nth_error (inflight s) i) as [k|]; auto.
    destruct (settle k r _) as [s'|] eqn:E; auto.
    eapply wf_settle; [exact E|]. apply wf_with_inflight, H.
Qed.

Lemma wf_mount : wf mount.
Proof. reflexivity. Qed.

Lemma wf_run tr : forall s, wf s -> wf (run tr s).
Proof. induction tr; simpl; auto using wf_step. Qed.

Lemma wf_reachable tr : wf (run tr mount).
Proof. apply wf_run, wf_mount. Qed.

(** What [wf] says about a tracking and about a stopped tracker. *)

Lemma wf_tracking s :
  wf s -> isTracking s = true ->
  (exists fx, scrollFx s = Some fx /\ scroll_logEvent fx = sessionId s) /\
  (exists fx, moveFx s = Some fx /\ move_logEvent fx = sessionId s) /\
  (exists fx, idleFx s = Some fx /\ idle_logEvent fx = sessionId s).
Proof.
  unfold wf, shape, rendered. intros H T. rewrite T in H.
  injection H as Ha Hs Hc Hm Hi Hv Hp.
  repeat split.
  - revert Hs. destruct (scrollFx s) as [fx|]; simpl; intros Hs; [|discriminate].
    exists fx. split; congruence.
  - revert Hm. destruct (moveFx s) as [fx|]; simpl; intros Hm; [|discriminate].
    exists fx. split; congruence.
  - revert Hi. destruct (idleFx s) as [fx|]; simpl; intros Hi; [|discriminate].
    exists fx. split; congruence.
Qed.

Lemma wf_inactive s : wf s -> isTracking s = false -> inactive s.
Proof.
  unfold wf, shape, rendered, inactive. intros H T. rewrite T in H.
  injection H as Ha Hs Hc Hm Hi Hv Hp.
  repeat split; auto.
  - revert Ha. destruct (activeTimer s); simpl; intros Ha; [discriminate | reflexivity].
  - revert Hs. destruct (scrollFx s); simpl; intros Hs; [discriminate | reflexivity].
  - revert Hc. destruct (clickFx s); simpl; intros Hc; [discriminate | reflexivity].
  - revert Hm. destruct (moveFx s); simpl; intros Hm; [discriminate | reflexivity].
  - revert Hi. destruct (idleFx s); simpl; intros Hi; [discriminate | reflexivity].
  - revert Hv. destruct (visFx s); simpl; intros Hv; [discriminate | reflexivity].
  - revert Hp. destruct (analysisFx s); simpl; intros Hp; [discriminate | reflexivity].
Qed.

(** ** A stopped tracker stays quiet *)

Ltac inactive_tac :=
  unfold inactive in *;
  repeat match goal with H : _ /\ _ |- _ => destruct H end;
  unfold trace_of, handleScroll, handleClick, handleMouseMove, resetIdle,
    handleVisibilityChange, console_error, setDriftAnalysis,
    startSession_rejected, logEvent_rejected, getDriftAnalysis_rejected;
  repeat (progress (simpl; rewrite_hyps)); auto 10.

Lemma inactive_setShowAlert b s :
  inactive s ->
  inactive (setShowAlert b s) /\ trace_of (setShowAlert b s) = trace_of s
  /\ console (setShowAlert b s) = console s.
Proof.
  intros H. unfold setShowAlert. destruct (Bool.eqb _ _); auto.
  unfold effect_analysis. inactive_tac.
Qed.

Lemma inactive_setIsTracking b s :
  inactive s -> b = false -> setIsTracking b s = s.
Proof.
  intros H ->. unfold setIsTracking. destruct H as [-> _]. reflexivity.
Qed.

Lemma inactive_fire_alerts s :
  inactive s ->
  inactive (fire_alerts s) /\ trace_of (fire_alerts s) = trace_of s
  /\ console (fire_alerts s) = console s.
Proof.
  intros H. unfold fire_alerts. destruct (existsb _ _); auto.
  match goal with |- inactive (setShowAlert _ ?t) /\ _ =>
    destruct (inactive_setShowAlert false t) as (A & B & C); [inactive_tac|]
  end.
  rewrite B, C. auto.
Qed.

Lemma inactive_timers s :
  inactive s ->
  fire_analysis (fire_idle (fire_mouseMove (fire_scroll (fire_activeTime s)))) = s.
Proof.
  intros (_ & Ha & Hs & _ & Hm & Hi & _ & Hp).
  unfold fire_activeTime. rewrite Ha.
  unfold fire_scroll. rewrite Hs.
  unfold fire_mouseMove. rewrite Hm.
  unfold fire_idle. rewrite Hi.
  unfold fire_analysis. rewrite Hp. reflexivity.
Qed.

Lemma inactive_tick_console s :
  inactive s ->
  inactive (tick s) /\ trace_of (tick s) = trace_of s
  /\ console (tick s) = console s.
Proof.
  intros H. unfold tick.
  rewrite inactive_timers by inactive_tac.
  destruct (inactive_fire_alerts (with_now (now s + 1) s)) as (A & B & C);
    [inactive_tac|].
  rewrite B, C. auto.
Qed.

Lemma inactive_ticks n : forall s,
  inactive s ->
  inactive (ticks n s) /\ trace_of (ticks n s) = trace_of s
  /\ console (ticks n s) = console s.
Proof.
  induction n as [|n IH]; intros s H; simpl; auto.
  destruct (inactive_tick_console s H) as (H1 & E1 & C1).
  destruct (IH _ H1) as (H2 & E2 & C2).
  split; [exact H2 | split; congruence].
Qed.

Lemma inactive_setIsTracking_false s :
  wf s -> inactive (setIsTracking false s).
Proof.
  intros H. unfold setIsTracking.
  destruct (Bool.eqb (isTracking s) false) eqn:E.
  - apply wf_inactive; auto. destruct (isTracking s); simpl in E; congruence.
  - unfold inactive. simpl. repeat split; reflexivity.
Qed.

Lemma inactive_settle k r s s' :
  (forall id, r <> Started id) ->
  settle k r s = Some s' -> inactive s ->
  inactive s' /\ metrics s' = metrics s /\ sent s' = sent s
  /\ sessionId s' = sessionId s.
Proof.
  intros Hr E H.
  destruct k as [| |alert|], r; simpl in E; inversion E; subst; clear E;
    try (exfalso; eapply Hr; reflexivity); try solve [inactive_tac].
  - unfold getDriftAnalysis_resolved.
    destruct (is_drifting a && negb alert); [|inactive_tac].
    match goal with |- context [setShowAlert true ?t] =>
      destruct (inactive_setShowAlert true t) as (A & B & C); [inactive_tac|];
      generalize dependent (setShowAlert true t)
    end.
    intros t A B. unfold trace_of in B. injection B as B1 B2 B3 B4.
    intros _. simpl. repeat split; try apply A; auto.
  - unfold stopTracking_settled. rewrite inactive_setIsTracking; auto.
  - unfold stopTracking_settled.
    rewrite inactive_setIsTracking; auto; inactive_tac.
Qed.

Lemma inactive_step s e :
  inactive s -> no_restart e ->
  inactive (step s e) /\ metrics (step s e) = metrics s
  /\ sent (step s e) = sent s /\ sessionId (step s e) = sessionId s.
Proof.
  intros H Q. destruct e; simpl in *; try solve [inactive_tac]; try tauto.
  - destruct (inactive_ticks (Z.to_nat ms) s H) as (H1 & E1 & _).
    unfold trace_of in E1. injection E1 as E1 E2 E3 E4. auto.
  - destruct (nth_error (inflight s) i) as [k|]; [|inactive_tac].
    destruct (settle k r _) as [s'|] eqn:E; [|inactive_tac].
    apply inactive_settle in E.
    + simpl in E. exact E.
    + intros id ->. exact Q.
    + inactive_tac.
Qed.

Lemma inactive_run tr : forall s,
  inactive s -> Forall no_restart tr ->
  inactive (run tr s) /\ metrics (run tr s) = metrics s
  /\ sent (run tr s) = sent s /\ sessionId (run tr s) = sessionId s.
Proof.
  induction tr as [|e tr IH]; intros s H Q; simpl; auto.
  inversion Q as [|e' tr' Qe Qtr]; subst.
  destruct (inactive_step s e H Qe) as (H1 & E1 & E2 & E3).
  destruct (IH _ H1 Qtr) as (H2 & F1 & F2 & F3).
  split; [exact H2 | repeat split; congruence].
Qed.

(** With nothing in flight, only the Start button can wake the tracker. *)
Lemma idle_step s e :
  inactive s -> inflight s = [] -> e <> PressStart ->
  inactive (step s e) /\ trace_of (step s e) = trace_of s
  /\ console (step s e) = console s.
Proof.
  intros H I Q. destruct e; simpl in *; try solve [inactive_tac]; try congruence.
  - apply inactive_ticks, H.
  - rewrite I. destruct i; simpl; inactive_tac.
Qed.

Lemma idle_run tr : forall s,
  inactive s -> inflight s = [] -> Forall (fun e => e <> PressStart) tr ->
  inactive (run tr s) /\ trace_of (run tr s) = trace_of s
  /\ console (run tr s) = console s.
Proof.
  induction tr as [|e tr IH]; intros s H I Q; simpl; auto.
  inversion Q as [|e' tr' Qe Qtr]; subst.
  destruct (idle_step s e H I Qe) as (H1 & E1 & E2).
  assert (I1 : inflight (step s e) = []).
  { unfold trace_of in E1. injection E1 as _ _ E1 _. congruence. }
  destruct (IH _ H1 I1 Qtr) as (H2 & F1 & F2).
  split; [exact H2 | split; congruence].
Qed.

(** ** Reports carry the session of the render and a known type *)

Lemma emits_refl sid s : emits sid s s.
Proof. exists []. split; [reflexivity | constructor]. Qed.

Lemma emits_same sid s s' : sent s' = sent s -> emits sid s s'.
Proof. intros E. exists []. split; [exact E | constructor]. Qed.

Lemma emits_trans sid s1 s2 s3 :
  emits sid s1 s2 -> emits sid s2 s3 -> emits sid s1 s3.
Proof.
  intros (n1 & E1 & F1) (n2 & E2 & F2). exists (n2 ++ n1). split.
  - rewrite E2, E1. apply app_assoc.
  - apply Forall_app. auto.
Qed.

Lemma emits_logEvent sid ty d s :
  In ty event_types -> emits sid s (logEvent sid ty d s).
Proof.
  intros Hty. unfold logEvent. destruct (truthy sid) eqn:T; simpl.
  - exists [PostTrackingEvent sid ty d]. split; [reflexivity|].
    constructor; [|constructor]. simpl. auto.
  - apply emits_refl.
Qed.

Lemma emits_getDriftAnalysis sid sid' a s :
  emits sid s (getDriftAnalysis sid' a s).
Proof.
  unfold getDriftAnalysis. destruct (negb (truthy sid')); [apply emits_refl|].
  exists [GetAnalysis sid']. split; [reflexivity|].
  constructor; [exact I | constructor].
Qed.

Lemma sent_setShowAlert b s : sent (setShowAlert b s) = sent s.
Proof. unfold setShowAlert. destruct (Bool.eqb _ _); reflexivity. Qed.

Lemma sent_setSessionId v s : sent (setSessionId v s) = sent s.
Proof. unfold setSessionId. destruct (SessionId_eqb _ _); reflexivity. Qed.

Lemma sent_setIsTracking b s : sent (setIsTracking b s) = sent s.
Proof. unfold setIsTracking. destruct (Bool.eqb _ _); reflexivity. Qed.

Lemma sent_resetIdle s : sent (resetIdle s) = sent s.
Proof. unfold resetIdle. destruct (idleFx s); reflexivity. Qed.

Lemma wf_captured s : wf s -> captured s.
Proof.
  unfold wf, shape, rendered, captured. intros H.
  injection H as Ha Hs Hc Hm Hi Hv Hp.
  repeat split; intros fx E; rewrite E in *; simpl in *;
    destruct (isTracking s); congruence.
Qed.

Lemma emits_fire_scroll s :
  captured s -> emits (sessionId s) s (fire_scroll s).
Proof.
  intros (C & _). unfold fire_scroll.
  destruct (scrollFx s) as [fx|] eqn:E; [|apply emits_refl].
  destruct (scrollTimeout fx); [|apply emits_refl].
  destruct (_ <=? _); [|apply emits_refl].
  unfold scroll_timeout. rewrite (C fx eq_refl).
  match goal with |- emits _ _ (logEvent _ _ _ ?t) =>
    apply emits_trans with t; [apply emits_same; reflexivity|] end.
  apply emits_logEvent. unfold event_types. simpl. tauto.
Qed.

Lemma emits_fire_mouseMove s :
  captured s -> emits (sessionId s) s (fire_mouseMove s).
Proof.
  intros (_ & _ & C & _). unfold fire_mouseMove.
  destruct (moveFx s) as [fx|] eqn:E; [|apply emits_refl].
  destruct (moveTimeout fx); [|apply emits_refl].
  destruct (_ <=? _); [|apply emits_refl].
  unfold move_timeout. rewrite (C fx eq_refl).
  destruct (moveCount fx >? 5); [|apply emits_same; reflexivity].
  match goal with |- emits _ _ (with_moveFx _ (logEvent ?a ?b ?c ?t)) =>
    apply emits_trans with (logEvent a b c t); [|apply emits_same; reflexivity];
    apply emits_trans with t; [apply emits_same; reflexivity|] end.
  apply emits_logEvent. unfold event_types. simpl. tauto.
Qed.

Lemma emits_checkIdle s :
  captured s -> emits (sessionId s) s (checkIdle s).
Proof.
  intros (_ & _ & _ & C & _). unfold checkIdle.
  destruct (idleFx s) as [fx|] eqn:E; [|apply emits_refl].
  destruct (_ >? _); [|apply emits_refl].
  rewrite (C fx eq_refl).
  match goal with |- emits _ _ (resetIdle (logEvent ?a ?b ?c ?t)) =>
    apply emits_trans with (logEvent a b c t);
      [|apply emits_same, sent_resetIdle];
    apply emits_trans with t; [apply emits_same; reflexivity|] end.
  apply emits_logEvent. unfold event_types. simpl. tauto.
Qed.

Lemma emits_fire_idle s :
  captured s -> emits (sessionId s) s (fire_idle s).
Proof.
  intros C. unfold fire_idle.
  destruct (idleFx s) as [fx|] eqn:E; [|apply emits_refl].
  destruct (_ <=? _); [|apply emits_refl].
  match goal with |- emits _ _ (checkIdle ?t) =>
    apply emits_trans with t; [apply emits_same; reflexivity|];
    change (sessionId s) with (sessionId t); apply emits_checkIdle
  end.
  destruct C as (C1 & C2 & C3 & C4 & C5).
  repeat split; simpl; auto.
  intros fx' E'. inversion E'; subst; simpl. apply (C4 fx E).
Qed.

Lemma emits_fire_analysis sid s : emits sid s (fire_analysis s).
Proof.
  unfold fire_analysis.
  destruct (analysisFx s) as [fx|]; [|apply emits_refl].
  destruct (_ <=? _); [|apply emits_refl].
  match goal with |- emits _ _ (getDriftAnalysis _ _ ?t) =>
    apply emits_trans with t; [apply emits_same; reflexivity|] end.
  apply emits_getDriftAnalysis.
Qed.

Lemma sent_fire_activeTime s : sent (fire_activeTime s) = sent s.
Proof.
  unfold fire_activeTime. destruct (activeTimer s); auto.
  destruct (_ <=? _); reflexivity.
Qed.

Lemma sent_fire_alerts s : sent (fire_alerts s) = sent s.
Proof.
  unfold fire_alerts. destruct (existsb _ _); auto.
  rewrite sent_setShowAlert. reflexivity.
Qed.

Lemma sessionId_fire_alerts s : sessionId (fire_alerts s) = sessionId s.
Proof.
  unfold fire_alerts, setShowAlert. destruct (existsb _ _); auto.
  destruct (Bool.eqb _ _); reflexivity.
Qed.

Lemma isTracking_fire_alerts s : isTracking (fire_alerts s) = isTracking s.
Proof.
  unfold fire_alerts, setShowAlert. destruct (existsb _ _); auto.
  destruct (Bool.eqb _ _); reflexivity.
Qed.

Lemma tick_timers s : tick s = fire_alerts (timers (with_now (now s + 1) s)).
Proof. reflexivity. Qed.

Lemma shape_timers s : shape (timers s) = shape s.
Proof.
  unfold timers.
  rewrite shape_fire_analysis, shape_fire_idle, shape_fire_mouseMove,
    shape_fire_scroll, shape_fire_activeTime. reflexivity.
Qed.

Lemma sessionId_tick s : sessionId (tick s) = sessionId s.
Proof.
  rewrite tick_timers, sessionId_fire_alerts.
  rewrite (shape_sessionId _ _ (shape_timers _)). reflexivity.
Qed.

Lemma emits_tick s : wf s -> emits (sessionId s) s (tick s).
Proof.
  intros H. rewrite tick_timers.
  apply emits_trans with (timers (with_now (now s + 1) s));
    [|apply emits_same, sent_fire_alerts].
  set (s0 := with_now (now s + 1) s).
  assert (W0 : wf s0) by (revert H; apply wf_of_shape; reflexivity).
  assert (W1 : wf (fire_activeTime s0))
    by (revert W0; apply wf_of_shape, shape_fire_activeTime).
  assert (W2 : wf (fire_scroll (fire_activeTime s0)))
    by (revert W1; apply wf_of_shape, shape_fire_scroll).
  assert (W3 : wf (fire_mouseMove (fire_scroll (fire_activeTime s0))))
    by (revert W2; apply wf_of_shape, shape_fire_mouseMove).
  assert (S1 : sessionId (fire_activeTime s0) = sessionId s)
    by (rewrite (shape_sessionId _ _ (shape_fire_activeTime _)); reflexivity).
  assert (S2 : sessionId (fire_scroll (fire_activeTime s0)) = sessionId s)
    by (rewrite (shape_sessionId _ _ (shape_fire_scroll _)); exact S1).
  assert (S3 : sessionId (fire_mouseMove (fire_scroll (fire_activeTime s0)))
               = sessionId s)
    by (rewrite (shape_sessionId _ _ (shape_fire_mouseMove _)); exact S2).
  unfold timers.
  eapply emits_trans; [|apply emits_fire_analysis].
  eapply emits_trans; [|rewrite <- S3; apply emits_fire_idle, wf_captured, W3].
  eapply emits_trans; [|rewrite <- S2; apply emits_fire_mouseMove, wf_captured, W2].
  eapply emits_trans; [|rewrite <- S1; apply emits_fire_scroll, wf_captured, W1].
  apply emits_same. rewrite sent_fire_activeTime. reflexivity.
Qed.

Lemma emits_ticks n : forall s, wf s -> emits (sessionId s) s (ticks n s).
Proof.
  induction n as [|n IH]; intros s H; simpl; [apply emits_refl|].
  eapply emits_trans; [apply emits_tick, H|].
  rewrite <- (sessionId_tick s). apply IH, wf_tick, H.
Qed.

Lemma sessionId_ticks n : forall s, sessionId (ticks n s) = sessionId s.
Proof.
  induction n as [|n IH]; intros s; simpl; auto.
  rewrite IH. apply sessionId_tick.
Qed.

Lemma sent_settle k r s s' : settle k r s = Some s' -> sent s' = sent s.
Proof.
  destruct k as [| |alert|], r; simpl; intros E; inversion E; subst; clear E;
    auto.
  - unfold startSession_resolved.
    rewrite sent_setIsTracking, sent_setSessionId. reflexivity.
  - unfold getDriftAnalysis_resolved.
    destruct (is_drifting a && negb alert); simpl; auto.
    rewrite sent_setShowAlert. reflexivity.
  - unfold stopTracking_settled. rewrite sent_setIsTracking. reflexivity.
  - unfold stopTracking_settled. rewrite sent_setIsTracking. reflexivity.
Qed.

(** One event: what is sent carries the session id of the state the event
    arrives in; if anything is sent, that id is still current afterwards. *)
Lemma emits_step s e :
  wf s ->
  emits (sessionId s) s (step s e) /\
  (sent (step s e) = sent s \/ sessionId (step s e) = sessionId s).
Proof.
  intros H. pose proof (wf_captured s H) as (Cs & Cc & Cm & Ci & Cv).
  destruct e; simpl.
  - split; [apply emits_ticks, H | right; apply sessionId_ticks].
  - split; [apply emits_same | left];
      unfold handleScroll; simpl; destruct (scrollFx s); reflexivity.
  - unfold handleClick. destruct (clickFx s) as [fx|] eqn:E.
    + split.
      * rewrite (Cc fx eq_refl).
        match goal with |- emits _ _ (logEvent _ _ _ ?t) =>
          apply emits_trans with t; [apply emits_same; reflexivity|] end.
        apply emits_logEvent. unfold event_types. simpl. tauto.
      * right. rewrite (shape_sessionId _ _ (shape_logEvent _ _ _ _)).
        reflexivity.
    + split; [apply emits_refl | auto].
  - split; [apply emits_same | left]; rewrite sent_resetIdle;
      unfold handleMouseMove; destruct (moveFx s); reflexivity.
  - split; [apply emits_same | left]; apply sent_resetIdle.
  - unfold handleVisibilityChange. simpl.
    destruct (visFx s) as [fx|] eqn:E.
    + split.
      * rewrite (Cv fx eq_refl).
        match goal with |- emits _ _ (logEvent _ _ _ ?t) =>
          apply emits_trans with t; [apply emits_same; reflexivity|] end.
        apply emits_logEvent. unfold event_types. simpl. tauto.
      * right. rewrite (shape_sessionId _ _ (shape_logEvent _ _ _ _)).
        reflexivity.
    + split; [apply emits_same; reflexivity | auto].
  - destruct (isTracking s); [split; [apply emits_refl | auto]|].
    split; [|right; reflexivity].
    exists [PostSessionStart]. split; [reflexivity|].
    constructor; [exact I | constructor].
  - destruct (isTracking s); [|split; [apply emits_refl | auto]].
    unfold stopTracking. destruct (truthy (sessionId s)).
    + split; [|right; reflexivity].
      exists [DeleteSession (sessionId s)]. split; [reflexivity|].
      constructor; [exact I | constructor].
    + split; [apply emits_same | left]; apply sent_setIsTracking.
  - destruct (nth_error (inflight s) i) as [k|];
      [|split; [apply emits_refl | auto]].
    destruct (settle k r _) as [s'|] eqn:E;
      [|split; [apply emits_refl | auto]].
    apply sent_settle in E. simpl in E.
    split; [apply emits_same | left]; exact E.
Qed.

(** ** Timers and the clock *)

Ltac frame_tac :=
  unfold fire_activeTime, fire_scroll, fire_mouseMove, fire_idle, fire_analysis,
    fire_alerts, setShowAlert, scroll_timeout, move_timeout, checkIdle,
    resetIdle, logEvent, getDriftAnalysis, axios, setMetrics;
  break_goal; try reflexivity.

Lemma now_fire_activeTime s : now (fire_activeTime s) = now s.
Proof. frame_tac. Qed.

Lemma now_fire_scroll s : now (fire_scroll s) = now s.
Proof. frame_tac. Qed.

Lemma now_fire_mouseMove s : now (fire_mouseMove s) = now s.
Proof. frame_tac. Qed.

Lemma now_fire_idle s : now (fire_idle s) = now s.
Proof. frame_tac. Qed.

Lemma now_fire_analysis s : now (fire_analysis s) = now s.
Proof. frame_tac. Qed.

Lemma now_fire_alerts s : now (fire_alerts s) = now s.
Proof. frame_tac. Qed.

Lemma now_tick s : now (tick s) = now s + 1.
Proof.
  unfold tick.
  rewrite now_fire_alerts, now_fire_analysis, now_fire_idle, now_fire_mouseMove,
    now_fire_scroll, now_fire_activeTime. reflexivity.
Qed.

Lemma now_ticks n : forall s, now (ticks n s) = now s + Z.of_nat n.
Proof.
  induction n as [|n IH]; intros s.
  - simpl. lia.
  - change (ticks (S n) s) with (ticks n (tick s)).
    rewrite IH, now_tick. lia.
Qed.

Lemma ticks_add n m s : ticks (n + m) s = ticks m (ticks n s).
Proof. revert s. induction n as [|n IH]; intros s; simpl; auto. Qed.

(** *** The scroll timeout *)

Lemma scroll_part_fire_activeTime s :
  scroll_part (fire_activeTime s) = scroll_part s.
Proof. unfold scroll_part, reports. frame_tac. Qed.

Lemma scroll_part_fire_scroll s :
  scroll_part (fire_scroll s) = scroll_tick (now s) (scroll_part s).
Proof.
  unfold scroll_part, reports, scroll_tick, fire_scroll, scroll_timeout, logEvent.
  destruct (scrollFx s) as [fx|] eqn:E; simpl; rewrite ?E; auto.
  destruct (scrollTimeout fx) as [due|]; simpl; rewrite ?E; auto.
  destruct (due <=? now s); simpl; rewrite ?E; auto.
  destruct (truthy (scroll_logEvent fx)); reflexivity.
Qed.

Lemma scroll_part_fire_mouseMove s :
  scroll_part (fire_mouseMove s) = scroll_part s.
Proof. unfold scroll_part, reports. frame_tac. Qed.

Lemma scroll_part_fire_idle s : scroll_part (fire_idle s) = scroll_part s.
Proof. unfold scroll_part, reports. frame_tac. Qed.

Lemma scroll_part_fire_analysis s :
  scroll_part (fire_analysis s) = scroll_part s.
Proof. unfold scroll_part, reports. frame_tac. Qed.

Lemma scroll_part_fire_alerts s : scroll_part (fire_alerts s) = scroll_part s.
Proof. unfold scroll_part, reports. frame_tac. Qed.

Lemma scroll_part_tick s :
  scroll_part (tick s) = scroll_tick (now s + 1) (scroll_part s).
Proof.
  unfold tick.
  rewrite scroll_part_fire_alerts, scroll_part_fire_analysis,
    scroll_part_fire_idle, scroll_part_fire_mouseMove, scroll_part_fire_scroll,
    scroll_part_fire_activeTime, now_fire_activeTime.
  reflexivity.
Qed.

Lemma scroll_wait_pending n : forall s fx due,
  scrollFx s = Some fx -> scrollTimeout fx = Some due ->
  now s + Z.of_nat n < due ->
  scroll_part (ticks n s) = scroll_part s.
Proof.
  induction n as [|n IH]; intros s fx due Hfx Hdue Hlt; [reflexivity|].
  change (ticks (S n) s) with (ticks n (tick s)).
  assert (E : scroll_part (tick s) = scroll_part s).
  { rewrite scroll_part_tick. unfold scroll_part, scroll_tick.
    rewrite Hfx, Hdue.
    destruct (due <=? now s + 1) eqn:L; [|reflexivity].
    apply Z.leb_le in L. lia. }
  rewrite <- E. apply (IH (tick s) fx due); auto.
  - unfold scroll_part in E. injection E as E _ _ _. congruence.
  - rewrite now_tick. lia.
Qed.

Lemma scroll_wait_idle n : forall s,
  (forall fx, scrollFx s = Some fx -> scrollTimeout fx = None) ->
  scroll_part (ticks n s) = scroll_part s.
Proof.
  induction n as [|n IH]; intros s Hnone; [reflexivity|].
  change (ticks (S n) s) with (ticks n (tick s)).
  assert (E : scroll_part (tick s) = scroll_part s).
  { rewrite scroll_part_tick. unfold scroll_part, scroll_tick.
    destruct (scrollFx s) as [fx|]; [|reflexivity].
    rewrite (Hnone fx eq_refl). reflexivity. }
  rewrite <- E. apply IH.
  unfold scroll_part in E. injection E as E _ _ _. rewrite E. exact Hnone.
Qed.

(** The timeout runs once, when its time comes, and not again. *)
Lemma scroll_wait_fire n s fx due :
  scrollFx s = Some fx -> scrollTimeout fx = Some due ->
  now s < due <= now s + Z.of_nat n ->
  scroll_part (ticks n s) =
  scroll_tick due (scroll_part s).
Proof.
  intros Hfx Hdue Hrange.
  set (k := Z.to_nat (due - now s - 1)).
  assert (Hn : n = (k + (1 + (n - k - 1)))%nat) by lia.
  rewrite Hn, ticks_add, ticks_add.
  set (s1 := ticks k s).
  assert (E1 : scroll_part s1 = scroll_part s).
  { apply (scroll_wait_pending k s fx due); auto. lia. }
  assert (N1 : now s1 = due - 1).
  { unfold s1. rewrite now_ticks. lia. }
  assert (F1 : scrollFx s1 = Some fx).
  { unfold scroll_part in E1. injection E1 as E1 _ _ _. congruence. }
  change (ticks 1 s1) with (tick s1).
  rewrite scroll_wait_idle.
  - rewrite scroll_part_tick, E1, N1. f_equal. lia.
  - intros fx'. 
    pose proof (scroll_part_tick s1) as E2.
    unfold scroll_part at 2 in E2. unfold scroll_tick in E2.
    rewrite F1, Hdue, N1 in E2.
    replace (due <=? due - 1 + 1) with true in E2
      by (symmetry; apply Z.leb_le; lia).
    unfold scroll_part in E2. injection E2 as E2 _ _ _. rewrite E2.
    intros E3. inversion E3. reflexivity.
Qed.

Lemma scroll_part_Scroll s fx y :
  scrollFx s = Some fx ->
  scroll_part (step s (Scroll y)) =
  (Some {| scrollTimeout := Some (now s + 100);
           scroll_logEvent := scroll_logEvent fx |},
   scrolls (metrics s), reports "scroll" s, y)
  /\ now (step s (Scroll y)) = now s.
Proof.
  intros Hfx. simpl. unfold handleScroll. simpl. rewrite Hfx. split; reflexivity.
Qed.

Lemma last_cons {A} (l : list A) : forall a d, last (a :: l) d = last l a.
Proof.
  induction l as [|b l IH]; intros a d; [reflexivity|].
  change (last (a :: b :: l) d) with (last (b :: l) d).
  rewrite IH. symmetry. apply IH.
Qed.

(** The rest of a burst keeps the timeout pending and counts nothing. *)
Lemma scroll_burst_pending more : forall s sid n rs y,
  scroll_part s =
    (Some {| scrollTimeout := Some (now s + 100); scroll_logEvent := sid |},
     n, rs, y) ->
  Forall (fun gy => 0 <= fst gy < 100) more ->
  let s' := run (flat_map (fun gy => [Wait (fst gy); Scroll (snd gy)]) more) s in
  scroll_part s' =
    (Some {| scrollTimeout := Some (now s' + 100); scroll_logEvent := sid |},
     n, rs, last (map snd more) y).
Proof.
  induction more as [|[g y'] more IH]; intros s sid n rs y Hs Hgaps.
  - simpl. exact Hs.
  - inversion Hgaps as [|gy more' Hg Hmore]; subst. simpl in Hg.
    cbn [flat_map app run fold_left fst snd].
    set (s1 := step s (Wait g)).
    assert (F : scrollFx s =
                Some {| scrollTimeout := Some (now s + 100);
                        scroll_logEvent := sid |}).
    { unfold scroll_part in Hs. injection Hs as Hs _ _ _. exact Hs. }
    assert (E1 : scroll_part s1 = scroll_part s).
    { unfold s1. simpl.
      eapply scroll_wait_pending; [exact F | reflexivity | lia]. }
    assert (F1 : scrollFx s1 =
                 Some {| scrollTimeout := Some (now s + 100);
                         scroll_logEvent := sid |}).
    { unfold scroll_part in E1. injection E1 as E1 _ _ _. congruence. }
    destruct (scroll_part_Scroll s1 _ y' F1) as [E2 N2].
    set (s2 := step s1 (Scroll y')) in *.
    fold (run (flat_map (fun gy => [Wait (fst gy); Scroll (snd gy)]) more) s2).
    pose proof E1 as E1'. rewrite Hs in E1'. unfold scroll_part in E1'.
    injection E1' as _ HB HC _. rewrite HB, HC in E2. simpl in E2.
    assert (E3 : scroll_part s2 =
      (Some {| scrollTimeout := Some (now s2 + 100); scroll_logEvent := sid |},
       n, rs, y')).
    { rewrite E2. unfold scroll_part. simpl. rewrite N2. reflexivity. }
    specialize (IH s2 sid n rs y' E3 Hmore). simpl in IH.
    rewrite IH. f_equal. simpl map. symmetry. apply last_cons.
Qed.

Lemma truthy_Some sid : sid <> "" -> truthy (Some sid) = true.
Proof.
  intros H. simpl. destruct (String.eqb sid "") eqn:E; [|reflexivity].
  apply String.eqb_eq in E. contradiction.
Qed.

Lemma run_app tr1 tr2 s : run (tr1 ++ tr2) s = run tr2 (run tr1 s).
Proof. apply fold_left_app. Qed.

(** C1 - scroll debounce.
    In any state the tracker can reach in which tracking is on under a
    session id [sid], take a burst of scroll events - a first one, then
    further ones each less than 100ms after the previous one - followed by
    at least 100ms without a scroll.  Over the whole burst the [scrolls]
    counter goes up by exactly one and exactly one "scroll" report is sent;
    it carries the session id and the vertical offset the window has when
    the timeout runs, which is the offset of the last scroll. *)
Theorem scroll_burst_counts_once tr sid y more q :
  let s := run tr mount in
  isTracking s = true -> sessionId s = Some sid -> sid <> "" ->
  Forall (fun gy => 0 <= fst gy < 100) more -> 100 <= q ->
  let s' := run (scroll_burst y more ++ [Wait q]) s in
  scrolls (metrics s') = scrolls (metrics s) + 1 /\
  reports "scroll" s' =
    PostTrackingEvent (Some sid) "scroll" (DScroll (last_offset y more))
      :: reports "scroll" s.
Proof.
  intros s T S Hsid Hgaps Hq s'.
  destruct (wf_tracking s (wf_reachable tr) T) as ((fx & Hfx & Hcap) & _).
  unfold s', scroll_burst. rewrite run_app.
  change (run (Scroll y :: ?l) s) with (run l (step s (Scroll y))).
  destruct (scroll_part_Scroll s fx y Hfx) as [E1 N1].
  set (s1 := step s (Scroll y)) in *.
  rewrite <- N1, Hcap, S in E1.
  pose proof (scroll_burst_pending more s1 _ _ _ _ E1 Hgaps) as E2.
  simpl in E2.
  set (s2 := run (flat_map (fun gy => [Wait (fst gy); Scroll (snd gy)]) more) s1)
    in *.
  assert (F2 : scrollFx s2 =
               Some {| scrollTimeout := Some (now s2 + 100);
                       scroll_logEvent := Some sid |}).
  { unfold scroll_part in E2. injection E2 as E2 _ _ _. exact E2. }
  assert (E3 : scroll_part (step s2 (Wait q)) =
               scroll_tick (now s2 + 100) (scroll_part s2)).
  { simpl. eapply scroll_wait_fire; [exact F2 | reflexivity | lia]. }
  rewrite E2 in E3. unfold scroll_tick in E3. cbn [scrollTimeout] in E3.
  rewrite Z.leb_refl in E3. cbn [scroll_logEvent] in E3.
  rewrite (truthy_Some sid Hsid) in E3.
  unfold scroll_part in E3. injection E3 as _ E4 E5 _.
  split; [exact E4 | exact E5].
Qed.

Lemma scroll_burst_counts_once_witness :
  let s := run [Response 0 (Started "abc")] mount in
  let s' := run (scroll_burst 10 [(40, 25); (99, 70)] ++ [Wait 100]) s in
  scrolls (metrics s') = scrolls (metrics s) + 1 /\
  reports "scroll" s' =
    PostTrackingEvent (Some "abc") "scroll" (DScroll 70) :: reports "scroll" s.
Proof.
  apply (scroll_burst_counts_once [Response 0 (Started "abc")] "abc" 10
           [(40, 25); (99, 70)] 100).
  - reflexivity.
  - reflexivity.
  - discriminate.
  - repeat constructor; simpl; lia.
  - lia.
Defined.

(** At the boundary the timeout has run before the next scroll is handled:
    two scrolls exactly 100ms apart count twice. *)
Example scroll_gap_of_100_counts_twice :
  let s := run [Response 0 (Started "abc")] mount in
  let s' := run [Scroll 10; Wait 100; Scroll 20; Wait 100] s in
  scrolls (metrics s') = scrolls (metrics s) + 2.
Proof. vm_compute. reflexivity. Qed.

(** *** The mouse-move timeout *)

Lemma move_part_fire_activeTime s : move_part (fire_activeTime s) = move_part s.
Proof. unfold move_part, reports. frame_tac. Qed.

Lemma move_part_fire_scroll s : move_part (fire_scroll s) = move_part s.
Proof. unfold move_part, reports. frame_tac. Qed.

Lemma move_part_fire_mouseMove s :
  move_part (fire_mouseMove s) = move_tick (now s) (move_part s).
Proof.
  unfold move_part, reports, move_tick, fire_mouseMove, move_timeout, logEvent.
  destruct (moveFx s) as [fx|] eqn:E; simpl; rewrite ?E; auto.
  destruct (moveTimeout fx) as [due|]; simpl; rewrite ?E; auto.
  destruct (due <=? now s); simpl; rewrite ?E; auto.
  destruct (moveCount fx >? 5); simpl; auto.
  destruct (truthy (move_logEvent fx)); reflexivity.
Qed.

Lemma move_part_fire_idle s : move_part (fire_idle s) = move_part s.
Proof. unfold move_part, reports. frame_tac. Qed.

Lemma move_part_fire_analysis s : move_part (fire_analysis s) = move_part s.
Proof. unfold move_part, reports. frame_tac. Qed.

Lemma move_part_fire_alerts s : move_part (fire_alerts s) = move_part s.
Proof. unfold move_part, reports. frame_tac. Qed.

Lemma move_part_tick s :
  move_part (tick s) = move_tick (now s + 1) (move_part s).
Proof.
  unfold tick.
  rewrite move_part_fire_alerts, move_part_fire_analysis, move_part_fire_idle,
    move_part_fire_mouseMove, now_fire_scroll, now_fire_activeTime,
    move_part_fire_scroll, move_part_fire_activeTime.
  reflexivity.
Qed.

Lemma move_wait_pending n : forall s fx due,
  moveFx s = Some fx -> moveTimeout fx = Some due ->
  now s + Z.of_nat n < due ->
  move_part (ticks n s) = move_part s.
Proof.
  induction n as [|n IH]; intros s fx due Hfx Hdue Hlt; [reflexivity|].
  change (ticks (S n) s) with (ticks n (tick s)).
  assert (E : move_part (tick s) = move_part s).
  { rewrite move_part_tick. unfold move_part, move_tick.
    rewrite Hfx, Hdue.
    destruct (due <=? now s + 1) eqn:L; [|reflexivity].
    apply Z.leb_le in L. lia. }
  rewrite <- E. apply (IH (tick s) fx due); auto.
  - unfold move_part in E. injection E as E _ _. congruence.
  - rewrite now_tick. lia.
Qed.

Lemma move_wait_idle n : forall s,
  (forall fx, moveFx s = Some fx -> moveTimeout fx = None) ->
  move_part (ticks n s) = move_part s.
Proof.
  induction n as [|n IH]; intros s Hnone; [reflexivity|].
  change (ticks (S n) s) with (ticks n (tick s)).
  assert (E : move_part (tick s) = move_part s).
  { rewrite move_part_tick. unfold move_part, move_tick.
    destruct (moveFx s) as [fx|]; [|reflexivity].
    rewrite (Hnone fx eq_refl). reflexivity. }
  rewrite <- E. apply IH.
  unfold move_part in E. injection E as E _ _. rewrite E. exact Hnone.
Qed.

(** The timeout runs once, when its time comes, and not again. *)
Lemma move_wait_fire n s fx due :
  moveFx s = Some fx -> moveTimeout fx = Some due ->
  now s < due <= now s + Z.of_nat n ->
  move_part (ticks n s) = move_tick due (move_part s).
Proof.
  intros Hfx Hdue Hrange.
  set (k := Z.to_nat (due - now s - 1)).
  assert (Hn : n = (k + (1 + (n - k - 1)))%nat) by lia.
  rewrite Hn, ticks_add, ticks_add.
  set (s1 := ticks k s).
  assert (E1 : move_part s1 = move_part s).
  { apply (move_wait_pending k s fx due); auto. lia. }
  assert (N1 : now s1 = due - 1).
  { unfold s1. rewrite now_ticks. lia. }
  assert (F1 : moveFx s1 = Some fx).
  { unfold move_part in E1. injection E1 as E1 _ _. congruence. }
  change (ticks 1 s1) with (tick s1).
  rewrite move_wait_idle.
  - rewrite move_part_tick, E1, N1. f_equal. lia.
  - intros fx'.
    pose proof (move_part_tick s1) as E2.
    unfold move_part at 2 in E2. unfold move_tick in E2.
    rewrite F1, Hdue, N1 in E2.
    replace (due <=? due - 1 + 1) with true in E2
      by (symmetry; apply Z.leb_le; lia).
    unfold move_part in E2. injection E2 as E2 _ _. rewrite E2.
    intros E3. inversion E3. reflexivity.
Qed.

Lemma move_part_MouseMove s fx :
  moveFx s = Some fx ->
  move_part (step s MouseMove) =
  (Some {| moveTimeout := Some (now s + 500); moveCount := moveCount fx + 1;
           move_logEvent := move_logEvent fx |},
   mouseMovements (metrics s), reports "mousemove" s)
  /\ now (step s MouseMove) = now s.
Proof.
  intros Hfx. simpl. unfold handleMouseMove, resetIdle, move_part, reports.
  rewrite Hfx. simpl. destruct (idleFx s); simpl; split; reflexivity.
Qed.

(** The rest of a burst keeps the timeout pending and only counts moves. *)
Lemma move_burst_pending gaps : forall s c sid n rs,
  move_part s =
    (Some {| moveTimeout := Some (now s + 500); moveCount := c;
             move_logEvent := sid |}, n, rs) ->
  Forall (fun g => 0 <= g < 500) gaps ->
  let s' := run (flat_map (fun g => [Wait g; MouseMove]) gaps) s in
  move_part s' =
    (Some {| moveTimeout := Some (now s' + 500);
             moveCount := c + Z.of_nat (List.length gaps);
             move_logEvent := sid |}, n, rs).
Proof.
  induction gaps as [|g gaps IH]; intros s c sid n rs Hs Hgaps.
  - simpl. rewrite Z.add_0_r. exact Hs.
  - inversion Hgaps as [|g' gaps' Hg Hmore]; subst.
    cbn [flat_map app run fold_left].
    set (s1 := step s (Wait g)).
    assert (F : moveFx s =
                Some {| moveTimeout := Some (now s + 500); moveCount := c;
                        move_logEvent := sid |}).
    { unfold move_part in Hs. injection Hs as Hs _ _. exact Hs. }
    assert (E1 : move_part s1 = move_part s).
    { unfold s1. simpl.
      eapply move_wait_pending; [exact F | reflexivity | lia]. }
    assert (F1 : moveFx s1 =
                 Some {| moveTimeout := Some (now s + 500); moveCount := c;
                         move_logEvent := sid |}).
    { unfold move_part in E1. injection E1 as E1 _ _. congruence. }
    destruct (move_part_MouseMove s1 _ F1) as [E2 N2].
    set (s2 := step s1 MouseMove) in *.
    fold (run (flat_map (fun g => [Wait g; MouseMove]) gaps) s2).
    pose proof E1 as E1'. rewrite Hs in E1'. unfold move_part in E1'.
    injection E1' as _ HB HC. rewrite HB, HC in E2. simpl in E2.
    assert (E3 : move_part s2 =
      (Some {| moveTimeout := Some (now s2 + 500); moveCount := c + 1;
               move_logEvent := sid |}, n, rs)).
    { rewrite E2. rewrite N2. reflexivity. }
    specialize (IH s2 (c + 1) sid n rs E3 Hmore). simpl in IH.
    rewrite IH.
    replace (c + Z.of_nat (List.length (g :: gaps)))
      with (c + 1 + Z.of_nat (List.length gaps))
      by (cbn [List.length]; lia).
    reflexivity.
Qed.

(** C2 - mouse-move bursts.
    In any state the tracker can reach in which tracking is on under a
    session id [sid], take a sequence of mouse moves - a first one, then
    further ones each less than 500ms after the previous one - followed by
    at least 500ms without a move.  Let [total] be the accumulated move
    count: what the accumulator held before, plus the moves of the
    sequence.  If [total] exceeds 5, the [mouseMovements] counter goes up
    by exactly one and one "mousemove" report with [count = total] is
    sent; otherwise the counter is unchanged and no report is sent.  In
    both cases the accumulator is 0 afterwards. *)
Theorem move_burst_reports_above_five tr sid fx gaps q :
  let s := run tr mount in
  isTracking s = true -> sessionId s = Some sid -> sid <> "" ->
  moveFx s = Some fx ->
  Forall (fun g => 0 <= g < 500) gaps -> 500 <= q ->
  let total := moveCount fx + 1 + Z.of_nat (List.length gaps) in
  let s' := run (move_burst gaps ++ [Wait q]) s in
  mouseMovements (metrics s') =
    mouseMovements (metrics s) + (if total >? 5 then 1 else 0) /\
  reports "mousemove" s' =
    (if total >? 5
     then [PostTrackingEvent (Some sid) "mousemove" (DMove total)]
     else []) ++ reports "mousemove" s /\
  option_map moveCount (moveFx s') = Some 0.
Proof.
  intros s T S Hsid Hfx Hgaps Hq total s'.
  destruct (wf_tracking s (wf_reachable tr) T) as (_ & (fx' & Hfx' & Hcap) & _).
  assert (fx' = fx) by congruence. subst fx'.
  unfold s', move_burst. rewrite run_app.
  change (run (MouseMove :: ?l) s) with (run l (step s MouseMove)).
  destruct (move_part_MouseMove s fx Hfx) as [E1 N1].
  set (s1 := step s MouseMove) in *.
  rewrite <- N1, Hcap, S in E1.
  pose proof (move_burst_pending gaps s1 _ _ _ _ E1 Hgaps) as E2.
  simpl in E2.
  set (s2 := run (flat_map (fun g => [Wait g; MouseMove]) gaps) s1) in *.
  fold total in E2.
  assert (F2 : moveFx s2 =
               Some {| moveTimeout := Some (now s2 + 500); moveCount := total;
                       move_logEvent := Some sid |}).
  { unfold move_part in E2. injection E2 as E2 _ _. exact E2. }
  assert (E3 : move_part (step s2 (Wait q)) =
               move_tick (now s2 + 500) (move_part s2)).
  { simpl. eapply move_wait_fire; [exact F2 | reflexivity | lia]. }
  rewrite E2 in E3. unfold move_tick in E3. cbn [moveTimeout] in E3.
  rewrite Z.leb_refl in E3. cbn [move_logEvent moveCount] in E3.
  rewrite (truthy_Some sid Hsid), andb_true_r in E3.
  unfold move_part in E3. injection E3 as E4 E5 E6.
  change (run [Wait q] s2) with (ticks (Z.to_nat q) s2).
  change (step s2 (Wait q)) with (ticks (Z.to_nat q) s2) in E4, E5, E6.
  rewrite E4, E5, E6. destruct (total >? 5); simpl; auto with zarith.
Qed.

Lemma move_burst_reports_above_five_witness :
  let s := run [Response 0 (Started "abc")] mount in
  let s' := run (move_burst [10; 20; 30; 499; 0] ++ [Wait 500]) s in
  mouseMovements (metrics s') = mouseMovements (metrics s) + 1 /\
  reports "mousemove" s' =
    [PostTrackingEvent (Some "abc") "mousemove" (DMove 6)]
      ++ reports "mousemove" s /\
  option_map moveCount (moveFx s') = Some 0.
Proof.
  apply (move_burst_reports_above_five [Response 0 (Started "abc")] "abc"
           {| moveTimeout := None; moveCount := 0;
              move_logEvent := Some "abc" |}
           [10; 20; 30; 499; 0] 500).
  - reflexivity.
  - reflexivity.
  - discriminate.
  - reflexivity.
  - repeat constructor; lia.
  - lia.
Defined.

(** Five moves are not enough: nothing is counted or sent. *)
Example five_moves_not_reported :
  let s := run [Response 0 (Started "abc")] mount in
  let s' := run (move_burst [10; 20; 30; 40] ++ [Wait 500]) s in
  metrics s' = metrics s /\ sent s' = sent s.
Proof. vm_compute. split; reflexivity. Qed.

(** *** The idle interval *)

Lemma idle_part_fire_activeTime s : idle_part (fire_activeTime s) = idle_part s.
Proof. unfold idle_part, reports. frame_tac. Qed.

Lemma idle_part_fire_scroll s : idle_part (fire_scroll s) = idle_part s.
Proof. unfold idle_part, reports. frame_tac. Qed.

Lemma idle_part_fire_mouseMove s : idle_part (fire_mouseMove s) = idle_part s.
Proof. unfold idle_part, reports. frame_tac. Qed.

Lemma idle_part_fire_idle s :
  idle_part (fire_idle s) = idle_tick (now s) (idle_part s).
Proof.
  unfold idle_part, reports, idle_tick, fire_idle, checkIdle, resetIdle, logEvent.
  destruct (idleFx s) as [fx|] eqn:E; simpl; rewrite ?E; auto.
  destruct (idleTimer fx <=? now s); simpl; rewrite ?E; auto.
  destruct (now s - idleStartTime fx >? 5000); simpl; auto.
  destruct (truthy (idle_logEvent fx)); reflexivity.
Qed.

Lemma idle_part_fire_analysis s : idle_part (fire_analysis s) = idle_part s.
Proof. unfold idle_part, reports. frame_tac. Qed.

Lemma idle_part_fire_alerts s : idle_part (fire_alerts s) = idle_part s.
Proof. unfold idle_part, reports. frame_tac. Qed.

Lemma idle_part_tick s :
  idle_part (tick s) = idle_tick (now s + 1) (idle_part s).
Proof.
  unfold tick.
  rewrite idle_part_fire_alerts, idle_part_fire_analysis, idle_part_fire_idle,
    now_fire_mouseMove, now_fire_scroll, now_fire_activeTime,
    idle_part_fire_mouseMove, idle_part_fire_scroll, idle_part_fire_activeTime.
  reflexivity.
Qed.

(** C3 - idle sampling.
    Take a state the tracker can reach, tracking under session id [sid],
    whose 5-second idle interval comes due with the next millisecond, and
    let [gap] be the time from the reference time [idleStartTime] to that
    instant.  If [gap] exceeds 5000ms, the tick adds exactly 5 to
    [idleTime], sends one "idle" report with [duration = 5], and resets the
    reference time to the instant of the tick; otherwise it leaves the
    counter alone, sends no idle report and keeps the reference time.  The
    reference time is also what a mouse move or a key press resets. *)
Theorem idle_tick_adds_five tr sid fx :
  let s := run tr mount in
  sessionId s = Some sid -> sid <> "" ->
  idleFx s = Some fx -> idleTimer fx = now s + 1 ->
  let gap := now s + 1 - idleStartTime fx in
  let s' := tick s in
  (if gap >? 5000
   then idleTime (metrics s') = idleTime (metrics s) + 5 /\
        reports "idle" s' =
          PostTrackingEvent (Some sid) "idle" (DIdle 5) :: reports "idle" s /\
        option_map idleStartTime (idleFx s') = Some (now s')
   else idleTime (metrics s') = idleTime (metrics s) /\
        reports "idle" s' = reports "idle" s /\
        option_map idleStartTime (idleFx s') = Some (idleStartTime fx)) /\
  option_map idleStartTime (idleFx (step s MouseMove)) = Some (now s) /\
  option_map idleStartTime (idleFx (step s KeyPress)) = Some (now s).
Proof.
  intros s S Hsid Hfx Hdue gap s'.
  destruct (wf_captured s (wf_reachable tr)) as (_ & _ & _ & Hcap & _).
  specialize (Hcap fx Hfx). rewrite S in Hcap.
  pose proof (idle_part_tick s) as E.
  unfold idle_part at 2 in E. unfold idle_tick in E.
  rewrite Hfx, Hdue, Z.leb_refl, Hcap, (truthy_Some sid Hsid) in E.
  fold gap in E. fold s' in E.
  assert (N : now s' = now s + 1) by apply now_tick.
  split; [|split].
  - destruct (gap >? 5000); unfold idle_part in E; injection E as E1 E2 E3;
      rewrite E1, E2, E3, ?N; auto.
  - simpl. unfold resetIdle, handleMouseMove.
    destruct (moveFx s); simpl; rewrite Hfx; reflexivity.
  - simpl. unfold resetIdle. rewrite Hfx. reflexivity.
Qed.

Lemma idle_tick_adds_five_witness :
  let s := run [Response 0 (Started "abc"); Wait 9999] mount in
  (idleTime (metrics (tick s)) = idleTime (metrics s) + 5 /\
   reports "idle" (tick s) =
     PostTrackingEvent (Some "abc") "idle" (DIdle 5) :: reports "idle" s /\
   option_map idleStartTime (idleFx (tick s)) = Some (now (tick s))) /\
  option_map idleStartTime (idleFx (step s MouseMove)) = Some (now s) /\
  option_map idleStartTime (idleFx (step s KeyPress)) = Some (now s).
Proof.
  apply (idle_tick_adds_five [Response 0 (Started "abc"); Wait 9999] "abc"
           {| idleTimer := 10000; idleStartTime := 0;
              idle_logEvent := Some "abc" |}).
  - reflexivity.
  - discriminate.
  - vm_compute. reflexivity.
  - vm_compute. reflexivity.
Defined.

(** With exact timers the first sampling tick sees a gap of exactly 5000ms,
    which does not exceed 5 seconds: nothing is counted. *)
Example first_idle_tick_counts_nothing :
  let s := run [Response 0 (Started "abc"); Wait 5000] mount in
  idleTime (metrics s) = 0 /\ reports "idle" s = [].
Proof. vm_compute. split; reflexivity. Qed.

(** ** Start and stop *)

Lemma alertTimers_idle_step s e :
  inactive s -> inflight s = [] -> alertTimers s = [] -> e <> PressStart ->
  alertTimers (step s e) = [].
Proof.
  intros H I A Q. destruct e; simpl; try congruence.
  - revert s H I A. induction (Z.to_nat ms) as [|n IH]; intros s H I A; auto.
    simpl. destruct (inactive_tick_console s H) as (H1 & E1 & _).
    assert (A1 : alertTimers (tick s) = []).
    { unfold tick. rewrite inactive_timers by inactive_tac.
      unfold fire_alerts. simpl. rewrite A. exact A. }
    apply IH; auto.
    unfold trace_of in E1. injection E1 as _ _ E1 _. congruence.
  - unfold handleScroll. simpl. destruct H as (_ & _ & -> & _). exact A.
  - unfold handleClick. destruct H as (_ & _ & _ & -> & _). exact A.
  - unfold resetIdle, handleMouseMove.
    destruct H as (_ & _ & _ & _ & -> & -> & _). exact A.
  - unfold resetIdle. destruct H as (_ & _ & _ & _ & _ & -> & _). exact A.
  - unfold handleVisibilityChange. simpl.
    destruct H as (_ & _ & _ & _ & _ & _ & -> & _). exact A.
  - destruct H as (-> & _). exact A.
  - rewrite I. destruct i; exact A.
Qed.

Lemma alertTimers_idle_run tr : forall s,
  inactive s -> inflight s = [] -> alertTimers s = [] ->
  Forall (fun e => e <> PressStart) tr ->
  alertTimers (run tr s) = [].
Proof.
  induction tr as [|e tr IH]; intros s H I A Q; simpl; auto.
  inversion Q as [|e' tr' Qe Qtr]; subst.
  destruct (idle_step s e H I Qe) as (H1 & E1 & _).
  apply IH; auto.
  - unfold trace_of in E1. injection E1 as _ _ E1 _. congruence.
  - apply alertTimers_idle_step; auto.
Qed.

(** C4 - a failed start.
    The component mounts and its session-start request fails.  Then,
    whatever happens afterwards short of pressing "Start Tracking" - time
    passing, scrolls, clicks, mouse moves, key presses, visibility
    changes - tracking is off, the session id is null, no effect has a
    timer or listener installed and no alert timer is pending, the counters
    are those of the first render, and the session-start request is the
    only request ever sent: nothing is retried.  The failure itself leaves
    one diagnostic on the console. *)
Theorem failed_start_keeps_tracker_off tr :
  Forall (fun e => e <> PressStart) tr ->
  let s := run (Response 0 Failed :: tr) mount in
  isTracking s = false /\ sessionId s = None /\
  inactive s /\ alertTimers s = [] /\
  metrics s = initial_metrics /\
  sent s = [PostSessionStart] /\ inflight s = [] /\
  console s = ["Error starting session:"].
Proof.
  intros Q s.
  set (s0 := step mount (Response 0 Failed)).
  assert (H0 : inactive s0) by (unfold inactive; repeat split; reflexivity).
  destruct (idle_run tr s0 H0 eq_refl Q) as (H1 & E1 & C1).
  pose proof (alertTimers_idle_run tr s0 H0 eq_refl eq_refl Q) as A1.
  change (run (Response 0 Failed :: tr) mount) with (run tr s0) in s.
  fold s in H1, E1, C1, A1.
  unfold trace_of in E1. injection E1 as E1 E2 E3 E4.
  repeat split; try apply H1; auto.
Qed.

Lemma failed_start_keeps_tracker_off_witness :
  let s := run [Response 0 Failed; Scroll 40; Click 1 2; MouseMove; Wait 20000;
                KeyPress; VisibilityChange true] mount in
  isTracking s = false /\ sessionId s = None /\
  inactive s /\ alertTimers s = [] /\
  metrics s = initial_metrics /\
  sent s = [PostSessionStart] /\ inflight s = [] /\
  console s = ["Error starting session:"].
Proof.
  apply (failed_start_keeps_tracker_off
           [Scroll 40; Click 1 2; MouseMove; Wait 20000; KeyPress;
            VisibilityChange true]).
  repeat constructor; discriminate.
Defined.

(** C6, as stated, fails on a late session-start response.
    The user presses "Start Tracking" while the request of the mount is
    still in flight; the first response starts session "a"; the user stops
    it and the delete completes: tracking is off, nothing is installed.
    Then the second response arrives and switches tracking on again: a
    second later the active-time counter has moved, and a click is counted
    and reported. *)
Lemma late_start_undoes_stop :
  let stopped := run [PressStart; Response 0 (Started "a"); PressStop;
                      Response 1 Done] mount in
  let later := run [Response 0 (Started "b"); Wait 1000; Click 7 9] stopped in
  isTracking stopped = false /\ inactive stopped /\
  isTracking later = true /\
  activeTime (metrics later) = activeTime (metrics stopped) + 1 /\
  clicks (metrics later) = clicks (metrics stopped) + 1 /\
  sent later = PostTrackingEvent (Some "b") "click" (DClick 7 9) :: sent stopped.
Proof. vm_compute. repeat split; reflexivity. Qed.

(** C6 - stopping, as the code has it.
    When the session-delete request of [stopTracking] settles, with
    success or with failure, tracking is off and every timer and listener
    of the tracker is gone (active-time tick, scroll and mouse-move
    timeouts, idle check, analysis poll); the session id and the counters
    are kept.  From then on no counter changes and no request is sent,
    whatever happens - time passing, DOM events, late responses to event
    reports, analysis polls or deletes - until "Start Tracking" is pressed
    or a session-start request that was still in flight succeeds. *)
Theorem stop_is_final_until_restart tr i r tr' :
  let s := run tr mount in
  nth_error (inflight s) i = Some PDelete ->
  r = Done \/ r = Failed ->
  Forall no_restart tr' ->
  let s1 := step s (Response i r) in
  let s2 := run tr' s1 in
  inactive s1 /\ sessionId s1 = sessionId s /\ metrics s1 = metrics s /\
  inactive s2 /\ metrics s2 = metrics s1 /\ sent s2 = sent s1.
Proof.
  intros s Hi Hr Q s1 s2.
  assert (W : wf s) by apply wf_reachable.
  assert (H1 : inactive s1 /\ sessionId s1 = sessionId s
               /\ metrics s1 = metrics s).
  { unfold s1. simpl. rewrite Hi.
    destruct Hr as [-> | ->]; simpl; unfold stopTracking_settled.
    - split; [apply inactive_setIsTracking_false, wf_with_inflight, W|].
      rewrite metrics_setIsTracking. unfold setIsTracking.
      destruct (Bool.eqb _ _); split; reflexivity.
    - split.
      + apply inactive_setIsTracking_false.
        revert W. apply wf_of_shape. reflexivity.
      + rewrite metrics_setIsTracking. unfold setIsTracking.
        destruct (Bool.eqb _ _); split; reflexivity. }
  destruct H1 as (H1 & S1 & M1).
  destruct (inactive_run tr' s1 H1 Q) as (H2 & M2 & N2 & _).
  repeat split; try apply H1; try apply H2; auto.
Qed.

Lemma stop_is_final_until_restart_witness :
  let s := run [Response 0 (Started "a"); Click 1 1; Wait 10000; PressStop]
             mount in
  let s1 := step s (Response 3 Failed) in
  let s2 := run [Response 2 (Analysed {| is_drifting := true;
                                         confidence := 1; drift_score := 80;
                                         recommendation := "rest";
                                         factors := [] |});
                 Wait 30000; Click 2 2; Scroll 5; MouseMove;
                 Response 0 Failed] s1 in
  inactive s1 /\ sessionId s1 = sessionId s /\ metrics s1 = metrics s /\
  inactive s2 /\ metrics s2 = metrics s1 /\ sent s2 = sent s1.
Proof.
  apply (stop_is_final_until_restart
           [Response 0 (Started "a"); Click 1 1; Wait 10000; PressStop] 3 Failed).
  - vm_compute. reflexivity.
  - right. reflexivity.
  - repeat constructor.
Defined.

(** ** The alert guard never sees [showAlert = true] *)

Lemma alert_inv_of_view slack s s' :
  alert_view s' = alert_view s -> alert_inv slack s -> alert_inv slack s'.
Proof. unfold alert_inv. intros ->. auto. Qed.

Ltac view_tac :=
  unfold fire_activeTime, fire_scroll, fire_mouseMove, fire_idle,
    scroll_timeout, move_timeout, checkIdle, resetIdle, handleScroll,
    handleClick, handleMouseMove, handleVisibilityChange, logEvent, axios,
    setMetrics, console_error;
  break_goal; unfold alert_view, polls; simpl;
  rewrite ?filter_app; simpl; rewrite ?app_nil_r; try reflexivity.

Lemma alert_view_fire_activeTime s :
  alert_view (fire_activeTime s) = alert_view s.
Proof. view_tac. Qed.

Lemma alert_view_fire_scroll s : alert_view (fire_scroll s) = alert_view s.
Proof. view_tac. Qed.

Lemma alert_view_fire_mouseMove s :
  alert_view (fire_mouseMove s) = alert_view s.
Proof. view_tac. Qed.

Lemma alert_view_fire_idle s : alert_view (fire_idle s) = alert_view s.
Proof. view_tac. Qed.

Lemma alert_view_handleScroll s : alert_view (handleScroll s) = alert_view s.
Proof. view_tac. Qed.

Lemma alert_view_handleClick x y s :
  alert_view (handleClick x y s) = alert_view s.
Proof. view_tac. Qed.

Lemma alert_view_handleMouseMove s :
  alert_view (handleMouseMove s) = alert_view s.
Proof. view_tac. Qed.

Lemma alert_view_resetIdle s : alert_view (resetIdle s) = alert_view s.
Proof. view_tac. Qed.

Lemma alert_view_handleVisibilityChange s :
  alert_view (handleVisibilityChange s) = alert_view s.
Proof. view_tac. Qed.

Lemma alert_inv_bump s :
  alert_inv 0 s -> alert_inv 1 (with_now (now s + 1) s).
Proof.
  unfold alert_inv, alert_view, view_ok. simpl.
  intros (I1 & I2 & I3 & I4). repeat split; auto.
  - apply I1 in H. lia.
  - apply I1 in H. lia.
Qed.

Lemma wf_poll_showAlert s fx :
  wf s -> analysisFx s = Some fx -> poll_showAlert fx = showAlert s.
Proof.
  unfold wf, shape, rendered. intros H E.
  injection H as _ _ _ _ _ _ H. rewrite E in H. simpl in H.
  destruct (isTracking s && truthy (sessionId s)); congruence.
Qed.

(** A poll is only ever issued by a closure that holds [showAlert = false]:
    one that holds [true] is not due before the alert is dismissed. *)
Lemma alert_inv_fire_analysis s :
  alert_inv 1 s -> alert_inv 1 (fire_analysis s).
Proof.
  unfold fire_analysis. intros H.
  destruct (analysisFx s) as [fx|] eqn:E; auto.
  destruct (analysisTimer fx <=? now s) eqn:L; auto.
  apply Z.leb_le in L.
  destruct H as (I1 & I2 & I3 & I4). simpl in I1, I2, I3, I4.
  assert (A : poll_showAlert fx = false).
  { destruct (poll_showAlert fx) eqn:A; auto.
    rewrite E in I3. destruct (I3 fx eq_refl A) as (d & Hd & Hle).
    apply I1 in Hd. lia. }
  rewrite A. unfold getDriftAnalysis, axios.
  destruct (negb (truthy (poll_sessionId fx)));
    unfold alert_inv, alert_view, view_ok, polls; simpl;
    (split; [exact I1|]); (split; [exact I2|]); split.
  - intros f Hf Ht. inversion Hf; subst. simpl in Ht. discriminate.
  - exact I4.
  - intros f Hf Ht. inversion Hf; subst. simpl in Ht. discriminate.
  - intros b Hb. rewrite filter_app in Hb. apply in_app_or in Hb.
    destruct Hb as [Hb | Hb]; [apply I4, Hb|].
    simpl in Hb. destruct Hb as [Hb | []]. congruence.
Qed.

Lemma alert_inv_fire_alerts s :
  wf s -> alert_inv 1 s -> alert_inv 0 (fire_alerts s).
Proof.
  intros W (I1 & I2 & I3 & I4). simpl in I1, I2, I3, I4.
  unfold fire_alerts.
  destruct (existsb (is_due (now s)) (alertTimers s)) eqn:X.
  - unfold setShowAlert. simpl.
    assert (K : forall d,
      In d (filter (fun due => negb (is_due (now s) due)) (alertTimers s)) ->
      now s - 0 < d <= now s - 0 + 5000).
    { intros d Hd. apply filter_In in Hd. destruct Hd as [Hd Hn].
      apply I1 in Hd. unfold is_due in Hn.
      destruct (d <=? now s) eqn:L; [discriminate|].
      apply Z.leb_gt in L. lia. }
    destruct (showAlert s) eqn:A; simpl.
    + unfold alert_inv, alert_view, view_ok, polls, effect_analysis. simpl.
      repeat split; try (apply K; assumption); try discriminate; auto.
      intros f Hf Ht.
      destruct (isTracking s && truthy (sessionId s)); [|discriminate].
      inversion Hf; subst. simpl in Ht. discriminate.
    + unfold alert_inv, alert_view, view_ok, polls. simpl. rewrite A.
      repeat split; try (apply K; assumption); try discriminate; auto.
      intros f Hf Ht. rewrite (wf_poll_showAlert s f W Hf) in Ht. congruence.
  - unfold alert_inv, alert_view, view_ok. repeat split; auto.
    + assert (N : is_due (now s) d = false).
      { destruct (is_due (now s) d) eqn:D; auto.
        assert (existsb (is_due (now s)) (alertTimers s) = true)
          by (apply existsb_exists; exists d; auto).
        congruence. }
      unfold is_due in N. apply Z.leb_gt in N. lia.
    + apply I1 in H. lia.
Qed.

Lemma alert_inv_tick s : wf s -> alert_inv 0 s -> alert_inv 0 (tick s).
Proof.
  intros W H. rewrite tick_timers.
  apply alert_inv_fire_alerts.
  - revert W. apply wf_of_shape. rewrite shape_timers. reflexivity.
  - unfold timers. apply alert_inv_fire_analysis.
    eapply alert_inv_of_view; [|apply alert_inv_bump, H].
    rewrite alert_view_fire_idle, alert_view_fire_mouseMove,
      alert_view_fire_scroll, alert_view_fire_activeTime. reflexivity.
Qed.

Lemma alert_inv_ticks n : forall s,
  wf s -> alert_inv 0 s -> alert_inv 0 (ticks n s).
Proof.
  induction n as [|n IH]; intros s W H; simpl; auto.
  apply IH; [apply wf_tick, W | apply alert_inv_tick; auto].
Qed.

(** Re-running the poll effect keeps the invariant: if the alert shows, a
    dismissal is pending and due within 5 seconds, the new interval in 10. *)
Lemma alert_inv_effect_analysis s :
  (forall d, In d (alertTimers s) -> now s < d <= now s + 5000) ->
  (showAlert s = true -> alertTimers s <> []) ->
  (forall b, In (PAnalysis b) (polls s) -> b = false) ->
  alert_inv 0 (effect_analysis s).
Proof.
  intros I1 I2 I4.
  unfold alert_inv, alert_view, view_ok, polls, effect_analysis. simpl.
  repeat split; auto; try (apply I1 in H; lia).
  intros f Hf Ht.
  destruct (isTracking s && truthy (sessionId s)); [|discriminate].
  inversion Hf; subst. simpl in *.
  destruct (alertTimers s) as [|d ts]; [exfalso; apply (I2 Ht); auto|].
  exists d. split; [left; reflexivity|].
  specialize (I1 d (or_introl eq_refl)). lia.
Qed.

Lemma alert_inv_parts s :
  alert_inv 0 s ->
  (forall d, In d (alertTimers s) -> now s < d <= now s + 5000) /\
  (showAlert s = true -> alertTimers s <> []) /\
  (forall b, In (PAnalysis b) (polls s) -> b = false).
Proof.
  intros (I1 & I2 & _ & I4). simpl in *. repeat split; auto.
  - apply I1 in H. lia.
  - apply I1 in H. lia.
Qed.

Lemma alert_inv_setSessionId v s : alert_inv 0 s -> alert_inv 0 (setSessionId v s).
Proof.
  intros H. unfold setSessionId. destruct (SessionId_eqb _ _); auto.
  destruct (alert_inv_parts s H) as (I1 & I2 & I4).
  apply alert_inv_effect_analysis; auto.
Qed.

Lemma alert_inv_setIsTracking b s : alert_inv 0 s -> alert_inv 0 (setIsTracking b s).
Proof.
  intros H. unfold setIsTracking. destruct (Bool.eqb _ _); auto.
  destruct (alert_inv_parts s H) as (I1 & I2 & I4).
  apply alert_inv_effect_analysis; auto.
Qed.

Lemma In_remove_nth {A} (x : A) i : forall l, In x (remove_nth i l) -> In x l.
Proof.
  induction i as [|i IH]; intros [|a l]; simpl; auto.
  intros [H | H]; auto.
Qed.

Lemma alert_inv_response i s :
  alert_inv 0 s -> alert_inv 0 (with_inflight (remove_nth i (inflight s)) s).
Proof.
  intros (I1 & I2 & I3 & I4). simpl in *.
  unfold alert_inv, alert_view, view_ok, polls. simpl.
  repeat split; auto; try (apply I1 in H; lia).
  intros b Hb. apply I4. apply filter_In in Hb. apply filter_In.
  destruct Hb as [Hb Hp]. split; auto. eapply In_remove_nth, Hb.
Qed.

Lemma alert_inv_getDriftAnalysis_resolved data s :
  wf s -> alert_inv 0 s -> alert_inv 0 (getDriftAnalysis_resolved false data s).
Proof.
  intros W H. unfold getDriftAnalysis_resolved, setDriftAnalysis.
  destruct (is_drifting data); simpl; auto.
  destruct H as (I1 & I2 & I3 & I4). simpl in I1, I2, I3, I4.
  unfold setShowAlert. simpl.
  destruct (showAlert s) eqn:A; simpl.
  - unfold alert_inv, alert_view, view_ok, polls. simpl. rewrite A.
    repeat split; auto.
    + apply in_app_or in H. destruct H as [H | [H | []]];
        [apply I1 in H|]; lia.
    + apply in_app_or in H. destruct H as [H | [H | []]];
        [apply I1 in H|]; lia.
    + intros _ E. apply app_eq_nil in E. destruct E. discriminate.
    + intros f Hf Ht. destruct (I3 f Hf Ht) as (d & Hd & Hle).
      exists d. split; auto. apply in_or_app. auto.
  - unfold alert_inv, alert_view, view_ok, polls, effect_analysis. simpl.
    repeat split; auto.
    + apply in_app_or in H. destruct H as [H | [H | []]];
        [apply I1 in H|]; lia.
    + apply in_app_or in H. destruct H as [H | [H | []]];
        [apply I1 in H|]; lia.
    + intros _ E. apply app_eq_nil in E. destruct E. discriminate.
    + intros f Hf Ht.
      destruct (isTracking s && truthy (sessionId s)); [|discriminate].
      inversion Hf; subst. simpl.
      exists (now s + 5000). split; [|lia].
      apply in_or_app. right. left. reflexivity.
Qed.

Lemma alert_inv_step s e : wf s -> alert_inv 0 s -> alert_inv 0 (step s e).
Proof.
  intros W H. destruct e; simpl.
  - apply alert_inv_ticks; auto.
  - eapply alert_inv_of_view; [|exact H].
    rewrite alert_view_handleScroll. reflexivity.
  - eapply alert_inv_of_view; [|exact H]. apply alert_view_handleClick.
  - eapply alert_inv_of_view; [|exact H].
    rewrite alert_view_resetIdle. apply alert_view_handleMouseMove.
  - eapply alert_inv_of_view; [|exact H]. apply alert_view_resetIdle.
  - eapply alert_inv_of_view; [|exact H].
    rewrite alert_view_handleVisibilityChange. reflexivity.
  - destruct (isTracking s); auto.
    eapply alert_inv_of_view; [|exact H].
    unfold startSession, axios, alert_view, polls. simpl.
    rewrite filter_app. simpl. rewrite app_nil_r. reflexivity.
  - destruct (isTracking s); auto. unfold stopTracking.
    destruct (truthy (sessionId s)).
    + eapply alert_inv_of_view; [|exact H].
      unfold axios, alert_view, polls. simpl.
      rewrite filter_app. simpl. rewrite app_nil_r. reflexivity.
    + apply alert_inv_setIsTracking, H.
  - destruct (nth_error (inflight s) i) as [k|] eqn:Hk; auto.
    pose proof (alert_inv_response i s H) as H0.
    assert (W0 : wf (with_inflight (remove_nth i (inflight s)) s))
      by (apply wf_with_inflight, W).
    destruct k as [| |alert|], r; simpl; auto.
    + unfold startSession_resolved.
      apply alert_inv_setIsTracking, alert_inv_setSessionId, H0.
    + assert (alert = false).
      { destruct H as (_ & _ & _ & I4). simpl in I4. apply I4.
        apply filter_In. split; [|reflexivity].
        eapply nth_error_In, Hk. }
      subst alert. apply alert_inv_getDriftAnalysis_resolved; auto.
    + unfold stopTracking_settled.
      apply alert_inv_setIsTracking. exact H0.
    + unfold stopTracking_settled. apply alert_inv_setIsTracking.
      eapply alert_inv_of_view; [|exact H0]. reflexivity.
Qed.

Lemma alert_inv_reachable tr : alert_inv 0 (run tr mount).
Proof.
  assert (G : forall tr s, wf s -> alert_inv 0 s -> alert_inv 0 (run tr s)).
  { induction tr0 as [|e tr0 IH]; intros s W H; simpl; auto.
    apply IH; [apply wf_step, W | apply alert_inv_step; auto]. }
  apply G; [apply wf_mount|].
  unfold alert_inv, alert_view, view_ok. simpl.
  repeat split; try contradiction; try discriminate.
Qed.

(** X7 - the alert guard is dead code.
    In every state the tracker can reach, every analysis request in flight
    carries [showAlert = false]: raising the alert restarts the 10-second
    poll interval, and the alert is dismissed 5 seconds later.  So whenever
    a drifting result arrives, alert showing or not, the alert branch runs
    and schedules a dismissal. *)
Lemma drifting_result_always_schedules_dismissal tr i b data :
  let s := run tr mount in
  nth_error (inflight s) i = Some (PAnalysis b) ->
  is_drifting data = true ->
  b = false /\
  showAlert (step s (Response i (Analysed data))) = true /\
  alertTimers (step s (Response i (Analysed data)))
    = alertTimers s ++ [now s + 5000].
Proof.
  intros s Hk Hd.
  assert (B : b = false).
  { destruct (alert_inv_reachable tr) as (_ & _ & _ & I4). simpl in I4.
    apply I4. apply filter_In. split; [|reflexivity].
    eapply nth_error_In, Hk. }
  subst b. split; [reflexivity|].
  simpl. fold s. rewrite Hk. simpl.
  unfold getDriftAnalysis_resolved. rewrite Hd. simpl.
  unfold setShowAlert. simpl.
  destruct (showAlert s) eqn:A; simpl; rewrite ?A; auto.
Qed.

(** ** The drift alert *)

(** C5 - the alert guard reads a stale [showAlert].
    The first drifting result raises the alert at 30000ms and schedules its
    dismissal for 35000ms.  The second drifting result arrives at 33000ms,
    while the alert is showing; its continuation still holds
    [showAlert = false], takes the alert branch again and schedules a
    second dismissal for 38000ms.  The alert is dismissed at 35000ms.  The
    third drifting result arrives at 36000ms, with no alert showing, and
    raises the alert; the second dismissal clears it at 38000ms, after 2
    seconds instead of 5. *)
Theorem stale_guard_schedules_second_dismissal :
  let s0 := three_polls_in_flight in
  let s1 := run [Response 0 (Analysed drifting)] s0 in
  let s2 := run [Wait 3000; Response 0 (Analysed drifting)] s1 in
  let s3 := run [Wait 2000] s2 in
  let s4 := run [Wait 1000; Response 0 (Analysed drifting)] s3 in
  let s5 := run [Wait 1999] s4 in
  let s6 := run [Wait 1] s5 in
  (inflight s0 = [PAnalysis false; PAnalysis false; PAnalysis false]
   /\ showAlert s0 = false) /\
  (now s1 = 30000 /\ alert_visible s1 = true /\ alertTimers s1 = [35000]) /\
  (now s2 = 33000 /\ alert_visible s2 = true
   /\ alertTimers s2 = [35000; 38000]) /\
  (now s3 = 35000 /\ alert_visible s3 = false /\ alertTimers s3 = [38000]) /\
  (now s4 = 36000 /\ alert_visible s4 = true
   /\ alertTimers s4 = [38000; 41000]) /\
  (now s5 = 37999 /\ alert_visible s5 = true) /\
  (now s6 = 38000 /\ alert_visible s6 = false).
Proof. vm_compute. repeat split; reflexivity. Qed.

(** ** The claims about every run *)

(** C7 - counters only grow.
    Each updater handed to [setMetrics] raises exactly one of the five
    counters by a positive amount and leaves the other counters and
    [tabCount] as they are; whatever event is handled in whatever state,
    the metrics afterwards are the metrics before with finitely many of
    these updaters applied; hence no counter ever decreases. *)
Theorem counters_only_grow :
  Forall (fun f => forall m, one_field_grows m (f m)) updaters /\
  (forall s e, updated (metrics s) (metrics (step s e))) /\
  (forall s e, metrics_le (metrics s) (metrics (step s e))) /\
  (forall tr s, metrics_le (metrics s) (metrics (run tr s))).
Proof.
  split; [exact updaters_one_field|].
  split; [exact updated_step_event|].
  split.
  - intros s e. apply updated_le, updated_step_event.
  - intros tr s. apply updated_le, updated_run.
Qed.

(** C8 - what a tracking-event report carries.
    In every state the tracker can reach and for every event handled
    there, the requests sent while handling it are added to the log, and
    each tracking-event report among them has as [session_id] the session
    id of that state - a non-empty string, and still the session id after
    the event - and as [event_type] one of scroll, click, mousemove, idle,
    visibility. *)
Theorem reports_carry_session_and_known_type tr e :
  let s := run tr mount in
  exists new,
    sent (step s e) = new ++ sent s /\
    Forall (report_ok (sessionId s)) new /\
    (new = [] \/ sessionId (step s e) = sessionId s).
Proof.
  intros s.
  destruct (emits_step s e (wf_reachable tr)) as ((new & E & F) & K).
  exists new. repeat split; auto.
  destruct K as [K | K]; [left | right; exact K].
  rewrite K in E. destruct new as [|r new]; [reflexivity|].
  exfalso. apply (f_equal (@List.length Request)) in E.
  rewrite length_app in E. simpl in E. lia.
Qed.

(** C10 - [tabCount].
    In every state the tracker can reach, [tabCount] is 1. *)
Theorem tabCount_is_always_one tr : tabCount (metrics (run tr mount)) = 1.
Proof.
  rewrite (updated_tabCount _ _ (updated_run tr mount)). reflexivity.
Qed.

(** ** Failures *)

(** C9 - failures are swallowed.
    When a request in flight fails: for an event report and for an
    analysis fetch, nothing observable changes - session, tracking flag,
    counters, [driftAnalysis], [showAlert], timers and the log of requests
    sent are as before (nothing is retried) - one diagnostic is written to
    the console, and the request is no longer in flight; for a session
    delete, one diagnostic is written and the tracker ends in the state it
    ends in when the delete succeeds, tracking off. *)
Theorem failures_are_swallowed s i k :
  nth_error (inflight s) i = Some k ->
  let failed := step s (Response i Failed) in
  match k with
  | PEvent =>
      observable failed = observable s /\
      console failed = "Error logging event:" :: console s /\
      inflight failed = remove_nth i (inflight s)
  | PAnalysis _ =>
      observable failed = observable s /\
      console failed = "Error getting drift analysis:" :: console s /\
      inflight failed = remove_nth i (inflight s)
  | PDelete =>
      observable failed = observable (step s (Response i Done)) /\
      console failed = "Error ending session:" :: console s /\
      inflight failed = remove_nth i (inflight s) /\
      isTracking failed = false
  | PStart =>
      observable failed = observable s /\
      console failed = "Error starting session:" :: console s /\
      inflight failed = remove_nth i (inflight s)
  end.
Proof.
  intros Hk failed. unfold failed. simpl. rewrite Hk.
  destruct k as [| |alert|]; simpl; try (repeat split; reflexivity).
  unfold stopTracking_settled, setIsTracking. simpl.
  destruct (isTracking s) eqn:T; simpl; rewrite ?T; repeat split; reflexivity.
Qed.

Lemma failures_are_swallowed_witness :
  let s := run [Response 0 (Started "abc"); Click 1 2; Wait 10000; PressStop]
             mount in
  (observable (step s (Response 0 Failed)) = observable s /\
   console (step s (Response 0 Failed)) = "Error logging event:" :: console s /\
   inflight (step s (Response 0 Failed)) = remove_nth 0 (inflight s)) /\
  (observable (step s (Response 2 Failed)) = observable s /\
   console (step s (Response 2 Failed))
     = "Error getting drift analysis:" :: console s /\
   inflight (step s (Response 2 Failed)) = remove_nth 2 (inflight s)) /\
  (observable (step s (Response 3 Failed))
     = observable (step s (Response 3 Done)) /\
   console (step s (Response 3 Failed)) = "Error ending session:" :: console s /\
   inflight (step s (Response 3 Failed)) = remove_nth 3 (inflight s) /\
   isTracking (step s (Response 3 Failed)) = false).
Proof.
  pose (s := run [Response 0 (Started "abc"); Click 1 2; Wait 10000; PressStop]
               mount).
  split; [|split].
  - apply (failures_are_swallowed s 0 PEvent). vm_compute. reflexivity.
  - apply (failures_are_swallowed s 2 (PAnalysis false)). vm_compute. reflexivity.
  - apply (failures_are_swallowed s 3 PDelete). vm_compute. reflexivity.
Defined.

(** * Further properties *)

(** ** Active time *)

Lemma active_part_fire_activeTime s :
  active_part (fire_activeTime s) = active_tick (now s) (active_part s).
Proof.
  unfold active_part, active_tick, fire_activeTime.
  destruct (activeTimer s) as [due|] eqn:E; simpl; rewrite ?E; auto.
  destruct (due <=? now s); simpl; rewrite ?E; auto.
Qed.

Lemma active_part_fire_scroll s : active_part (fire_scroll s) = active_part s.
Proof. unfold active_part. frame_tac. Qed.

Lemma active_part_fire_mouseMove s :
  active_part (fire_mouseMove s) = active_part s.
Proof. unfold active_part. frame_tac. Qed.

Lemma active_part_fire_idle s : active_part (fire_idle s) = active_part s.
Proof. unfold active_part. frame_tac. Qed.

Lemma active_part_fire_analysis s :
  active_part (fire_analysis s) = active_part s.
Proof. unfold active_part. frame_tac. Qed.

Lemma active_part_fire_alerts s : active_part (fire_alerts s) = active_part s.
Proof. unfold active_part. frame_tac. Qed.

Lemma active_part_tick s :
  active_part (tick s) = active_tick (now s + 1) (active_part s).
Proof.
  unfold tick.
  rewrite active_part_fire_alerts, active_part_fire_analysis,
    active_part_fire_idle, active_part_fire_mouseMove, active_part_fire_scroll,
    active_part_fire_activeTime.
  reflexivity.
Qed.

Lemma ticking_tick due0 a0 s : ticking due0 a0 s -> ticking due0 a0 (tick s).
Proof.
  intros (c & Hc & E & R).
  pose proof (active_part_tick s) as T. rewrite E in T.
  unfold active_tick in T.
  destruct (due0 + 1000 * c <=? now s + 1) eqn:L.
  - apply Z.leb_le in L. exists (c + 1). rewrite T, now_tick.
    split; [lia|]. split; [|lia].
    f_equal; [f_equal|]; lia.
  - apply Z.leb_gt in L. exists c. rewrite T, now_tick.
    split; [lia|]. split; [reflexivity | lia].
Qed.

Lemma ticking_ticks due0 a0 n : forall s,
  ticking due0 a0 s -> ticking due0 a0 (ticks n s).
Proof. induction n; simpl; auto using ticking_tick. Qed.

Lemma ticking_passive due0 a0 s e :
  passive e -> ticking due0 a0 s -> ticking due0 a0 (step s e).
Proof.
  intros P H. destruct e; simpl in P; try contradiction; simpl.
  - apply ticking_ticks, H.
  - destruct H as (c & Hc & E & R). exists c.
    unfold handleScroll. simpl. destruct (scrollFx s); auto.
  - destruct H as (c & Hc & E & R). exists c.
    unfold handleClick, logEvent, axios, setMetrics.
    destruct (clickFx s) as [fx|]; auto.
    destruct (negb (truthy (click_logEvent fx))); auto.
  - destruct H as (c & Hc & E & R). exists c.
    unfold resetIdle, handleMouseMove.
    destruct (moveFx s); simpl; destruct (idleFx s); auto.
  - destruct H as (c & Hc & E & R). exists c.
    unfold resetIdle. destruct (idleFx s); auto.
  - destruct H as (c & Hc & E & R). exists c.
    unfold handleVisibilityChange, logEvent, axios. simpl.
    destruct (visFx s) as [fx|]; auto.
    destruct (negb (truthy (vis_logEvent fx))); auto.
Qed.

Lemma ticking_run due0 a0 tr : forall s,
  Forall passive tr -> ticking due0 a0 s -> ticking due0 a0 (run tr s).
Proof.
  induction tr as [|e tr IH]; intros s P H; simpl; auto.
  inversion P; subst. apply IH; auto. apply ticking_passive; auto.
Qed.

Lemma ticking_count due0 a0 s :
  ticking due0 a0 s ->
  activeTime (metrics s) = a0 + (now s + 1000 - due0) / 1000.
Proof.
  intros (c & Hc & E & R). unfold active_part in E. injection E as _ E.
  rewrite E. f_equal.
  apply (Z.div_unique _ _ c (now s + 1000 - due0 - 1000 * c)); lia.
Qed.

Lemma started_arms_timer id s :
  isTracking s = false ->
  active_part (startSession_resolved id s)
    = (Some (now s + 1000), activeTime (metrics s))
  /\ now (startSession_resolved id s) = now s.
Proof.
  intros T. unfold startSession_resolved, setSessionId.
  destruct (SessionId_eqb (sessionId s) (Some id));
    unfold setIsTracking; simpl; rewrite T; simpl; split; reflexivity.
Qed.

(** X3 - active time is whole seconds of tracking.
    Tracking is switched on by a session-start response at instant [t0].
    Whatever the page then sees - time passing, scrolls, clicks, mouse
    moves, key presses, visibility changes - [activeTime] is what it was at
    [t0] plus the whole seconds elapsed since [t0]. *)
Theorem activeTime_counts_whole_seconds tr i id tr' :
  let s0 := run tr mount in
  isTracking s0 = false ->
  nth_error (inflight s0) i = Some PStart ->
  Forall passive tr' ->
  let s := run tr' (step s0 (Response i (Started id))) in
  activeTime (metrics s)
    = activeTime (metrics s0) + (now s - now s0) / 1000.
Proof.
  intros s0 T Hi P s.
  set (s1 := step s0 (Response i (Started id))).
  assert (H1 : ticking (now s0 + 1000) (activeTime (metrics s0)) s1).
  { destruct (started_arms_timer id
                (with_inflight (remove_nth i (inflight s0)) s0) T) as [E N].
    exists 0. unfold s1. simpl. rewrite Hi. simpl. rewrite E, N. simpl.
    split; [lia|]. split; [|lia].
    f_equal; [f_equal|]; lia. }
  pose proof (ticking_count _ _ _ (ticking_run _ _ tr' s1 P H1)) as C.
  unfold s. fold s1. rewrite C. f_equal. f_equal. lia.
Qed.

Lemma activeTime_counts_whole_seconds_witness :
  let s0 := run [] mount in
  let s := run [Wait 2500; Click 1 1; Scroll 9; Wait 4600; MouseMove]
             (step s0 (Response 0 (Started "abc"))) in
  activeTime (metrics s) = activeTime (metrics s0) + (now s - now s0) / 1000.
Proof.
  apply (activeTime_counts_whole_seconds [] 0 "abc"
           [Wait 2500; Click 1 1; Scroll 9; Wait 4600; MouseMove]).
  - reflexivity.
  - reflexivity.
  - repeat constructor.
Defined.

(** ** Clicks and visibility changes *)

Lemma wf_tracking_click s :
  wf s -> isTracking s = true ->
  (exists fx, clickFx s = Some fx /\ click_logEvent fx = sessionId s) /\
  (exists fx, visFx s = Some fx /\ vis_logEvent fx = sessionId s).
Proof.
  unfold wf, shape, rendered. intros H T. rewrite T in H.
  injection H as Ha Hs Hc Hm Hi Hv Hp.
  split.
  - revert Hc. destruct (clickFx s) as [fx|]; simpl; intros Hc; [|discriminate].
    exists fx. split; congruence.
  - revert Hv. destruct (visFx s) as [fx|]; simpl; intros Hv; [|discriminate].
    exists fx. split; congruence.
Qed.

Lemma click_part_fire_activeTime s :
  click_part (fire_activeTime s) = click_part s.
Proof. unfold click_part, reports. frame_tac. Qed.

Lemma click_part_fire_scroll s : click_part (fire_scroll s) = click_part s.
Proof. unfold click_part, reports. frame_tac. Qed.

Lemma click_part_fire_mouseMove s :
  click_part (fire_mouseMove s) = click_part s.
Proof. unfold click_part, reports. frame_tac. Qed.

Lemma click_part_fire_idle s : click_part (fire_idle s) = click_part s.
Proof. unfold click_part, reports. frame_tac. Qed.

Lemma click_part_fire_analysis s :
  click_part (fire_analysis s) = click_part s.
Proof. unfold click_part, reports. frame_tac. Qed.

Lemma click_part_fire_alerts s : click_part (fire_alerts s) = click_part s.
Proof. unfold click_part, reports. frame_tac. Qed.

Lemma click_part_tick s : click_part (tick s) = click_part s.
Proof.
  unfold tick.
  rewrite click_part_fire_alerts, click_part_fire_analysis,
    click_part_fire_idle, click_part_fire_mouseMove, click_part_fire_scroll,
    click_part_fire_activeTime.
  reflexivity.
Qed.

Lemma click_part_ticks n : forall s, click_part (ticks n s) = click_part s.
Proof.
  induction n as [|n IH]; intros s; simpl; auto.
  rewrite IH. apply click_part_tick.
Qed.

Lemma click_part_Click s fx sid x y :
  clickFx s = Some fx -> click_logEvent fx = Some sid -> sid <> "" ->
  click_part (step s (Click x y)) =
  (Some fx, clicks (metrics s) + 1,
   PostTrackingEvent (Some sid) "click" (DClick x y) :: reports "click" s).
Proof.
  intros Hfx Hsid Hne. simpl. unfold handleClick. rewrite Hfx, Hsid.
  unfold logEvent. rewrite (truthy_Some sid Hne). simpl.
  unfold click_part, reports. simpl. rewrite Hfx. reflexivity.
Qed.

Lemma clicks_at_run sid fx l : forall s n rs,
  sid <> "" -> click_logEvent fx = Some sid ->
  click_part s = (Some fx, n, rs) ->
  click_part (run (clicks_at l) s) =
  (Some fx, n + Z.of_nat (List.length l), rev (map (click_report sid) l) ++ rs).
Proof.
  induction l as [|[[g x] y] l IH]; intros s n rs Hne Hsid E.
  - simpl. rewrite Z.add_0_r. exact E.
  - unfold clicks_at. cbn [flat_map app run fold_left fst snd].
    fold (clicks_at l).
    fold (run (clicks_at l) (step (step s (Wait g)) (Click x y))).
    set (s1 := step s (Wait g)).
    assert (E1 : click_part s1 = (Some fx, n, rs)).
    { unfold s1. simpl. rewrite click_part_ticks. exact E. }
    assert (F1 : clickFx s1 = Some fx).
    { unfold click_part in E1. injection E1 as E1 _ _. exact E1. }
    pose proof (click_part_Click s1 fx sid x y F1 Hsid Hne) as E2.
    unfold click_part in E1. injection E1 as _ En Er.
    rewrite En, Er in E2.
    rewrite (IH _ _ _ Hne Hsid E2).
    cbn [List.length map rev]. rewrite <- app_assoc. simpl.
    f_equal. f_equal. lia.
Qed.

(** X1 - clicks are not debounced.
    With tracking on under session id [sid], every click of a sequence,
    however close to the one before, raises [clicks] by one and sends one
    "click" report with its own coordinates, in the order of the clicks. *)
Theorem every_click_counted_and_reported tr sid l :
  let s := run tr mount in
  isTracking s = true -> sessionId s = Some sid -> sid <> "" ->
  let s' := run (clicks_at l) s in
  clicks (metrics s') = clicks (metrics s) + Z.of_nat (List.length l) /\
  reports "click" s' = rev (map (click_report sid) l) ++ reports "click" s.
Proof.
  intros s T S Hne s'.
  destruct (wf_tracking_click s (wf_reachable tr) T) as ((fx & Hfx & Hcap) & _).
  rewrite S in Hcap.
  assert (E : click_part s = (Some fx, clicks (metrics s), reports "click" s))
    by (unfold click_part; rewrite Hfx; reflexivity).
  pose proof (clicks_at_run sid fx l s _ _ Hne Hcap E) as H.
  fold s' in H. unfold click_part in H. injection H as _ H1 H2. auto.
Qed.

Lemma every_click_counted_and_reported_witness :
  let s := run [Response 0 (Started "abc")] mount in
  let s' := run (clicks_at [(0, 1, 2); (0, 1, 2); (30, 5, 6)]) s in
  clicks (metrics s') = clicks (metrics s) + 3 /\
  reports "click" s' =
    [PostTrackingEvent (Some "abc") "click" (DClick 5 6);
     PostTrackingEvent (Some "abc") "click" (DClick 1 2);
     PostTrackingEvent (Some "abc") "click" (DClick 1 2)] ++ reports "click" s.
Proof.
  apply (every_click_counted_and_reported [Response 0 (Started "abc")] "abc"
           [(0, 1, 2); (0, 1, 2); (30, 5, 6)]).
  - reflexivity.
  - reflexivity.
  - discriminate.
Defined.

(** X2 - visibility changes.
    With tracking on under session id [sid], a visibility change sends
    exactly one "visibility" report carrying the new value of
    [document.hidden], and changes no counter. *)
Theorem visibility_change_reported tr sid h :
  let s := run tr mount in
  isTracking s = true -> sessionId s = Some sid -> sid <> "" ->
  let s' := step s (VisibilityChange h) in
  sent s' = PostTrackingEvent (Some sid) "visibility" (DVisibility h) :: sent s /\
  metrics s' = metrics s /\ hidden s' = h.
Proof.
  intros s T S Hne s'.
  destruct (wf_tracking_click s (wf_reachable tr) T) as (_ & (fx & Hfx & Hcap)).
  rewrite S in Hcap. unfold s'. simpl. unfold handleVisibilityChange. simpl.
  rewrite Hfx, Hcap. unfold logEvent. rewrite (truthy_Some sid Hne). simpl.
  auto.
Qed.

Lemma visibility_change_reported_witness :
  let s := run [Response 0 (Started "abc"); Wait 1200] mount in
  let s' := step s (VisibilityChange true) in
  sent s' = PostTrackingEvent (Some "abc") "visibility" (DVisibility true)
              :: sent s /\
  metrics s' = metrics s /\ hidden s' = true.
Proof.
  apply (visibility_change_reported [Response 0 (Started "abc"); Wait 1200]
           "abc" true).
  - reflexivity.
  - reflexivity.
  - discriminate.
Defined.

(** ** Every request carries a session id the backend issued *)

Lemma sends_refl sid s : sends sid s s.
Proof. exists []. split; [reflexivity | constructor]. Qed.

Lemma sends_same sid s s' : sent s' = sent s -> sends sid s s'.
Proof. intros E. exists []. split; [exact E | constructor]. Qed.

Lemma sends_trans sid s1 s2 s3 :
  sends sid s1 s2 -> sends sid s2 s3 -> sends sid s1 s3.
Proof.
  intros (n1 & E1 & F1) (n2 & E2 & F2). exists (n2 ++ n1). split.
  - rewrite E2, E1. apply app_assoc.
  - apply Forall_app. auto.
Qed.

Lemma sends_logEvent sid ty d s : sends sid s (logEvent sid ty d s).
Proof.
  unfold logEvent. destruct (truthy sid) eqn:T; simpl.
  - exists [PostTrackingEvent sid ty d]. split; [reflexivity|].
    constructor; [|constructor]. unfold request_ok. simpl. auto.
  - apply sends_refl.
Qed.

Lemma sends_getDriftAnalysis sid a s : sends sid s (getDriftAnalysis sid a s).
Proof.
  unfold getDriftAnalysis. destruct (truthy sid) eqn:T; simpl.
  - exists [GetAnalysis sid]. split; [reflexivity|].
    constructor; [|constructor]. unfold request_ok. simpl. auto.
  - apply sends_refl.
Qed.

Lemma wf_poll_sessionId s fx :
  wf s -> analysisFx s = Some fx -> poll_sessionId fx = sessionId s.
Proof.
  unfold wf, shape, rendered. intros H E.
  injection H as _ _ _ _ _ _ H. rewrite E in H. simpl in H.
  destruct (isTracking s && truthy (sessionId s)); congruence.
Qed.

Lemma sends_timers s : wf s -> sends (sessionId s) s (timers s).
Proof.
  intros W.
  assert (W1 : wf (fire_activeTime s))
    by (revert W; apply wf_of_shape, shape_fire_activeTime).
  assert (W2 : wf (fire_scroll (fire_activeTime s)))
    by (revert W1; apply wf_of_shape, shape_fire_scroll).
  assert (W3 : wf (fire_mouseMove (fire_scroll (fire_activeTime s))))
    by (revert W2; apply wf_of_shape, shape_fire_mouseMove).
  assert (W4 : wf (fire_idle (fire_mouseMove (fire_scroll (fire_activeTime s)))))
    by (revert W3; apply wf_of_shape, shape_fire_idle).
  assert (S1 : sessionId (fire_activeTime s) = sessionId s)
    by apply (shape_sessionId _ _ (shape_fire_activeTime _)).
  assert (S2 : sessionId (fire_scroll (fire_activeTime s)) = sessionId s)
    by (rewrite (shape_sessionId _ _ (shape_fire_scroll _)); exact S1).
  assert (S3 : sessionId (fire_mouseMove (fire_scroll (fire_activeTime s)))
               = sessionId s)
    by (rewrite (shape_sessionId _ _ (shape_fire_mouseMove _)); exact S2).
  assert (S4 : sessionId (fire_idle (fire_mouseMove (fire_scroll
                 (fire_activeTime s)))) = sessionId s)
    by (rewrite (shape_sessionId _ _ (shape_fire_idle _)); exact S3).
  unfold timers.
  set (s1 := fire_activeTime s) in *.
  set (s2 := fire_scroll s1) in *.
  set (s3 := fire_mouseMove s2) in *.
  set (s4 := fire_idle s3) in *.
  apply sends_trans with s1;
    [apply sends_same, sent_fire_activeTime|].
  apply sends_trans with s2.
  { destruct (wf_captured s1 W1) as (C & _). rewrite <- S1.
    unfold s2, fire_scroll.
    destruct (scrollFx s1) as [fx|] eqn:E; [|apply sends_refl].
    destruct (scrollTimeout fx); [|apply sends_refl].
    destruct (_ <=? _); [|apply sends_refl].
    unfold scroll_timeout. rewrite (C fx eq_refl).
    match goal with |- sends _ _ (logEvent _ _ _ ?t) =>
      apply sends_trans with t; [apply sends_same; reflexivity|] end.
    apply sends_logEvent. }
  apply sends_trans with s3.
  { destruct (wf_captured s2 W2) as (_ & _ & C & _). rewrite <- S2.
    unfold s3, fire_mouseMove.
    destruct (moveFx s2) as [fx|] eqn:E; [|apply sends_refl].
    destruct (moveTimeout fx); [|apply sends_refl].
    destruct (_ <=? _); [|apply sends_refl].
    unfold move_timeout. rewrite (C fx eq_refl).
    destruct (moveCount fx >? 5); [|apply sends_same; reflexivity].
    match goal with |- sends _ _ (with_moveFx _ (logEvent ?a ?b ?c ?t)) =>
      apply sends_trans with (logEvent a b c t);
        [|apply sends_same; reflexivity];
      apply sends_trans with t; [apply sends_same; reflexivity|] end.
    apply sends_logEvent. }
  apply sends_trans with s4.
  { destruct (wf_captured s3 W3) as (_ & _ & _ & C & _). rewrite <- S3.
    unfold s4, fire_idle.
    destruct (idleFx s3) as [fx|] eqn:E; [|apply sends_refl].
    destruct (_ <=? _); [|apply sends_refl].
    unfold checkIdle. simpl.
    destruct (_ >? _); [|apply sends_same; reflexivity].
    rewrite (C fx eq_refl).
    match goal with |- sends _ _ (resetIdle (logEvent ?a ?b ?c ?t)) =>
      apply sends_trans with (logEvent a b c t);
        [|apply sends_same, sent_resetIdle];
      apply sends_trans with t; [apply sends_same; reflexivity|] end.
    apply sends_logEvent. }
  rewrite <- S4. unfold fire_analysis.
  destruct (analysisFx s4) as [fx|] eqn:E; [|apply sends_refl].
  destruct (_ <=? _); [|apply sends_refl].
  rewrite <- (wf_poll_sessionId s4 fx W4 E).
  match goal with |- sends _ _ (getDriftAnalysis _ _ ?t) =>
    apply sends_trans with t; [apply sends_same; reflexivity|] end.
  apply sends_getDriftAnalysis.
Qed.

Lemma sends_tick s : wf s -> sends (sessionId s) s (tick s).
Proof.
  intros W. rewrite tick_timers.
  apply sends_trans with (timers (with_now (now s + 1) s));
    [|apply sends_same, sent_fire_alerts].
  apply sends_trans with (with_now (now s + 1) s);
    [apply sends_same; reflexivity|].
  apply (sends_timers (with_now (now s + 1) s)).
  revert W. apply wf_of_shape. reflexivity.
Qed.

Lemma sends_ticks n : forall s, wf s -> sends (sessionId s) s (ticks n s).
Proof.
  induction n as [|n IH]; intros s W; simpl; [apply sends_refl|].
  eapply sends_trans; [apply sends_tick, W|].
  rewrite <- (sessionId_tick s). apply IH, wf_tick, W.
Qed.

Lemma sends_step s e : wf s -> sends (sessionId s) s (step s e).
Proof.
  intros W. pose proof (wf_captured s W) as (Cs & Cc & Cm & Ci & Cv).
  destruct e; simpl.
  - apply sends_ticks, W.
  - apply sends_same. unfold handleScroll. simpl.
    destruct (scrollFx s); reflexivity.
  - unfold handleClick. destruct (clickFx s) as [fx|] eqn:E;
      [|apply sends_refl].
    rewrite (Cc fx eq_refl).
    match goal with |- sends _ _ (logEvent _ _ _ ?t) =>
      apply sends_trans with t; [apply sends_same; reflexivity|] end.
    apply sends_logEvent.
  - apply sends_same. rewrite sent_resetIdle. unfold handleMouseMove.
    destruct (moveFx s); reflexivity.
  - apply sends_same, sent_resetIdle.
  - unfold handleVisibilityChange. simpl.
    destruct (visFx s) as [fx|] eqn:E; [|apply sends_same; reflexivity].
    rewrite (Cv fx eq_refl).
    match goal with |- sends _ _ (logEvent _ _ _ ?t) =>
      apply sends_trans with t; [apply sends_same; reflexivity|] end.
    apply sends_logEvent.
  - destruct (isTracking s); [apply sends_refl|].
    exists [PostSessionStart]. split; [reflexivity|].
    constructor; [exact I | constructor].
  - destruct (isTracking s); [|apply sends_refl].
    unfold stopTracking. destruct (truthy (sessionId s)) eqn:T.
    + exists [DeleteSession (sessionId s)]. split; [reflexivity|].
      constructor; [|constructor]. unfold request_ok. simpl. auto.
    + apply sends_same, sent_setIsTracking.
  - destruct (nth_error (inflight s) i) as [k|]; [|apply sends_refl].
    destruct (settle k r _) as [s'|] eqn:E; [|apply sends_refl].
    apply sent_settle in E. apply sends_same. exact E.
Qed.

Lemma sessionId_settle k r s s' :
  settle k r s = Some s' ->
  sessionId s' = sessionId s \/
  exists id, r = Started id /\ sessionId s' = Some id.
Proof.
  destruct k as [| |alert|], r; simpl; intros E; inversion E; subst; clear E;
    auto.
  - right. exists id. split; [reflexivity|].
    unfold startSession_resolved, setIsTracking, setSessionId.
    destruct (SessionId_eqb (sessionId s) (Some id)) eqn:Q.
    + apply SessionId_eqb_eq in Q.
      destruct (Bool.eqb _ _); simpl; auto.
    + destruct (Bool.eqb _ _); reflexivity.
  - left. unfold getDriftAnalysis_resolved, setDriftAnalysis, setShowAlert.
    destruct (is_drifting a && negb alert); simpl; auto.
    destruct (Bool.eqb _ _); reflexivity.
  - left. unfold stopTracking_settled, setIsTracking.
    destruct (Bool.eqb _ _); reflexivity.
  - left. unfold stopTracking_settled, setIsTracking.
    destruct (Bool.eqb _ _); reflexivity.
Qed.

Lemma sessionId_step s e :
  sessionId (step s e) = sessionId s \/
  exists i id, e = Response i (Started id) /\ sessionId (step s e) = Some id.
Proof.
  destruct e; simpl.
  - left. apply sessionId_ticks.
  - left. rewrite (shape_sessionId _ _ (shape_handleScroll _)). reflexivity.
  - left. apply (shape_sessionId _ _ (shape_handleClick _ _ _)).
  - left. rewrite (shape_sessionId _ _ (shape_resetIdle _)).
    apply (shape_sessionId _ _ (shape_handleMouseMove _)).
  - left. apply (shape_sessionId _ _ (shape_resetIdle _)).
  - left. rewrite (shape_sessionId _ _ (shape_handleVisibilityChange _)).
    reflexivity.
  - left. destruct (isTracking s); reflexivity.
  - left. destruct (isTracking s); auto. unfold stopTracking, setIsTracking.
    destruct (truthy _); auto. destruct (Bool.eqb _ _); reflexivity.
  - destruct (nth_error (inflight s) i) as [k|]; auto.
    destruct (settle k r _) as [s'|] eqn:E; auto.
    apply sessionId_settle in E. simpl in E.
    destruct E as [E | (id & -> & E)]; [left; exact E|].
    right. exists i, id. auto.
Qed.

Lemma request_from_more ids ids' r :
  (forall id, In id ids -> In id ids') ->
  request_from ids r -> request_from ids' r.
Proof.
  unfold request_from. destruct (request_session r); auto.
  intros H (id & E & N & I). exists id. auto.
Qed.

Lemma requests_from_run tr : forall s ids,
  wf s ->
  (forall id, sessionId s = Some id -> In id ids) ->
  Forall (request_from ids) (sent s) ->
  (forall id, sessionId (run tr s) = Some id -> In id (ids ++ issued tr)) /\
  Forall (request_from (ids ++ issued tr)) (sent (run tr s)).
Proof.
  induction tr as [|e tr IH]; intros s ids W Hs Hr.
  - simpl. rewrite app_nil_r. auto.
  - change (run (e :: tr) s) with (run tr (step s e)).
    change (issued (e :: tr)) with
      (match e with Response _ (Started id) => [id] | _ => [] end ++ issued tr).
    rewrite app_assoc.
    set (ids1 := ids ++ match e with Response _ (Started id) => [id]
                                | _ => [] end).
    assert (Hinc : forall id, In id ids -> In id ids1)
      by (intros id H; apply in_or_app; auto).
    apply IH; [apply wf_step, W | |].
    + intros id E.
      destruct (sessionId_step s e) as [K | (i & id' & -> & K)].
      * apply Hinc, Hs. congruence.
      * unfold ids1. apply in_or_app. right. left. congruence.
    + destruct (sends_step s e W) as (new & E & F). rewrite E.
      apply Forall_app. split.
      * apply Forall_forall. intros r Hin. rewrite Forall_forall in F.
        specialize (F r Hin). unfold request_ok in F. unfold request_from.
        destruct (request_session r) as [v|]; auto.
        destruct F as [-> T].
        destruct (sessionId s) as [id|] eqn:S; [|discriminate].
        exists id. split; [reflexivity|]. split.
        -- intros ->. discriminate.
        -- apply Hinc, Hs. reflexivity.
      * eapply Forall_impl; [|exact Hr].
        intros r. apply request_from_more, Hinc.
Qed.

(** X5 - no request under a made-up session.
    Of all the requests the tracker ever sends, each one other than a
    session start carries a non-empty session id that a session-start
    response of the run handed out. *)
Theorem requests_carry_issued_session tr :
  Forall (request_from (issued tr)) (sent (run tr mount)).
Proof.
  apply (requests_from_run tr mount []).
  - apply wf_mount.
  - intros id E. discriminate.
  - repeat constructor.
Qed.

(** X6 - an empty session id.
    In a state the tracker can reach whose session id is null or the
    empty string - tracking may well be on: a start answered with an empty
    id switches it on - no event sends anything but a session start, and
    "Stop Tracking" stops at once, without a delete request. *)
Theorem no_session_no_requests tr e :
  let s := run tr mount in
  truthy (sessionId s) = false ->
  (exists new, sent (step s e) = new ++ sent s
               /\ Forall (fun r => r = PostSessionStart) new) /\
  isTracking (step s PressStop) = false /\
  sent (step s PressStop) = sent s.
Proof.
  intros s T. split; [|split].
  - destruct (sends_step s e (wf_reachable tr)) as (new & E & F).
    exists new. split; [exact E|].
    eapply Forall_impl; [|exact F].
    intros r. unfold request_ok.
    destruct r; simpl; auto; intros [-> K]; congruence.
  - simpl. destruct (isTracking s) eqn:K; auto.
    unfold stopTracking. rewrite T. unfold setIsTracking. rewrite K.
    reflexivity.
  - simpl. destruct (isTracking s) eqn:K; auto.
    unfold stopTracking. rewrite T. apply sent_setIsTracking.
Qed.

Lemma no_session_no_requests_witness :
  let s := run [Response 0 (Started ""); Wait 12000; Click 1 2] mount in
  isTracking s = true /\
  (exists new, sent (step s (Wait 60000)) = new ++ sent s
               /\ Forall (fun r => r = PostSessionStart) new) /\
  isTracking (step s PressStop) = false /\
  sent (step s PressStop) = sent s.
Proof.
  split; [reflexivity|].
  apply (no_session_no_requests
           [Response 0 (Started ""); Wait 12000; Click 1 2] (Wait 60000)).
  reflexivity.
Defined.

(** ** The alert *)

Lemma polls_in_flight_hold_false tr i b :
  nth_error (inflight (run tr mount)) i = Some (PAnalysis b) -> b = false.
Proof.
  intros Hk.
  destruct (alert_inv_reachable tr) as (_ & _ & _ & I4). simpl in I4.
  apply I4. apply filter_In. split; [|reflexivity].
  eapply nth_error_In, Hk.
Qed.

Lemma alertTimers_timers s : alertTimers (timers s) = alertTimers s.
Proof.
  assert (V : alert_view (fire_idle (fire_mouseMove (fire_scroll
                (fire_activeTime s)))) = alert_view s).
  { rewrite alert_view_fire_idle, alert_view_fire_mouseMove,
      alert_view_fire_scroll, alert_view_fire_activeTime. reflexivity. }
  unfold alert_view in V. injection V as V _ _ _ _.
  unfold timers, fire_analysis, getDriftAnalysis, axios.
  break_goal; simpl; exact V.
Qed.

Lemma showAlert_timers s : showAlert (timers s) = showAlert s.
Proof.
  assert (V : alert_view (fire_idle (fire_mouseMove (fire_scroll
                (fire_activeTime s)))) = alert_view s).
  { rewrite alert_view_fire_idle, alert_view_fire_mouseMove,
      alert_view_fire_scroll, alert_view_fire_activeTime. reflexivity. }
  unfold alert_view in V. injection V as _ V _ _ _.
  unfold timers, fire_analysis, getDriftAnalysis, axios.
  break_goal; simpl; exact V.
Qed.

Lemma alertTimers_tick s d :
  In d (alertTimers (tick s)) -> In d (alertTimers s).
Proof.
  rewrite tick_timers. unfold fire_alerts, setShowAlert.
  destruct (existsb _ _); simpl.
  - destruct (Bool.eqb _ _); simpl; intros H; apply filter_In in H;
      destruct H as [H _]; rewrite alertTimers_timers in H; exact H.
  - rewrite alertTimers_timers. auto.
Qed.

Lemma showAlert_cleared n : forall s,
  wf s -> alert_inv 0 s ->
  (forall d, In d (alertTimers s) -> d <= now s + Z.of_nat n) ->
  showAlert (ticks n s) = false.
Proof.
  induction n as [|n IH]; intros s W H B.
  - simpl. destruct (alert_inv_parts s H) as (I1 & I2 & _).
    destruct (showAlert s) eqn:A; auto.
    destruct (alertTimers s) as [|d ts] eqn:T; [exfalso; apply I2; auto|].
    specialize (I1 d (or_introl eq_refl)).
    specialize (B d (or_introl eq_refl)). simpl in B. lia.
  - change (ticks (S n) s) with (ticks n (tick s)).
    apply IH; [apply wf_tick, W | apply alert_inv_tick; auto|].
    intros d Hd. apply alertTimers_tick in Hd. apply B in Hd.
    rewrite now_tick. lia.
Qed.

(** X8 - an alert never outlives five quiet seconds.
    After any run of the tracker, once 5 seconds (or more) pass with no
    other event, no alert is showing. *)
Theorem alert_gone_after_five_quiet_seconds tr q :
  5000 <= q -> showAlert (run (tr ++ [Wait q]) mount) = false.
Proof.
  intros Hq. rewrite run_app. simpl.
  apply showAlert_cleared; [apply wf_reachable | apply alert_inv_reachable|].
  intros d Hd.
  destruct (alert_inv_parts _ (alert_inv_reachable tr)) as (I1 & _).
  apply I1 in Hd. lia.
Qed.

Lemma alert_gone_after_five_quiet_seconds_witness :
  showAlert (run [Response 0 (Started "abc"); Wait 10000;
                  Response 1 (Analysed drifting)] mount) = true /\
  showAlert (run ([Response 0 (Started "abc"); Wait 10000;
                   Response 1 (Analysed drifting)] ++ [Wait 5000]) mount)
    = false.
Proof.
  split; [vm_compute; reflexivity|].
  apply (alert_gone_after_five_quiet_seconds
           [Response 0 (Started "abc"); Wait 10000;
            Response 1 (Analysed drifting)] 5000).
  lia.
Defined.

Lemma drifting_result_always_schedules_dismissal_witness :
  let s := run [Response 0 (Started "abc"); Wait 10000] mount in
  false = false /\
  showAlert (step s (Response 1 (Analysed drifting))) = true /\
  alertTimers (step s (Response 1 (Analysed drifting)))
    = alertTimers s ++ [now s + 5000].
Proof.
  apply (drifting_result_always_schedules_dismissal
           [Response 0 (Started "abc"); Wait 10000] 1 false drifting).
  - vm_compute. reflexivity.
  - reflexivity.
Defined.

(** X9 - the banner follows the latest result.
    When the response to an analysis poll arrives, [driftAnalysis] becomes
    that result, whatever it was before, and the alert banner is on the
    page afterwards exactly if the result says drifting: a result that does
    not takes a showing banner off the page at once. *)
Theorem banner_follows_latest_result tr i b data :
  let s := run tr mount in
  nth_error (inflight s) i = Some (PAnalysis b) ->
  let s' := step s (Response i (Analysed data)) in
  driftAnalysis s' = Some data /\ alert_visible s' = is_drifting data.
Proof.
  intros s Hk s'.
  assert (D : driftAnalysis s' = Some data).
  { unfold s'. simpl. rewrite Hk. simpl.
    unfold getDriftAnalysis_resolved, setDriftAnalysis, setShowAlert.
    destruct (is_drifting data && negb b); simpl; auto.
    destruct (Bool.eqb _ _); reflexivity. }
  split; [exact D|].
  unfold alert_visible. rewrite D.
  destruct (is_drifting data) eqn:Hd; [|apply andb_false_r].
  rewrite andb_true_r.
  rewrite (polls_in_flight_hold_false tr i b Hk) in Hk.
  unfold s'. simpl. fold s. rewrite Hk. simpl.
  unfold getDriftAnalysis_resolved. rewrite Hd. simpl.
  unfold setShowAlert. simpl.
  destruct (showAlert s) eqn:A; simpl; rewrite ?A; reflexivity.
Qed.

Lemma banner_follows_latest_result_witness :
  let s := run [Response 0 (Started "abc"); Wait 10000; Wait 10000;
                Response 1 (Analysed drifting)] mount in
  let calm := {| is_drifting := false; confidence := 1; drift_score := 3;
                 recommendation := "ok"; factors := [] |} in
  alert_visible s = true /\
  driftAnalysis (step s (Response 2 (Analysed calm))) = Some calm /\
  alert_visible (step s (Response 2 (Analysed calm))) = false.
Proof.
  split; [vm_compute; reflexivity|].
  apply (banner_follows_latest_result
           [Response 0 (Started "abc"); Wait 10000; Wait 10000;
            Response 1 (Analysed drifting)] 2 false).
  vm_compute. reflexivity.
Defined.

(** ** Idle time of a user at work *)

Lemma idle_wait_quiet n : forall s fx,
  idleFx s = Some fx ->
  now s + Z.of_nat n - idleStartTime fx <= 5000 ->
  exists fx',
    idle_part (ticks n s) = (Some fx', idleTime (metrics s), reports "idle" s)
    /\ idleStartTime fx' = idleStartTime fx.
Proof.
  induction n as [|n IH]; intros s fx Hfx Hq.
  - exists fx. unfold idle_part. simpl. rewrite Hfx. auto.
  - change (ticks (S n) s) with (ticks n (tick s)).
    pose proof (idle_part_tick s) as T.
    unfold idle_part at 2 in T. rewrite Hfx in T. unfold idle_tick in T.
    assert (G : (now s + 1 - idleStartTime fx >? 5000) = false).
    { destruct (now s + 1 - idleStartTime fx >? 5000) eqn:G; auto.
      apply Z.gtb_lt in G. lia. }
    rewrite G in T.
    assert (exists fx1, idle_part (tick s)
                          = (Some fx1, idleTime (metrics s), reports "idle" s)
                        /\ idleStartTime fx1 = idleStartTime fx)
      as (fx1 & E1 & S1).
    { destruct (idleTimer fx <=? now s + 1); rewrite T; eauto. }
    pose proof E1 as E1'. unfold idle_part in E1'. injection E1' as F1 M1 R1.
    destruct (IH (tick s) fx1 F1) as (fx' & E' & S').
    + rewrite now_tick, S1. lia.
    + exists fx'. rewrite E', M1, R1. split; [reflexivity | congruence].
Qed.

Lemma idle_part_activity s fx mouse :
  idleFx s = Some fx ->
  exists fx',
    idle_part (step s (activity mouse))
      = (Some fx', idleTime (metrics s), reports "idle" s)
    /\ idleStartTime fx' = now s
    /\ now (step s (activity mouse)) = now s.
Proof.
  intros Hfx. destruct mouse; simpl; unfold resetIdle, handleMouseMove.
  - destruct (moveFx s); simpl; rewrite Hfx; eexists;
      (split; [reflexivity | split; reflexivity]).
  - rewrite Hfx. eexists. split; [reflexivity | split; reflexivity].
Qed.

Lemma at_work_quiet more : forall s fx,
  idleFx s = Some fx -> idleStartTime fx = now s ->
  Forall (fun ga => 0 <= fst ga <= 5000) more ->
  let s' := run (flat_map (fun ga => [Wait (fst ga); activity (snd ga)]) more) s in
  exists fx',
    idle_part s' = (Some fx', idleTime (metrics s), reports "idle" s)
    /\ idleStartTime fx' = now s'.
Proof.
  induction more as [|[g m] more IH]; intros s fx Hfx Hst Hg.
  - simpl. exists fx. unfold idle_part. rewrite Hfx. auto.
  - inversion Hg as [|x l Hg1 Hg2]; subst. simpl in Hg1.
    cbn [flat_map app run fold_left fst snd].
    fold (run (flat_map (fun ga => [Wait (fst ga); activity (snd ga)]) more)
              (step (step s (Wait g)) (activity m))).
    destruct (idle_wait_quiet (Z.to_nat g) s fx Hfx) as (fx1 & E1 & S1);
      [lia|].
    set (s1 := step s (Wait g)).
    change (ticks (Z.to_nat g) s) with s1 in E1.
    pose proof E1 as E1'. unfold idle_part in E1'. injection E1' as F1 M1 R1.
    destruct (idle_part_activity s1 fx1 m F1) as (fx2 & E2 & S2 & N2).
    set (s2 := step s1 (activity m)) in *.
    pose proof E2 as E2'. unfold idle_part in E2'. injection E2' as F2 M2 R2.
    destruct (IH s2 fx2 F2) as (fx' & E' & S'); [congruence | exact Hg2|].
    exists fx'. simpl in E'. rewrite E'. split; [|exact S'].
    congruence.
Qed.

(** X4 - a user at work accrues no idle time.
    With tracking on, as long as the user moves the mouse or presses a key
    at least once in every 5 seconds, [idleTime] stays as it is and no
    "idle" report is sent. *)
Theorem no_idle_time_while_at_work tr first more q :
  let s := run tr mount in
  isTracking s = true ->
  Forall (fun ga => 0 <= fst ga <= 5000) more -> 0 <= q <= 5000 ->
  let s' := run (at_work first more q) s in
  idleTime (metrics s') = idleTime (metrics s) /\
  reports "idle" s' = reports "idle" s.
Proof.
  intros s T Hg Hq s'.
  destruct (wf_tracking s (wf_reachable tr) T) as (_ & _ & (fx & Hfx & _)).
  unfold s', at_work.
  change (run (activity first :: ?l) s) with (run l (step s (activity first))).
  rewrite run_app.
  destruct (idle_part_activity s fx first Hfx) as (fx1 & E1 & S1 & N1).
  set (s1 := step s (activity first)) in *.
  pose proof E1 as E1'. unfold idle_part in E1'. injection E1' as F1 M1 R1.
  destruct (at_work_quiet more s1 fx1 F1) as (fx2 & E2 & S2);
    [congruence | exact Hg|].
  simpl in E2.
  set (s2 := run (flat_map (fun ga => [Wait (fst ga); activity (snd ga)]) more)
                 s1) in *.
  pose proof E2 as E2'. unfold idle_part in E2'. injection E2' as F2 M2 R2.
  destruct (idle_wait_quiet (Z.to_nat q) s2 fx2 F2) as (fx3 & E3 & _); [lia|].
  change (run [Wait q] s2) with (ticks (Z.to_nat q) s2).
  unfold idle_part in E3. injection E3 as _ M3 R3.
  split; congruence.
Qed.

Lemma no_idle_time_while_at_work_witness :
  let s := run [Response 0 (Started "abc"); Wait 4000] mount in
  let s' := run (at_work true [(5000, false); (5000, true); (3000, false)] 5000)
              s in
  idleTime (metrics s') = idleTime (metrics s) /\
  reports "idle" s' = reports "idle" s.
Proof.
  apply (no_idle_time_while_at_work [Response 0 (Started "abc"); Wait 4000] true
           [(5000, false); (5000, true); (3000, false)] 5000).
  - reflexivity.
  - repeat constructor; simpl; lia.
  - lia.
Defined.

(** ** The alert and the next poll *)

Lemma poll_part_fire_activeTime s : poll_part (fire_activeTime s) = poll_part s.
Proof. unfold poll_part, polls_sent. frame_tac. Qed.

Lemma poll_part_fire_scroll s : poll_part (fire_scroll s) = poll_part s.
Proof. unfold poll_part, polls_sent. frame_tac. Qed.

Lemma poll_part_fire_mouseMove s : poll_part (fire_mouseMove s) = poll_part s.
Proof. unfold poll_part, polls_sent. frame_tac. Qed.

Lemma poll_part_fire_idle s : poll_part (fire_idle s) = poll_part s.
Proof. unfold poll_part, polls_sent. frame_tac. Qed.

Lemma isTracking_tick s : isTracking (tick s) = isTracking s.
Proof.
  rewrite tick_timers, isTracking_fire_alerts.
  rewrite (shape_isTracking _ _ (shape_timers _)). reflexivity.
Qed.

Lemma tick_before_poll s :
  tick s = fire_alerts (fire_analysis (before_poll s)).
Proof. reflexivity. Qed.

Lemma before_poll_frame s :
  poll_part (before_poll s) = poll_part s /\
  now (before_poll s) = now s + 1 /\
  isTracking (before_poll s) = isTracking s /\
  sessionId (before_poll s) = sessionId s.
Proof.
  unfold before_poll. repeat split.
  - rewrite poll_part_fire_idle, poll_part_fire_mouseMove,
      poll_part_fire_scroll, poll_part_fire_activeTime. reflexivity.
  - rewrite now_fire_idle, now_fire_mouseMove, now_fire_scroll,
      now_fire_activeTime. reflexivity.
  - rewrite (shape_isTracking _ _ (shape_fire_idle _)),
      (shape_isTracking _ _ (shape_fire_mouseMove _)),
      (shape_isTracking _ _ (shape_fire_scroll _)),
      (shape_isTracking _ _ (shape_fire_activeTime _)). reflexivity.
  - rewrite (shape_sessionId _ _ (shape_fire_idle _)),
      (shape_sessionId _ _ (shape_fire_mouseMove _)),
      (shape_sessionId _ _ (shape_fire_scroll _)),
      (shape_sessionId _ _ (shape_fire_activeTime _)). reflexivity.
Qed.

Lemma none_due t ts :
  (forall d, In d ts -> t < d) -> existsb (is_due t) ts = false.
Proof.
  intros H. destruct (existsb (is_due t) ts) eqn:E; auto.
  apply existsb_exists in E. destruct E as (d & Hd & D).
  unfold is_due in D. apply Z.leb_le in D. apply H in Hd. lia.
Qed.

Lemma armed_quiet_tick due a ts ps sid s :
  armed due a ts ps sid s -> now s + 1 < due ->
  (forall d, In d ts -> now s + 1 < d) ->
  armed due a ts ps sid (tick s).
Proof.
  intros (E & T & S) Hdue Hts.
  destruct (before_poll_frame s) as (F & N & FT & FS).
  set (s0 := before_poll s) in *.
  rewrite E in F. unfold poll_part in F. injection F as F1 F2 F3 F4.
  assert (A : fire_analysis s0 = s0).
  { unfold fire_analysis. rewrite F1. simpl. rewrite N.
    destruct (due <=? now s + 1) eqn:L; auto. apply Z.leb_le in L. lia. }
  assert (B : fire_alerts s0 = s0).
  { unfold fire_alerts. rewrite F2, N, none_due; auto. }
  rewrite tick_before_poll. fold s0. rewrite A, B.
  unfold armed, poll_part. rewrite F1, F2, F3, F4, FT, FS. auto.
Qed.

Lemma armed_quiet n : forall s due a ts ps sid,
  armed due a ts ps sid s -> now s + Z.of_nat n < due ->
  (forall d, In d ts -> now s + Z.of_nat n < d) ->
  armed due a ts ps sid (ticks n s).
Proof.
  induction n as [|n IH]; intros s due a ts ps sid H Hdue Hts; [exact H|].
  change (ticks (S n) s) with (ticks n (tick s)).
  apply IH.
  - apply armed_quiet_tick; auto; [lia|]. intros d Hd. apply Hts in Hd. lia.
  - rewrite now_tick. lia.
  - intros d Hd. apply Hts in Hd. rewrite now_tick. lia.
Qed.

(** The dismissal runs: the cell changes, the poll effect runs again and
    its interval starts anew. *)
Lemma armed_dismiss due ps sid s :
  armed due true [now s + 1] ps sid s -> now s + 1 < due -> sid <> "" ->
  armed (now s + 1 + 10000) false [] ps sid (tick s).
Proof.
  intros (E & T & S) Hdue Hne.
  destruct (before_poll_frame s) as (F & N & FT & FS).
  set (s0 := before_poll s) in *.
  rewrite E in F. unfold poll_part in F. injection F as F1 F2 F3 F4.
  assert (A : fire_analysis s0 = s0).
  { unfold fire_analysis. rewrite F1. simpl. rewrite N.
    destruct (due <=? now s + 1) eqn:L; auto. apply Z.leb_le in L. lia. }
  rewrite tick_before_poll. fold s0. rewrite A.
  unfold fire_alerts. rewrite F2, N. unfold is_due. simpl.
  rewrite Z.leb_refl. simpl.
  unfold setShowAlert. simpl. rewrite F3. simpl.
  unfold armed, poll_part, effect_analysis, polls_sent. simpl.
  rewrite FT, FS, T, S, (truthy_Some sid Hne), N. simpl.
  fold (polls_sent s0). rewrite F4. auto.
Qed.

(** The interval runs: one poll goes out. *)
Lemma armed_fire a ps sid s :
  armed (now s + 1) a [] ps sid s -> sid <> "" ->
  armed (now s + 1 + 10000) a [] (GetAnalysis (Some sid) :: ps) sid (tick s).
Proof.
  intros (E & T & S) Hne.
  destruct (before_poll_frame s) as (F & N & FT & FS).
  set (s0 := before_poll s) in *.
  rewrite E in F. unfold poll_part in F. injection F as F1 F2 F3 F4.
  rewrite tick_before_poll. fold s0.
  unfold fire_analysis. rewrite F1. simpl. rewrite N, Z.leb_refl.
  unfold getDriftAnalysis. rewrite (truthy_Some sid Hne). simpl.
  unfold fire_alerts, axios. simpl. rewrite F2. simpl.
  unfold armed, poll_part, polls_sent. simpl.
  fold (polls_sent s0). rewrite ?F2, ?F3, ?F4, ?FT, ?FS, ?N. auto.
Qed.

(** From the instant [t] the alert is raised: [a] ticks to the one that
    dismisses it, then [m] more. *)
Lemma held_back s t ps sid a m :
  armed (t + 10000) true [t + 5000] ps sid s -> now s = t -> sid <> "" ->
  Z.of_nat a = 4999 -> Z.of_nat m < 10000 ->
  armed (t + 15000) false [] ps sid (ticks (a + (1 + m)) s).
Proof.
  intros H N Hne Ha Hm.
  rewrite !ticks_add. change (ticks 1 ?x) with (tick x).
  assert (H2 : armed (t + 10000) true [t + 5000] ps sid (ticks a s)).
  { apply armed_quiet; auto; [lia|]. intros d [<- | []]. lia. }
  assert (N2 : now (ticks a s) = t + 4999) by (rewrite now_ticks; lia).
  assert (H3 : armed (t + 15000) false [] ps sid (tick (ticks a s))).
  { replace (t + 15000) with (now (ticks a s) + 1 + 10000) by lia.
    apply (armed_dismiss (t + 10000)); auto; [|lia].
    replace (now (ticks a s) + 1) with (t + 5000) by lia. exact H2. }
  apply armed_quiet; auto; [rewrite now_tick; lia|]. intros d [].
Qed.

(** X10 - an alert holds back the next poll.
    Tracking under session id [sid], no alert showing and no dismissal
    pending, a drifting result arrives and raises the alert.  Raising it
    restarts the 10-second poll interval, and so does dismissing it 5
    seconds later: for the next 15 seconds no analysis poll is sent, and
    the next one goes out exactly 15 seconds after the result. *)
Theorem alert_holds_back_next_poll tr i b data sid q :
  let s := run tr mount in
  isTracking s = true -> sessionId s = Some sid -> sid <> "" ->
  showAlert s = false -> alertTimers s = [] ->
  nth_error (inflight s) i = Some (PAnalysis b) ->
  is_drifting data = true ->
  0 <= q < 15000 ->
  let s1 := step s (Response i (Analysed data)) in
  polls_sent (run [Wait q] s1) = polls_sent s /\
  polls_sent (run [Wait 15000] s1) = GetAnalysis (Some sid) :: polls_sent s.
Proof.
  intros s T S Hne A0 T0 Hk Hd Hq s1.
  pose proof (polls_in_flight_hold_false tr i b Hk) as B.
  subst b.
  assert (H1 : armed (now s + 10000) true [now s + 5000] (polls_sent s) sid s1
               /\ now s1 = now s).
  { unfold s1. cbn [step]. fold s. rewrite Hk. cbn [settle].
    unfold getDriftAnalysis_resolved. rewrite Hd. simpl.
    unfold setShowAlert. simpl. rewrite A0. simpl.
    unfold armed, poll_part, effect_analysis, polls_sent. simpl.
    rewrite T, S, (truthy_Some sid Hne), T0. simpl. auto. }
  destruct H1 as [H1 N1].
  assert (Ea : Z.of_nat (Z.to_nat 4999) = 4999) by (apply Z2Nat.id; lia).
  assert (Eb : Z.of_nat (Z.to_nat 9999) = 9999) by (apply Z2Nat.id; lia).
  revert Ea Eb. generalize (Z.to_nat 4999) as a, (Z.to_nat 9999) as c.
  intros a c Ea Eb.
  assert (Ra : forall k, 0 <= k ->
            step s1 (Wait (5000 + k)) = ticks (a + (1 + Z.to_nat k)) s1).
  { intros k Hk0. cbn [step]. f_equal.
    apply Nat2Z.inj. rewrite !Nat2Z.inj_add, Ea, !Z2Nat.id by lia.
    change (Z.of_nat 1) with 1. lia. }
  split.
  - change (run [Wait q] s1) with (step s1 (Wait q)).
    destruct (Z_lt_le_dec q 5000) as [L | L].
    + assert (H : armed (now s + 10000) true [now s + 5000] (polls_sent s) sid
                    (ticks (Z.to_nat q) s1)).
      { apply armed_quiet; auto; [rewrite Z2Nat.id; lia|].
        intros d [<- | []]. rewrite Z2Nat.id; lia. }
      destruct H as (H & _). unfold poll_part in H. injection H as _ _ _ H.
      exact H.
    + replace q with (5000 + (q - 5000)) by lia. rewrite Ra by lia.
      destruct (held_back s1 (now s) (polls_sent s) sid a (Z.to_nat (q - 5000)))
        as (H & _); auto; [rewrite Z2Nat.id; lia|].
      unfold poll_part in H. injection H as _ _ _ H. exact H.
  - change (run [Wait 15000] s1) with (step s1 (Wait (5000 + 10000))).
    rewrite Ra by lia.
    assert (Ec : Z.to_nat 10000 = (c + 1)%nat).
    { apply Nat2Z.inj. rewrite Nat2Z.inj_add, Eb, Z2Nat.id by lia.
      change (Z.of_nat 1) with 1. lia. }
    rewrite Ec.
    replace (a + (1 + (c + 1)))%nat with ((a + (1 + c)) + 1)%nat by lia.
    rewrite (ticks_add (a + (1 + c)) 1). change (ticks 1 ?x) with (tick x).
    pose proof (held_back s1 (now s) (polls_sent s) sid a c H1 N1 Hne Ea
                  ltac:(lia)) as H4.
    assert (N4 : now (ticks (a + (1 + c)) s1) = now s + 14999).
    { rewrite now_ticks, !Nat2Z.inj_add, Ea, Eb. change (Z.of_nat 1) with 1.
      lia. }
    replace (now s + 15000) with (now (ticks (a + (1 + c)) s1) + 1) in H4
      by lia.
    destruct (armed_fire _ _ _ _ H4 Hne) as (H & _).
    unfold poll_part in H. injection H as _ _ _ H. exact H.
Qed.

Lemma alert_holds_back_next_poll_witness :
  let s := run [Response 0 (Started "abc"); Wait 10000] mount in
  let s1 := step s (Response 1 (Analysed drifting)) in
  polls_sent (run [Wait 14999] s1) = polls_sent s /\
  polls_sent (run [Wait 15000] s1) = GetAnalysis (Some "abc") :: polls_sent s.
Proof.
  apply (alert_holds_back_next_poll [Response 0 (Started "abc"); Wait 10000] 1
           false drifting "abc" 14999).
  - vm_compute. reflexivity.
  - vm_compute. reflexivity.
  - discriminate.
  - vm_compute. reflexivity.
  - vm_compute. reflexivity.
  - vm_compute. reflexivity.
  - reflexivity.
  - lia.
Defined.

(** ** Rendering *)

Lemma length_append a b :
  String.length (a ++ b)%string = (String.length a + String.length b)%nat.
Proof. induction a as [|c a IH]; simpl; auto. Qed.

Lemma append_inj a1 : forall a2 b1 b2,
  String.length a1 = String.length a2 ->
  (a1 ++ b1)%string = (a2 ++ b2)%string -> a1 = a2 /\ b1 = b2.
Proof.
  induction a1 as [|c a1 IH]; intros [|c2 a2] b1 b2 L E; simpl in *;
    try discriminate; auto.
  injection E as -> E. injection L as L.
  destruct (IH a2 b1 b2 L E) as [-> ->]. auto.
Qed.

Lemma toString_inj a b : toString a = toString b -> a = b.
Proof.
  unfold toString. intros E.
  assert (N : forall z, Z.to_int z <> Decimal.Pos Decimal.Nil
                        /\ Z.to_int z <> Decimal.Neg Decimal.Nil).
  { intros [|p|p]; simpl; split; try discriminate;
      intros H; injection H as H; exact (DecimalPos.Unsigned.to_uint_nonnil p H). }
  apply DecimalZ.to_int_inj.
  assert (S : Some (Z.to_int a) = Some (Z.to_int b)).
  { rewrite <- (NilZero.isi (Z.to_int a)) by apply N.
    rewrite <- (NilZero.isi (Z.to_int b)) by apply N.
    rewrite E. reflexivity. }
  congruence.
Qed.

(** On 0..59 the padded seconds are the two decimal digits. *)
Lemma padStart_seconds n :
  0 <= n < 60 -> padStart 2 "0" (toString n) = two_digits n.
Proof.
  intros H.
  assert (E : forallb (fun k => String.eqb (padStart 2 "0" (toString (Z.of_nat k)))
                                           (two_digits (Z.of_nat k)))
                      (seq 0 60) = true) by (vm_compute; reflexivity).
  rewrite forallb_forall in E.
  specialize (E (Z.to_nat n)). rewrite Z2Nat.id in E by lia.
  apply String.eqb_eq, E, in_seq. lia.
Qed.

Lemma two_digits_inj a b :
  0 <= a < 60 -> 0 <= b < 60 -> two_digits a = two_digits b -> a = b.
Proof.
  intros Ha Hb E.
  assert (T : forallb (fun i => forallb (fun j =>
              implb (String.eqb (two_digits (Z.of_nat i)) (two_digits (Z.of_nat j)))
                    (Nat.eqb i j)) (seq 0 60)) (seq 0 60) = true)
    by (vm_compute; reflexivity).
  rewrite forallb_forall in T.
  specialize (T (Z.to_nat a)). rewrite Z2Nat.id in T by lia.
  assert (Ia : In (Z.to_nat a) (seq 0 60)) by (apply in_seq; lia).
  specialize (T Ia). rewrite forallb_forall in T.
  specialize (T (Z.to_nat b)). rewrite Z2Nat.id in T by lia.
  assert (Ib : In (Z.to_nat b) (seq 0 60)) by (apply in_seq; lia).
  specialize (T Ib). rewrite E, String.eqb_refl in T. simpl in T.
  apply Nat.eqb_eq in T. lia.
Qed.

Lemma formatTime_layout s :
  0 <= s -> formatTime s = (toString (s / 60) ++ ":" ++ two_digits (s mod 60))%string.
Proof.
  intros H. unfold formatTime. cbv zeta.
  rewrite Z.rem_mod_nonneg by lia.
  rewrite padStart_seconds; [reflexivity|].
  apply Z.mod_pos_bound. lia.
Qed.

(** X11 - what the "Active Time" card shows.
    In every state the tracker can reach, [activeTime] is not negative and
    [formatTime] renders it as the minutes, a colon, and exactly two
    digits for the seconds left over. *)
Theorem active_time_card_shows_minutes_and_seconds tr :
  let t := activeTime (metrics (run tr mount)) in
  0 <= t /\
  formatTime t = (toString (t / 60) ++ ":" ++ two_digits (t mod 60))%string /\
  String.length (formatTime t) = (String.length (toString (t / 60)) + 3)%nat.
Proof.
  intros t.
  assert (H : 0 <= t).
  { pose proof (updated_le _ _ (updated_run tr mount)) as (H & _).
    exact H. }
  split; [exact H|]. split; [apply formatTime_layout, H|].
  rewrite formatTime_layout by exact H. rewrite length_append. reflexivity.
Qed.

(** X12 - [formatTime] tells durations apart.
    Two different non-negative numbers of seconds are never rendered as
    the same text. *)
Theorem formatTime_injective a b :
  0 <= a -> 0 <= b -> formatTime a = formatTime b -> a = b.
Proof.
  intros Ha Hb E.
  assert (L : String.length (formatTime a) = String.length (formatTime b))
    by congruence.
  rewrite !formatTime_layout in E, L by assumption.
  rewrite !length_append in L. unfold two_digits in L. simpl in L.
  assert (Lm : String.length (toString (a / 60))
               = String.length (toString (b / 60))) by lia.
  destruct (append_inj _ _ _ _ Lm E) as [Em Es].
  apply toString_inj in Em. injection Es as E1 E2.
  assert (Et : two_digits (a mod 60) = two_digits (b mod 60))
    by (unfold two_digits; congruence).
  apply two_digits_inj in Et; try (apply Z.mod_pos_bound; lia).
  rewrite (Z.div_mod a 60), (Z.div_mod b 60) by lia. congruence.
Qed.

Lemma formatTime_injective_witness : 3725 = 62 * 60 + 5.
Proof.
  apply (formatTime_injective 3725 (62 * 60 + 5)).
  - lia.
  - lia.
  - reflexivity.
Defined.

Example formatTime_examples :
  formatTime 0 = "0:00" /\ formatTime 65 = "1:05" /\ formatTime 3725 = "62:05".
Proof. vm_compute. repeat split; reflexivity. Qed.

Lemma replace_underscores_length key :
  String.length (replace_underscores key) = String.length key.
Proof. induction key as [|c key IH]; simpl; auto. Qed.

Lemma replace_underscores_clean key :
  ~ In "_"%char (list_ascii_of_string (replace_underscores key)).
Proof.
  induction key as [|c key IH]; simpl; [tauto|].
  intros [H | H]; [|exact (IH H)].
  destruct (Ascii.eqb c "_") eqn:E; [discriminate|].
  subst c. discriminate.
Qed.

Lemma replace_underscores_idem key :
  replace_underscores (replace_underscores key) = replace_underscores key.
Proof.
  induction key as [|c key IH]; simpl; auto.
  rewrite IH. destruct (Ascii.eqb c "_") eqn:E; [reflexivity|].
  rewrite E. reflexivity.
Qed.

(** X13 - the factor chips.
    "Detected Factors" shows one chip per factor whose flag is true, in
    the order of the entries; a chip has the length of its key and no
    underscore in it, and replacing underscores twice changes nothing
    more. *)
Theorem factor_chips_show_flagged_factors factors :
  List.length (factor_chips factors) = List.length (filter snd factors) /\
  Forall (fun chip => ~ In "_"%char (list_ascii_of_string chip))
         (factor_chips factors) /\
  map String.length (factor_chips factors)
    = map (fun kv => String.length (fst kv)) (filter snd factors) /\
  map replace_underscores (factor_chips factors) = factor_chips factors.
Proof.
  unfold factor_chips. repeat split.
  - apply length_map.
  - apply Forall_forall. intros chip H. apply in_map_iff in H.
    destruct H as (kv & <- & _). apply replace_underscores_clean.
  - rewrite map_map. apply map_ext. intros kv. apply replace_underscores_length.
  - rewrite map_map. apply map_ext. intros kv. apply replace_underscores_idem.
Qed.

(** ** The drift-score bar *)

Lemma Qgtb_mono a b c : Qle a b -> Qgtb a c = true -> Qgtb b c = true.
Proof.
  unfold Qgtb. intros L H.
  destruct (Qle_bool b c) eqn:E; [|reflexivity].
  apply Qle_bool_iff in E.
  assert (K : Qle_bool a c = true)
    by (apply Qle_bool_iff; eapply Qle_trans; eassumption).
  rewrite K in H. discriminate.
Qed.

(** X15 - the drift-score bar.
    A higher drift score never gets a calmer colour (green, yellow, red in
    that order) nor a narrower bar, and the bar is never wider than 100
    percent. *)
Theorem drift_bar_grows_with_score a b :
  Qle a b ->
  (severity (bar_class a) <= severity (bar_class b))%nat /\
  Qle (bar_width a) (bar_width b) /\
  Qle (bar_width b) (inject_Z 100).
Proof.
  intros L. split; [|split].
  - unfold bar_class.
    destruct (Qgtb a (inject_Z 60)) eqn:A6, (Qgtb a (inject_Z 40)) eqn:A4,
             (Qgtb b (inject_Z 60)) eqn:B6, (Qgtb b (inject_Z 40)) eqn:B4;
      try (rewrite (Qgtb_mono a b _ L A6) in B6; discriminate);
      try (rewrite (Qgtb_mono a b _ L A4) in B4; discriminate);
      cbv [severity String.eqb Ascii.eqb Bool.eqb]; lia.
  - unfold bar_width.
    destruct (Qle_bool a (inject_Z 100)) eqn:A;
      destruct (Qle_bool b (inject_Z 100)) eqn:B.
    + exact L.
    + apply Qle_bool_iff, A.
    + apply Qle_bool_iff in B.
      assert (K : Qle_bool a (inject_Z 100) = true)
        by (apply Qle_bool_iff; eapply Qle_trans; eassumption).
      congruence.
    + apply Qle_refl.
  - unfold bar_width.
    destruct (Qle_bool b (inject_Z 100)) eqn:B.
    + apply Qle_bool_iff, B.
    + apply Qle_refl.
Qed.

Lemma drift_bar_grows_with_score_witness :
  (severity (bar_class (41 # 1)) <= severity (bar_class (250 # 2)))%nat /\
  Qle (bar_width (41 # 1)) (bar_width (250 # 2)) /\
  Qle (bar_width (250 # 2)) (inject_Z 100).
Proof.
  apply (drift_bar_grows_with_score (41 # 1) (250 # 2)).
  unfold Qle. simpl. lia.
Defined.

(** ** The landing page *)

Lemma landing_live_tick t0 c s :
  LandingPage.live t0 c s -> LandingPage.live t0 c (LandingPage.tick s).
Proof.
  intros (f & k & Hf & Hs & Hc & Hn & Ha & Ht & Hr).
  unfold LandingPage.tick. simpl. rewrite Hf.
  destruct (LandingPage.timer f <=? LandingPage.now s + 1) eqn:L.
  - apply Z.leb_le in L. unfold LandingPage.timer_fired.
    exists {| LandingPage.startTime := LandingPage.startTime f;
              LandingPage.scrollCount := LandingPage.scrollCount f;
              LandingPage.timer := LandingPage.now s + 1 + 1000 |}, (k + 1).
    cbn [LandingPage.fx LandingPage.stats LandingPage.now LandingPage.scrolls
         LandingPage.activeTime LandingPage.startTime LandingPage.scrollCount
         LandingPage.timer].
    repeat split; auto; try lia.
    rewrite Hs. symmetry. apply (Z.div_unique _ _ _ 0); lia.
  - apply Z.leb_gt in L. exists f, k.
    cbn [LandingPage.fx LandingPage.stats LandingPage.now].
    repeat split; auto; lia.
Qed.

Lemma landing_live_ticks t0 c n : forall s,
  LandingPage.live t0 c s -> LandingPage.live t0 c (LandingPage.ticks n s).
Proof. induction n; simpl; auto using landing_live_tick. Qed.

Lemma landing_live_run tr : forall t0 c s,
  Forall (fun e => e <> LandingPage.Unmount) tr ->
  LandingPage.live t0 c s ->
  LandingPage.live t0 (c + LandingPage.scroll_events tr) (LandingPage.run tr s).
Proof.
  induction tr as [|e tr IH]; intros t0 c s P H.
  - simpl. unfold LandingPage.scroll_events. simpl. rewrite Z.add_0_r. exact H.
  - inversion P as [|e' tr' Pe Ptr]; subst.
    change (LandingPage.run (e :: tr) s)
      with (LandingPage.run tr (LandingPage.step s e)).
    destruct e; [| |congruence].
    + replace (LandingPage.scroll_events (LandingPage.Wait ms :: tr))
        with (LandingPage.scroll_events tr) by reflexivity.
      apply IH; auto. simpl. apply landing_live_ticks, H.
    + replace (c + LandingPage.scroll_events (LandingPage.Scroll :: tr))
        with (c + 1 + LandingPage.scroll_events tr)
        by (unfold LandingPage.scroll_events; cbn [filter List.length]; lia).
      apply IH; auto.
      destruct H as (f & k & Hf & Hs & Hc & Hn & Ha & Ht & Hr).
      simpl. unfold LandingPage.handleScroll. rewrite Hf.
      exists {| LandingPage.startTime := LandingPage.startTime f;
                LandingPage.scrollCount := LandingPage.scrollCount f + 1;
                LandingPage.timer := LandingPage.timer f |}, k.
      cbn [LandingPage.fx LandingPage.stats LandingPage.now LandingPage.scrolls
           LandingPage.activeTime LandingPage.startTime LandingPage.scrollCount
           LandingPage.timer].
      repeat split; auto; lia.
Qed.

Lemma landing_dead_run tr : forall s,
  LandingPage.fx s = None ->
  LandingPage.stats (LandingPage.run tr s) = LandingPage.stats s.
Proof.
  assert (T : forall n s, LandingPage.fx s = None ->
              LandingPage.fx (LandingPage.ticks n s) = None /\
              LandingPage.stats (LandingPage.ticks n s) = LandingPage.stats s).
  { induction n as [|n IHn]; intros s H; simpl; auto.
    assert (E : LandingPage.tick s
                = {| LandingPage.stats := LandingPage.stats s;
                     LandingPage.fx := LandingPage.fx s;
                     LandingPage.now := LandingPage.now s + 1 |})
      by (unfold LandingPage.tick; simpl; rewrite H; reflexivity).
    rewrite E.
    destruct (IHn {| LandingPage.stats := LandingPage.stats s;
                     LandingPage.fx := LandingPage.fx s;
                     LandingPage.now := LandingPage.now s + 1 |} H) as [A B].
    split; [exact A | exact B]. }
  induction tr as [|e tr IH]; intros s H; simpl; auto.
  destruct e; simpl.
  - destruct (T (Z.to_nat ms) s H) as [A B]. rewrite IH; auto.
  - unfold LandingPage.handleScroll. rewrite H. apply IH, H.
  - rewrite IH; reflexivity.
Qed.

(** X14 - the figures of the landing page.
    Mounted at instant [t0], after any sequence of scrolls and waits the
    page shows as [scrolls] the number of scroll events so far - every one
    counts, there is no debounce - and as [activeTime] the whole seconds
    since [t0]; once unmounted, the figures no longer change. *)
Theorem landing_page_counts_scrolls_and_seconds t0 tr tr' :
  Forall (fun e => e <> LandingPage.Unmount) tr ->
  let s := LandingPage.run tr (LandingPage.mount t0) in
  LandingPage.scrolls (LandingPage.stats s) = LandingPage.scroll_events tr /\
  LandingPage.activeTime (LandingPage.stats s)
    = (LandingPage.now s - t0) / 1000 /\
  LandingPage.stats (LandingPage.run (LandingPage.Unmount :: tr') s)
    = LandingPage.stats s.
Proof.
  intros P s.
  assert (H0 : LandingPage.live t0 0 (LandingPage.mount t0)).
  { exists {| LandingPage.startTime := t0; LandingPage.scrollCount := 0;
               LandingPage.timer := t0 + 1000 |}, 0.
    unfold LandingPage.mount.
    cbn [LandingPage.fx LandingPage.stats LandingPage.now LandingPage.scrolls
         LandingPage.activeTime LandingPage.startTime LandingPage.scrollCount
         LandingPage.timer].
    repeat split; lia. }
  pose proof (landing_live_run tr t0 0 _ P H0) as H. fold s in H.
  destruct H as (f & k & Hf & Hs & Hc & Hn & Ha & Ht & Hr).
  split; [rewrite Hn; lia|]. split.
  - rewrite Ha.
    apply (Z.div_unique _ _ _ (LandingPage.now s - t0 - 1000 * k)); lia.
  - change (LandingPage.run (LandingPage.Unmount :: tr') s)
      with (LandingPage.run tr' (LandingPage.unmount s)).
    rewrite landing_dead_run; reflexivity.
Qed.

Lemma landing_page_counts_scrolls_and_seconds_witness :
  let tr := [LandingPage.Scroll; LandingPage.Wait 1700; LandingPage.Scroll;
             LandingPage.Scroll; LandingPage.Wait 2400] in
  let s := LandingPage.run tr (LandingPage.mount 1000000) in
  LandingPage.scrolls (LandingPage.stats s) = 3 /\
  LandingPage.activeTime (LandingPage.stats s)
    = (LandingPage.now s - 1000000) / 1000 /\
  LandingPage.stats
    (LandingPage.run [LandingPage.Unmount; LandingPage.Scroll;
                      LandingPage.Wait 5000] s)
    = LandingPage.stats s.
Proof.
  apply (landing_page_counts_scrolls_and_seconds 1000000
           [LandingPage.Scroll; LandingPage.Wait 1700; LandingPage.Scroll;
            LandingPage.Scroll; LandingPage.Wait 2400]
           [LandingPage.Scroll; LandingPage.Wait 5000]).
  repeat constructor; discriminate.
Defined.
